(** * Page objects of the login / dashboard UI test suite

    A shallow embedding of [tests/pages/common/base.page.ts],
    [tests/pages/auth/login.page.ts] and
    [tests/pages/dashboard/dashboard.page.ts].

    The page objects are [async] methods that drive a browser page through
    the automation engine and may throw.  They are embedded as computations
    of a state-and-exception monad [Async] over a [World]: the live page,
    a millisecond clock and the log of the engine calls issued so far.
    The page itself is not part of the repository; it is an arbitrary
    [Surface] (what can be observed of it, how it reacts to an action, how
    it changes as one millisecond passes, how long a call takes to reach
    it).  The page lives on between two calls: what one call has seen, the
    next one need not find. *)

From Stdlib Require Import ZArith List String Bool Lia.
Import ListNotations.

Local Open Scope string_scope.
Local Open Scope Z_scope.
Local Open Scope list_scope.

(** ** Constants ([tests/utils/constants]) *)

Module URLs.
(** [BASE_URL: process.env.BASE_URL || 'https://example.com'] *)
Definition BASE_URL (process_env_BASE_URL : option string) : string :=
  match process_env_BASE_URL with
  | Some EmptyString | None => "https://example.com"
  | Some s => s
  end.
Definition LOGIN : string := "/login".
Definition LOGOUT : string := "/logout".
Definition DASHBOARD : string := "/dashboard".
End URLs.

Module TIMEOUTS.
Definition SHORT : Z := 5000.
Definition MEDIUM : Z := 10000.
Definition LONG : Z := 30000.
Definition EXTRA_LONG : Z := 60000.
End TIMEOUTS.

Module TEST_IDS.
Definition LOGIN_FORM := "login-form".
Definition EMAIL_INPUT := "email-input".
Definition PASSWORD_INPUT := "password-input".
Definition LOGIN_BUTTON := "login-button".
Definition REMEMBER_ME_CHECKBOX := "remember-me-checkbox".
Definition FORGOT_PASSWORD_LINK := "forgot-password-link".
Definition SIGNUP_LINK := "signup-link".
Definition ERROR_MESSAGE := "error-message".
Definition LOADING_SPINNER := "loading-spinner".
Definition DASHBOARD_HEADER := "dashboard-header".
Definition USER_PROFILE := "user-profile".
Definition LOGOUT_BUTTON := "logout-button".
End TEST_IDS.

Module ERROR_MESSAGES.
Definition INVALID_CREDENTIALS := "Invalid email or password".
Definition EMAIL_REQUIRED := "Email is required".
Definition PASSWORD_REQUIRED := "Password is required".
End ERROR_MESSAGES.

(** [use.actionTimeout] and [expect.timeout] of
    [tests/config/playwright.config.ts], both [10 * 1000]. *)
Module CONFIG.
Definition actionTimeout : Z := 10 * 1000.
Definition expectTimeout : Z := 10 * 1000.
End CONFIG.

(** [interface UserCredentials]: [rememberMe?] is optional. *)
Record UserCredentials : Type := {
  email : string;
  password : string;
  rememberMe : option bool
}.

(** ** JavaScript values *)

(** [hay.includes(needle)] on strings. *)
Fixpoint includes (needle hay : string) : bool :=
  if String.prefix needle hay then true
  else match hay with
       | EmptyString => false
       | String _ rest => includes needle rest
       end.

(** Truthiness of an optional boolean: [undefined] and [false] are falsy. *)
Definition truthy (o : option bool) : bool :=
  match o with
  | Some true => true
  | _ => false
  end.

(** [a || b] on a possibly undefined string: the empty string is falsy. *)
Definition or_string (a : option string) (b : string) : string :=
  match a with
  | Some EmptyString | None => b
  | Some s => s
  end.

(** Truthiness of an optional string: [undefined] and [''] are falsy. *)
Definition truthy_string (o : option string) : bool :=
  match o with
  | Some (String _ _) => true
  | _ => false
  end.

(** A parameter with a default value: the default applies when the argument
    is left out. *)
Definition or_default {A : Type} (arg : option A) (dflt : A) : A :=
  match arg with
  | Some v => v
  | None => dflt
  end.

(** ** The automation engine

    The engine is a third-party library, not code of this repository.  Of
    its calls, the page objects rely on this much: a waiting call
    ([waitFor], [waitForLoadState], [waitForFunction], [goto], a retrying
    [expect]) polls the live page until its condition holds or its timeout
    has passed, and throws on expiry; an action ([click], [fill], [clear])
    first waits, for at most the configured action timeout, until its target
    is visible and enabled.  Time is counted in milliseconds.  It passes
    while a call waits, and it passes between calls: every call is a round
    trip of its own to the browser, and the page goes on changing while the
    call is on its way.  Every timeout a page object passes is a positive
    constant (a timeout of 0, which the engine reads as no limit, does not
    occur). *)

(** A locator: [page.getByTestId(id)], or [page.locator(css)] with the
    attribute selector on [data-testid] for [id]. *)
Inductive Locator : Type :=
| getByTestId (testId : string)
| locatorTestIdAttr (testId : string).

Inductive WaitState : Type := visible | hidden.

Inductive LoadState : Type := networkidle | domcontentloaded.

(** The functions handed to [page.waitForFunction]:
    [(p) => !window.location.pathname.includes(p)]. *)
Inductive PageFunction : Type :=
| pathname_excludes (path : string).

(** The calls a page object issues to the engine. *)
Inductive Call : Type :=
| locator_waitFor (l : Locator) (state : WaitState) (timeout : Z)
| locator_click (l : Locator)
| locator_clear (l : Locator)
| locator_fill (l : Locator) (text : string)
| locator_isChecked (l : Locator)
| locator_textContent (l : Locator)
| page_goto (url : string) (waitUntil : LoadState) (timeout : Z)
| page_waitForLoadState (state : LoadState) (timeout : Z)
| page_waitForFunction (f : PageFunction) (timeout : Z)
| expect_toBeVisible (l : Locator).

(** The element a call is addressed to, if any. *)
Definition target (c : Call) : option Locator :=
  match c with
  | locator_waitFor l _ _ | locator_click l | locator_clear l
  | locator_fill l _ | locator_isChecked l | locator_textContent l
  | expect_toBeVisible l => Some l
  | page_goto _ _ _ | page_waitForLoadState _ _ | page_waitForFunction _ _ => None
  end.

Definition is_click (c : Call) : bool :=
  match c with
  | locator_click _ => true
  | _ => false
  end.

Definition Locator_eqb (a b : Locator) : bool :=
  match a, b with
  | getByTestId x, getByTestId y => String.eqb x y
  | locatorTestIdAttr x, locatorTestIdAttr y => String.eqb x y
  | _, _ => false
  end.

Definition touches (l : Locator) (c : Call) : bool :=
  match target c with
  | Some l' => Locator_eqb l l'
  | None => false
  end.

(** The live UI surface: the only store there is. *)
Record Surface : Type := {
  dom : Type;
  (** the page one millisecond later, left alone *)
  elapse : dom -> dom;
  (** the milliseconds a call issued now takes to reach the page *)
  round_trip : dom -> nat;
  is_visible : Locator -> dom -> bool;
  is_enabled : Locator -> dom -> bool;
  is_checked : Locator -> dom -> bool;
  text_content : Locator -> dom -> option string;
  input_value : Locator -> dom -> string;
  pathname : dom -> string;
  reached : LoadState -> dom -> bool;
  (** the page right after an action *)
  on_click : Locator -> dom -> dom;
  on_clear : Locator -> dom -> dom;
  on_fill : Locator -> string -> dom -> dom;
  on_goto : string -> dom -> dom
}.

Arguments elapse {U} d : rename.
Arguments round_trip {U} d : rename.
Arguments is_visible {U} l d : rename.
Arguments is_enabled {U} l d : rename.
Arguments is_checked {U} l d : rename.
Arguments text_content {U} l d : rename.
Arguments input_value {U} l d : rename.
Arguments pathname {U} d : rename.
Arguments reached {U} s d : rename.
Arguments on_click {U} l d : rename.
Arguments on_clear {U} l d : rename.
Arguments on_fill {U} l text d : rename.
Arguments on_goto {U} url d : rename.

Inductive Error : Type := TimeoutError | AssertionError.

Inductive Outcome (A : Type) : Type :=
| Returned (a : A)
| Thrown (e : Error).

Arguments Returned {A} a.
Arguments Thrown {A} e.

Record World (U : Surface) : Type := mkWorld {
  page : dom U;
  clock : Z;
  calls : list Call
}.

Arguments mkWorld {U} page clock calls.
Arguments page {U} w.
Arguments clock {U} w.
Arguments calls {U} w.

Definition Async (U : Surface) (A : Type) : Type :=
  World U -> Outcome A * World U.

Section Engine.
Context {U : Surface}.

Definition ret {A : Type} (a : A) : Async U A := fun w => (Returned a, w).

Definition throw {A : Type} (e : Error) : Async U A := fun w => (Thrown e, w).

Definition bind {A B : Type} (m : Async U A) (k : A -> Async U B) : Async U B :=
  fun w =>
    match m w with
    | (Returned a, w') => k a w'
    | (Thrown e, w') => (Thrown e, w')
    end.

(** [try { m } catch { h }]: the handler sees the world the failure left. *)
Definition try_catch {A : Type} (m : Async U A) (h : Async U A) : Async U A :=
  fun w =>
    match m w with
    | (Returned a, w') => (Returned a, w')
    | (Thrown _, w') => h w'
    end.

(** The page [n] milliseconds later. *)
Fixpoint after_ms (n : nat) (d : dom U) : dom U :=
  match n with
  | O => d
  | S k => after_ms k (elapse d)
  end.

(** Polling: the first moment within the budget at which [ready] holds,
    and the page at that moment. *)
Fixpoint settle (ready : dom U -> bool) (budget : nat) (d : dom U)
  : option (nat * dom U) :=
  if ready d then Some (O, d)
  else match budget with
       | O => None
       | S b =>
           match settle ready b (elapse d) with
           | Some (n, d') => Some (S n, d')
           | None => None
           end
       end.

(** The page as a call issued on [d] finds it: one round trip later. *)
Definition found (d : dom U) : dom U := after_ms (round_trip d) d.

(** The world as the next call finds it. *)
Definition as_found (w : World U) : World U :=
  mkWorld (found (page w)) (clock w + Z.of_nat (round_trip (page w))) (calls w).

(** Issuing a call: it is logged, and it reaches the page one round trip
    later. *)
Definition record (c : Call) (w : World U) : World U :=
  let w0 := as_found w in
  mkWorld (page w0) (clock w0) (calls w0 ++ [c]).

(** Every waiting call of the engine: issue the call, then poll, from the
    moment it reaches the page, until [ready] or until [timeout]
    milliseconds have passed; on success apply the call's [effect] to the
    page, on expiry throw [err]. *)
Definition poll (c : Call) (err : Error) (ready : dom U -> bool)
           (timeout : Z) (effect : dom U -> dom U) : Async U unit :=
  fun w =>
    let w0 := record c w in
    match settle ready (Z.to_nat timeout) (page w0) with
    | Some (n, d) =>
        (Returned tt, mkWorld (effect d) (clock w0 + Z.of_nat n) (calls w0))
    | None =>
        (Thrown err,
         mkWorld (after_ms (Z.to_nat timeout) (page w0))
                 (clock w0 + Z.of_nat (Z.to_nat timeout)) (calls w0))
    end.

Definition in_state (s : WaitState) (l : Locator) (d : dom U) : bool :=
  match s with
  | visible => is_visible l d
  | hidden => negb (is_visible l d)
  end.

(** Actionability: an action waits for its target to be visible and
    enabled. *)
Definition actionable (l : Locator) (d : dom U) : bool :=
  is_visible l d && is_enabled l d.

Definition eval (f : PageFunction) (d : dom U) : bool :=
  match f with
  | pathname_excludes p => negb (includes p (pathname d))
  end.

(** [locator.waitFor({ state, timeout })] *)
Definition Locator_waitFor (l : Locator) (s : WaitState) (timeout : Z) : Async U unit :=
  poll (locator_waitFor l s timeout) TimeoutError (in_state s l) timeout (fun d => d).

(** [locator.click()] *)
Definition Locator_click (l : Locator) : Async U unit :=
  poll (locator_click l) TimeoutError (actionable l) CONFIG.actionTimeout (on_click l).

(** [locator.clear()] *)
Definition Locator_clear (l : Locator) : Async U unit :=
  poll (locator_clear l) TimeoutError (actionable l) CONFIG.actionTimeout (on_clear l).

(** [locator.fill(text)] *)
Definition Locator_fill (l : Locator) (text : string) : Async U unit :=
  poll (locator_fill l text) TimeoutError (actionable l) CONFIG.actionTimeout
       (on_fill l text).

(** [locator.isChecked()]: the state of the box when the call reaches the
    page. *)
Definition Locator_isChecked (l : Locator) : Async U bool :=
  fun w => let w0 := record (locator_isChecked l) w in
           (Returned (is_checked l (page w0)), w0).

(** [locator.textContent()]: the text of the element when the call reaches
    the page. *)
Definition Locator_textContent (l : Locator) : Async U (option string) :=
  fun w => let w0 := record (locator_textContent l) w in
           (Returned (text_content l (page w0)), w0).

(** [page.goto(url, { waitUntil, timeout })] *)
Definition Page_goto (url : string) (waitUntil : LoadState) (timeout : Z) : Async U unit :=
  fun w =>
    poll (page_goto url waitUntil timeout) TimeoutError (reached waitUntil) timeout
         (fun d => d)
         (mkWorld (on_goto url (page w)) (clock w) (calls w)).

(** [page.waitForLoadState(state, { timeout })] *)
Definition Page_waitForLoadState (s : LoadState) (timeout : Z) : Async U unit :=
  poll (page_waitForLoadState s timeout) TimeoutError (reached s) timeout (fun d => d).

(** [page.waitForFunction(f, arg, { timeout })] *)
Definition Page_waitForFunction (f : PageFunction) (timeout : Z) : Async U unit :=
  poll (page_waitForFunction f timeout) TimeoutError (eval f) timeout (fun d => d).

(** [await expect(locator).toBeVisible()]: a retrying assertion. *)
Definition expect_locator_toBeVisible (l : Locator) : Async U unit :=
  poll (expect_toBeVisible l) AssertionError (is_visible l) CONFIG.expectTimeout
       (fun d => d).

(** [expect(actual).toBe(expected)] on booleans. *)
Definition expect_toBe (actual expected : bool) : Async U unit :=
  if Bool.eqb actual expected then ret tt else throw AssertionError.

(** [expect(actual).toContain(expected)] on strings. *)
Definition expect_toContain (actual expected : string) : Async U unit :=
  if includes expected actual then ret tt else throw AssertionError.

End Engine.

Declare Scope async_scope.
Delimit Scope async_scope with async.
Notation "x <- m ;; k" := (bind m (fun x => k))
  (at level 61, m at next level, right associativity) : async_scope.
Notation "m ;; k" := (bind m (fun _ => k))
  (at level 61, right associativity) : async_scope.
Local Open Scope async_scope.

Section Assertions.
Context {U : Surface}.

(** [expect(actual).not.toContain(unexpected)] on strings. *)
Definition expect_not_toContain (actual unexpected : string) : Async U unit :=
  if includes unexpected actual then throw AssertionError else ret tt.

End Assertions.

(** ** [abstract class BasePage] *)

Module BasePage.
Section Methods.
Context {U : Surface}.

Definition waitForPageLoad (timeout : option Z) : Async U unit :=
  let timeout := or_default timeout 30000 in
  Page_waitForLoadState networkidle timeout ;;
  Page_waitForLoadState domcontentloaded timeout.

Definition waitForElement (locator : Locator) (timeout : option Z) : Async U unit :=
  let timeout := or_default timeout 10000 in
  Locator_waitFor locator visible timeout.

Definition waitForElementToBeHidden (locator : Locator) (timeout : option Z)
  : Async U unit :=
  let timeout := or_default timeout 10000 in
  Locator_waitFor locator hidden timeout.

Definition isElementVisible (locator : Locator) : Async U bool :=
  try_catch
    (Locator_waitFor locator visible 1000 ;;
     ret true)
    (ret false).

Definition clickElement (locator : Locator) (timeout : option Z) : Async U unit :=
  let timeout := or_default timeout 10000 in
  waitForElement locator (Some timeout) ;;
  Locator_click locator.

Definition fillInput (locator : Locator) (text : string) (timeout : option Z)
  : Async U unit :=
  let timeout := or_default timeout 10000 in
  waitForElement locator (Some timeout) ;;
  Locator_clear locator ;;
  Locator_fill locator text.

Definition getElementText (locator : Locator) : Async U string :=
  waitForElement locator None ;;
  text <- Locator_textContent locator ;;
  ret (or_string text "").

Definition isElementChecked (locator : Locator) : Async U bool :=
  waitForElement locator None ;;
  Locator_isChecked locator.

Definition navigateToUrl (url : string) (timeout : option Z) : Async U unit :=
  let timeout := or_default timeout 30000 in
  Page_goto url networkidle timeout.

End Methods.

(** [page.url()] is a synchronous getter of the engine: the full URL of the
    live page, taken here as a parameter [page_url]. *)
Section Location.
Context {U : Surface} (page_url : dom U -> string).

Definition getCurrentUrl : Async U string :=
  fun w => (Returned (page_url (page w)), w).

Definition validateUrlContains (expectedPath : string) : Async U unit :=
  currentUrl <- getCurrentUrl ;;
  expect_toContain currentUrl expectedPath.

End Location.
End BasePage.

(** ** [class LoginPage extends BasePage] *)

Module LoginPage.
Import BasePage.

Definition loginForm := getByTestId TEST_IDS.LOGIN_FORM.
Definition emailInput := getByTestId TEST_IDS.EMAIL_INPUT.
Definition passwordInput := getByTestId TEST_IDS.PASSWORD_INPUT.
Definition loginButton := getByTestId TEST_IDS.LOGIN_BUTTON.
Definition rememberMeCheckbox := getByTestId TEST_IDS.REMEMBER_ME_CHECKBOX.
Definition forgotPasswordLink := getByTestId TEST_IDS.FORGOT_PASSWORD_LINK.
Definition signupLink := getByTestId TEST_IDS.SIGNUP_LINK.
Definition errorMessage := getByTestId TEST_IDS.ERROR_MESSAGE.
Definition loadingSpinner := getByTestId TEST_IDS.LOADING_SPINNER.
Definition showPasswordToggle := locatorTestIdAttr "show-password-toggle".

Section Methods.
Context {U : Surface}.

Definition validateLoginFormIsVisible : Async U unit :=
  waitForElement loginForm None ;;
  expect_locator_toBeVisible loginForm ;;
  expect_locator_toBeVisible emailInput ;;
  expect_locator_toBeVisible passwordInput ;;
  expect_locator_toBeVisible loginButton.

Definition navigateToLogin (process_env_BASE_URL baseUrl : option string)
  : Async U unit :=
  let url := (or_string baseUrl (URLs.BASE_URL process_env_BASE_URL) ++ URLs.LOGIN)%string in
  navigateToUrl url None ;;
  waitForPageLoad None ;;
  validateLoginFormIsVisible.

Definition enterEmail (email : string) : Async U unit :=
  fillInput emailInput email None.

Definition enterPassword (password : string) : Async U unit :=
  fillInput passwordInput password None.

Definition clickLoginButton : Async U unit :=
  clickElement loginButton None.

Definition setRememberMe (checked : bool) : Async U unit :=
  isCurrentlyChecked <- isElementChecked rememberMeCheckbox ;;
  if negb (Bool.eqb isCurrentlyChecked checked)
  then clickElement rememberMeCheckbox None
  else ret tt.

Definition login (credentials : UserCredentials) : Async U unit :=
  enterEmail (email credentials) ;;
  enterPassword (password credentials) ;;
  (if truthy (rememberMe credentials)
   then setRememberMe true
   else ret tt) ;;
  clickLoginButton.

Definition quickLogin (email password : string) (rememberMe : option bool)
  : Async U unit :=
  login {| email := email; password := password;
           rememberMe := Some (or_default rememberMe false) |}.

Definition clearForm : Async U unit :=
  Locator_clear emailInput ;;
  Locator_clear passwordInput ;;
  isChecked <- isElementChecked rememberMeCheckbox ;;
  if isChecked
  then setRememberMe false
  else ret tt.

Definition togglePasswordVisibility : Async U unit :=
  shown <- isElementVisible showPasswordToggle ;;
  if shown
  then clickElement showPasswordToggle None
  else ret tt.

Definition validateErrorMessage (expectedMessage : string) : Async U unit :=
  waitForElement errorMessage (Some TIMEOUTS.MEDIUM) ;;
  expect_locator_toBeVisible errorMessage ;;
  actualMessage <- getElementText errorMessage ;;
  expect_toContain actualMessage expectedMessage.

Definition validateNoErrorMessage : Async U unit :=
  isErrorVisible <- isElementVisible errorMessage ;;
  expect_toBe isErrorVisible false.

Definition validateLoadingSpinner : Async U unit :=
  waitForElement loadingSpinner (Some TIMEOUTS.SHORT) ;;
  expect_locator_toBeVisible loadingSpinner.

Definition waitForLoadingToComplete : Async U unit :=
  try_catch
    (waitForElement loadingSpinner (Some TIMEOUTS.SHORT) ;;
     waitForElementToBeHidden loadingSpinner (Some TIMEOUTS.MEDIUM))
    (ret tt).

Definition isRememberMeChecked : Async U bool :=
  isElementChecked rememberMeCheckbox.

Definition attemptLogin (credentials : UserCredentials) (expectSuccess : option bool)
  : Async U unit :=
  let expectSuccess := or_default expectSuccess true in
  login credentials ;;
  if expectSuccess
  then
    waitForLoadingToComplete ;;
    Page_waitForFunction (pathname_excludes URLs.LOGIN) TIMEOUTS.MEDIUM
  else
    validateErrorMessage ERROR_MESSAGES.INVALID_CREDENTIALS.

End Methods.

Definition emailValidation := locatorTestIdAttr "email-validation".
Definition passwordValidation := locatorTestIdAttr "password-validation".

Section MoreMethods.
Context {U : Surface}.

Definition validateFormElements : Async U unit :=
  expect_locator_toBeVisible emailInput ;;
  expect_locator_toBeVisible passwordInput ;;
  expect_locator_toBeVisible loginButton ;;
  expect_locator_toBeVisible rememberMeCheckbox ;;
  expect_locator_toBeVisible forgotPasswordLink ;;
  expect_locator_toBeVisible signupLink.

Definition validateEmailValidation (expectedError : option string) : Async U unit :=
  if truthy_string expectedError
  then
    expect_locator_toBeVisible emailValidation ;;
    validationText <- getElementText emailValidation ;;
    expect_toContain validationText (or_string expectedError "")
  else
    isVisible <- isElementVisible emailValidation ;;
    expect_toBe isVisible false.

Definition validatePasswordValidation (expectedError : option string)
  : Async U unit :=
  if truthy_string expectedError
  then
    expect_locator_toBeVisible passwordValidation ;;
    validationText <- getElementText passwordValidation ;;
    expect_toContain validationText (or_string expectedError "")
  else
    isVisible <- isElementVisible passwordValidation ;;
    expect_toBe isVisible false.

End MoreMethods.
End LoginPage.

(** ** [class DashboardPage extends BasePage] *)

Module DashboardPage.
Import BasePage.

Definition dashboardHeader := getByTestId TEST_IDS.DASHBOARD_HEADER.
Definition userProfile := getByTestId TEST_IDS.USER_PROFILE.
Definition logoutButton := getByTestId TEST_IDS.LOGOUT_BUTTON.
Definition profileDropdown := locatorTestIdAttr "profile-dropdown".
Definition adminPanel := locatorTestIdAttr "admin-panel".
Definition userManagementLink := locatorTestIdAttr "user-management-link".

Section Methods.
Context {U : Surface}.

Definition validateDashboardIsLoaded : Async U unit :=
  waitForElement dashboardHeader (Some TIMEOUTS.MEDIUM) ;;
  expect_locator_toBeVisible dashboardHeader.

Definition openProfileDropdown : Async U unit :=
  clickElement profileDropdown None ;;
  waitForElement logoutButton (Some TIMEOUTS.SHORT).

Definition clickLogout : Async U unit :=
  isLogoutVisible <- isElementVisible logoutButton ;;
  (if negb isLogoutVisible
   then openProfileDropdown
   else ret tt) ;;
  clickElement logoutButton None.

Definition logout : Async U unit :=
  clickLogout ;;
  Page_waitForFunction (pathname_excludes URLs.DASHBOARD) TIMEOUTS.MEDIUM.

Definition validateAdminElements : Async U unit :=
  panelShown <- isElementVisible adminPanel ;;
  (if panelShown
   then expect_locator_toBeVisible adminPanel
   else ret tt) ;;
  linkShown <- isElementVisible userManagementLink ;;
  if linkShown
  then expect_locator_toBeVisible userManagementLink
  else ret tt.

Definition validateStandardUserElements : Async U unit :=
  isAdminPanelVisible <- isElementVisible adminPanel ;;
  isUserManagementVisible <- isElementVisible userManagementLink ;;
  expect_toBe isAdminPanelVisible false ;;
  expect_toBe isUserManagementVisible false.

End Methods.

Definition welcomeMessage := locatorTestIdAttr "welcome-message".
Definition navigationMenu := locatorTestIdAttr "navigation-menu".
Definition userNameDisplay := locatorTestIdAttr "user-name-display".
Definition userEmailDisplay := locatorTestIdAttr "user-email-display".
Definition settingsLink := locatorTestIdAttr "settings-link".
Definition profileLink := locatorTestIdAttr "profile-link".
Definition loadingIndicator := locatorTestIdAttr "loading-indicator".

Section MoreMethods.
Context {U : Surface}.

Definition navigateToDashboard (process_env_BASE_URL baseUrl : option string)
  : Async U unit :=
  let url :=
    (or_string baseUrl (URLs.BASE_URL process_env_BASE_URL) ++ URLs.DASHBOARD)%string in
  navigateToUrl url None ;;
  waitForPageLoad None ;;
  validateDashboardIsLoaded.

Definition validateDashboardUrl (page_url : dom U -> string) : Async U unit :=
  validateUrlContains page_url URLs.DASHBOARD.

Definition validateSuccessfulLogin (page_url : dom U -> string) : Async U unit :=
  validateDashboardIsLoaded ;;
  expect_locator_toBeVisible userProfile ;;
  validateDashboardUrl page_url.

Definition validateWelcomeMessage (expectedUserName : option string) : Async U unit :=
  waitForElement welcomeMessage (Some TIMEOUTS.MEDIUM) ;;
  expect_locator_toBeVisible welcomeMessage ;;
  if truthy_string expectedUserName
  then
    welcomeText <- getElementText welcomeMessage ;;
    expect_toContain welcomeText (or_string expectedUserName "")
  else ret tt.

Definition validateUserProfileInfo (expectedEmail expectedName : option string)
  : Async U unit :=
  waitForElement userProfile (Some TIMEOUTS.MEDIUM) ;;
  expect_locator_toBeVisible userProfile ;;
  (if truthy_string expectedEmail
   then
     shown <- isElementVisible userEmailDisplay ;;
     if shown
     then
       displayedEmail <- getElementText userEmailDisplay ;;
       expect_toContain displayedEmail (or_string expectedEmail "")
     else ret tt
   else ret tt) ;;
  if truthy_string expectedName
  then
    shown <- isElementVisible userNameDisplay ;;
    if shown
    then
      displayedName <- getElementText userNameDisplay ;;
      expect_toContain displayedName (or_string expectedName "")
    else ret tt
  else ret tt.

Definition navigateToProfile : Async U unit :=
  isProfileLinkVisible <- isElementVisible profileLink ;;
  (if negb isProfileLinkVisible
   then openProfileDropdown
   else ret tt) ;;
  clickElement profileLink None ;;
  waitForPageLoad None.

Definition navigateToSettings : Async U unit :=
  isSettingsLinkVisible <- isElementVisible settingsLink ;;
  (if negb isSettingsLinkVisible
   then openProfileDropdown
   else ret tt) ;;
  clickElement settingsLink None ;;
  waitForPageLoad None.

Definition validateDashboardElements : Async U unit :=
  expect_locator_toBeVisible dashboardHeader ;;
  expect_locator_toBeVisible userProfile ;;
  expect_locator_toBeVisible navigationMenu ;;
  isDropdownVisible <- isElementVisible profileDropdown ;;
  if isDropdownVisible
  then expect_locator_toBeVisible profileDropdown
  else ret tt.

Definition isUserLoggedIn : Async U bool :=
  try_catch
    (validateDashboardIsLoaded ;;
     ret true)
    (ret false).

Definition getDisplayedUserName : Async U string :=
  shown <- isElementVisible userNameDisplay ;;
  if shown
  then getElementText userNameDisplay
  else ret "".

Definition getDisplayedUserEmail : Async U string :=
  shown <- isElementVisible userEmailDisplay ;;
  if shown
  then getElementText userEmailDisplay
  else ret "".

Definition waitForDashboardToLoad : Async U unit :=
  waitForPageLoad None ;;
  validateDashboardIsLoaded ;;
  shown <- isElementVisible loadingIndicator ;;
  if shown
  then waitForElementToBeHidden loadingIndicator (Some TIMEOUTS.MEDIUM)
  else ret tt.

Definition validateLogoutSuccess (page_url : dom U -> string) : Async U unit :=
  Page_waitForFunction (pathname_excludes URLs.DASHBOARD) TIMEOUTS.MEDIUM ;;
  currentUrl <- getCurrentUrl page_url ;;
  expect_not_toContain currentUrl URLs.DASHBOARD.

End MoreMethods.
End DashboardPage.

(** ** A small login application

    A concrete [Surface] on which the page objects can be run: a login form
    whose submission is answered after [latency] milliseconds (a spinner
    shows meanwhile) by a redirect to the dashboard or by the
    invalid-credentials banner, and a dashboard whose logout control sits in
    a profile dropdown.  A call takes one millisecond to reach it. *)

Module Demo.

Inductive Pending : Type :=
| nothing
| redirect (to : string)
| reject (message : string).

Record Dom : Type := mk {
  path : string;
  email_value : string;
  password_value : string;
  remember : bool;
  banner : option string;
  in_flight : Z;
  pending : Pending;
  menu_open : bool;
  admin : bool;
  latency : Z;
  parsing : Z
}.

Definition testId_of (l : Locator) : string :=
  match l with
  | getByTestId i | locatorTestIdAttr i => i
  end.

Definition among (i : string) (ids : list string) : bool :=
  existsb (String.eqb i) ids.

Definition arrive (d : Dom) : Dom :=
  match pending d with
  | nothing => d
  | redirect to =>
      mk to (email_value d) (password_value d) (remember d) None 0 nothing
         (menu_open d) (admin d) (latency d) (parsing d)
  | reject message =>
      mk (path d) (email_value d) (password_value d) (remember d) (Some message)
         0 nothing (menu_open d) (admin d) (latency d) (parsing d)
  end.

Definition tick (d : Dom) : Dom :=
  let d :=
    mk (path d) (email_value d) (password_value d) (remember d) (banner d)
       (in_flight d) (pending d) (menu_open d) (admin d) (latency d)
       (Z.max 0 (parsing d - 1)) in
  if in_flight d <=? 0 then d
  else if in_flight d =? 1 then arrive d
  else
    mk (path d) (email_value d) (password_value d) (remember d) (banner d)
       (in_flight d - 1) (pending d) (menu_open d) (admin d) (latency d) (parsing d).

Definition shown (l : Locator) (d : Dom) : bool :=
  let i := testId_of l in
  if String.eqb (path d) "/login" then
    if among i ["login-form"; "email-input"; "password-input"; "login-button";
                "remember-me-checkbox"; "forgot-password-link"; "signup-link"]
    then true
    else if String.eqb i "error-message"
         then match banner d with Some _ => true | None => false end
         else if String.eqb i "loading-spinner"
              then 0 <? in_flight d
              else false
  else if String.eqb (path d) "/dashboard" then
    if among i ["dashboard-header"; "user-profile"; "profile-dropdown";
                "navigation-menu"]
    then true
    else if among i ["logout-button"; "profile-link"; "settings-link"]
         then menu_open d
         else if among i ["admin-panel"; "user-management-link"]
              then admin d
              else false
  else false.

Definition usable (l : Locator) (d : Dom) : bool :=
  if String.eqb (testId_of l) "login-button"
  then negb (String.eqb (email_value d) "") && negb (String.eqb (password_value d) "")
  else true.

Definition ticked (l : Locator) (d : Dom) : bool :=
  if String.eqb (testId_of l) "remember-me-checkbox" then remember d else false.

Definition text (l : Locator) (d : Dom) : option string :=
  if String.eqb (testId_of l) "error-message" then banner d else None.

Definition value (l : Locator) (d : Dom) : string :=
  if String.eqb (testId_of l) "email-input" then email_value d
  else if String.eqb (testId_of l) "password-input" then password_value d
       else "".

Definition loaded (s : LoadState) (d : Dom) : bool :=
  match s with
  | networkidle => in_flight d <=? 0
  | domcontentloaded => parsing d <=? 0
  end.

Definition verdict (d : Dom) : Pending :=
  if (String.eqb (email_value d) "test@example.com"
      && String.eqb (password_value d) "ValidPassword123!")
     || (String.eqb (email_value d) "admin@example.com"
         && String.eqb (password_value d) "AdminPassword123!")
  then redirect "/dashboard"
  else reject "Invalid email or password".

Definition submit (d : Dom) : Dom :=
  let d' :=
    mk (path d) (email_value d) (password_value d) (remember d) None
       (latency d) (verdict d) (menu_open d)
       (String.eqb (email_value d) "admin@example.com") (latency d) (parsing d) in
  if latency d <=? 0 then arrive d' else d'.

Definition click (l : Locator) (d : Dom) : Dom :=
  let i := testId_of l in
  if String.eqb i "remember-me-checkbox" then
    mk (path d) (email_value d) (password_value d) (negb (remember d)) (banner d)
       (in_flight d) (pending d) (menu_open d) (admin d) (latency d) (parsing d)
  else if String.eqb i "login-button" then submit d
  else if String.eqb i "profile-dropdown" then
    mk (path d) (email_value d) (password_value d) (remember d) (banner d)
       (in_flight d) (pending d) true (admin d) (latency d) (parsing d)
  else if String.eqb i "logout-button" then
    mk "/login" (email_value d) (password_value d) (remember d) None
       (in_flight d) (pending d) false false (latency d) (parsing d)
  else d.

Definition fill (l : Locator) (t : string) (d : Dom) : Dom :=
  let i := testId_of l in
  if String.eqb i "email-input" then
    mk (path d) t (password_value d) (remember d) (banner d)
       (in_flight d) (pending d) (menu_open d) (admin d) (latency d) (parsing d)
  else if String.eqb i "password-input" then
    mk (path d) (email_value d) t (remember d) (banner d)
       (in_flight d) (pending d) (menu_open d) (admin d) (latency d) (parsing d)
  else d.

Definition goto (url : string) (d : Dom) : Dom :=
  let p := if includes "/dashboard" url then "/dashboard"
           else if includes "/login" url then "/login" else "/" in
  mk p "" "" false None 0 nothing false (admin d) (latency d) (latency d).

Definition app : Surface :=
  {| dom := Dom;
     elapse := tick;
     round_trip := fun _ => 1%nat;
     is_visible := shown;
     is_enabled := usable;
     is_checked := ticked;
     text_content := text;
     input_value := value;
     pathname := path;
     reached := loaded;
     on_click := click;
     on_clear := fun l => fill l "";
     on_fill := fill;
     on_goto := goto |}.

(** The login page, nothing typed yet, with a server that answers after
    [latency] milliseconds. *)
Definition login_page (latency : Z) : World app :=
  @mkWorld app (mk "/login" "" "" false None 0 nothing false false latency 0) 0 [].

(** The dashboard of a signed-in user, the profile dropdown closed or open. *)
Definition dashboard (is_admin open : bool) : World app :=
  @mkWorld app (mk "/dashboard" "" "" false None 0 nothing open is_admin 0 0) 0 [].

Definition STANDARD_USER : UserCredentials :=
  {| email := "test@example.com"; password := "ValidPassword123!";
     rememberMe := None |}.

Definition WRONG_PASSWORD : UserCredentials :=
  {| email := "test@example.com"; password := "WrongPassword123!";
     rememberMe := None |}.

End Demo.

Import BasePage LoginPage DashboardPage.

(** Worlds reached on the small application. *)
Module Scenario.

(** The login page, the form filled in and remember-me checked. *)
Definition filled : World Demo.app :=
  snd ((enterEmail "test@example.com" ;;
        enterPassword "ValidPassword123!" ;;
        setRememberMe true) (Demo.login_page 0)).

(** Valid credentials just submitted to a server that takes twenty
    seconds: the spinner is up and stays up. *)
Definition submitted_slow : World Demo.app :=
  snd (login Demo.STANDARD_USER (Demo.login_page 20000)).

(** A document that takes forty milliseconds to parse. *)
Definition slow_document : World Demo.app := Demo.login_page 40.

End Scenario.

(** ** The login spec ([tests/specs]): test bodies

    [test.step(title, body)] runs [body]; a test fails when its body
    throws. *)

Module LoginSpec.
Section Tests.
Context {U : Surface}.

(** [test('should remember me checkbox work correctly', ...)] *)
Definition should_remember_me_checkbox_work_correctly : Async U unit :=
  (setRememberMe true ;;
   isChecked <- isRememberMeChecked ;;
   expect_toBe isChecked true) ;;
  (setRememberMe false ;;
   isChecked <- isRememberMeChecked ;;
   expect_toBe isChecked false).

End Tests.
End LoginSpec.

(** ** [setupEnvironmentVariables] of the global setup

    [process.env] as a map from names to strings; the console output of the
    function is left out. *)

Module GlobalSetup.

Definition Env : Type := string -> option string.

(** [process.env[name] = value] *)
Definition assign (env : Env) (name value : string) : Env :=
  fun k => if String.eqb k name then Some value else env k.

Definition setupEnvironmentVariables (env : Env) : Env :=
  let env :=
    if negb (truthy_string (env "BASE_URL"))
    then assign env "BASE_URL" "https://example.com"
    else env in
  let env :=
    if negb (truthy_string (env "NODE_ENV"))
    then assign env "NODE_ENV" "test"
    else env in
  let env := assign env "TEST_TIMEOUT" (or_string (env "TEST_TIMEOUT") "30000") in
  assign env "EXPECT_TIMEOUT" (or_string (env "EXPECT_TIMEOUT") "10000").

End GlobalSetup.

(** The full URL of the small application: its origin, its path and, after
    a sign-out, a query that names the page to come back to. *)
Module DemoLocation.

Definition plain : dom Demo.app -> string :=
  fun d => ("https://example.com" ++ Demo.path d)%string.

Definition with_return_to : dom Demo.app -> string :=
  fun d =>
    if String.eqb (Demo.path d) "/login"
    then "https://example.com/login?returnTo=/dashboard"
    else ("https://example.com" ++ Demo.path d)%string.

End DemoLocation.

(** The small application with a loading indicator that never goes away. *)
Module StuckIndicator.

Definition shown (l : Locator) (d : Demo.Dom) : bool :=
  if String.eqb (Demo.testId_of l) "loading-indicator" then true
  else Demo.shown l d.

Definition app : Surface :=
  {| dom := Demo.Dom;
     elapse := Demo.tick;
     round_trip := fun _ => 1%nat;
     is_visible := shown;
     is_enabled := Demo.usable;
     is_checked := Demo.ticked;
     text_content := Demo.text;
     input_value := Demo.value;
     pathname := Demo.path;
     reached := Demo.loaded;
     on_click := Demo.click;
     on_clear := fun l => Demo.fill l "";
     on_fill := Demo.fill;
     on_goto := Demo.goto |}.

Definition dashboard : World app :=
  @mkWorld app
    (Demo.mk "/dashboard" "" "" false None 0 Demo.nothing false false 0 0) 0 [].

End StuckIndicator.

(** ** Vocabulary of the statements *)

Section Vocabulary.
Context {U : Surface}.

(** [ready] comes to hold within [timeout] milliseconds of [d]. *)
Definition within (ready : dom U -> bool) (timeout : Z) (d : dom U) : bool :=
  match settle ready (Z.to_nat timeout) d with
  | Some _ => true
  | None => false
  end.

(** However [m] ends, it hands back a page on which [I] still holds. *)
Definition keeps {A : Type} (I : dom U -> Prop) (m : Async U A) : Prop :=
  forall w r w', m w = (r, w') -> I (page w) -> I (page w').

(** However [m] ends, every call it has issued satisfies [P]. *)
Definition emits {A : Type} (P : Call -> bool) (m : Async U A) : Prop :=
  forall w r w', m w = (r, w') ->
  exists cs, calls w' = calls w ++ cs /\ forallb P cs = true.

(** What the login form holds: email, password, remember-me. *)
Definition form (d : dom U) : string * string * bool :=
  (input_value emailInput d, input_value passwordInput d,
   is_checked rememberMeCheckbox d).

(** Both text inputs are empty. *)
Definition emptied (d : dom U) : Prop :=
  input_value emailInput d = "" /\ input_value passwordInput d = "".

(** One retrying assertion after the other, the first issued on [d]: each
    element of the list shows within ten seconds of the moment the assertion
    on it reaches the page, and the next assertion is issued at the moment
    it shows. *)
Fixpoint shown_in_turn (ls : list Locator) (d : dom U) : bool :=
  match ls with
  | [] => true
  | l :: rest =>
      match settle (is_visible l) (Z.to_nat 10000) (found d) with
      | Some (_, d') => shown_in_turn rest d'
      | None => false
      end
  end.

(** From [d] on and left alone, the page keeps [ready] once it holds. *)
Definition stays (ready : dom U -> bool) (d : dom U) : Prop :=
  forall n : nat, ready (after_ms n d) = true -> ready (after_ms (S n) d) = true.

(** Whenever [m] throws, it throws [err]. *)
Definition throws_only {A : Type} (err : Error) (m : Async U A) : Prop :=
  forall w e w', m w = (Thrown e, w') -> e = err.

(** However [m] ends, every call it has issued, the last one apart,
    satisfies [P]. *)
Definition emits_before_last {A : Type} (P : Call -> bool) (m : Async U A) : Prop :=
  forall w r w', m w = (r, w') ->
  exists cs, calls w' = calls w ++ cs /\ forallb P (removelast cs) = true.

(** The click on the submit button of the login form. *)
Definition is_submit (c : Call) : bool :=
  is_click c && touches loginButton c.

End Vocabulary.

(** The remember-me control is a checkbox: a click on it toggles it, and
    the page does not toggle it by itself. *)
Record CheckboxLaws (U : Surface) : Prop := {
  checkbox_elapse : forall d : dom U,
    is_checked rememberMeCheckbox (elapse d) = is_checked rememberMeCheckbox d;
  checkbox_click : forall d : dom U,
    is_checked rememberMeCheckbox (on_click rememberMeCheckbox d)
    = negb (is_checked rememberMeCheckbox d)
}.

(** The email and password controls are text inputs: clearing one empties
    it, and neither time, clearing the password nor a click on the checkbox
    changes what they hold. *)
Record FieldLaws (U : Surface) : Prop := {
  email_clear : forall d : dom U,
    input_value emailInput (on_clear emailInput d) = "";
  password_clear : forall d : dom U,
    input_value passwordInput (on_clear passwordInput d) = "";
  email_frame_clear : forall d : dom U,
    input_value emailInput (on_clear passwordInput d) = input_value emailInput d;
  email_frame_elapse : forall d : dom U,
    input_value emailInput (elapse d) = input_value emailInput d;
  password_frame_elapse : forall d : dom U,
    input_value passwordInput (elapse d) = input_value passwordInput d;
  email_frame_click : forall d : dom U,
    input_value emailInput (on_click rememberMeCheckbox d) = input_value emailInput d;
  password_frame_click : forall d : dom U,
    input_value passwordInput (on_click rememberMeCheckbox d)
    = input_value passwordInput d
}.

(** Time, typing into the two text inputs and pressing the submit button
    leave the checkbox alone. *)
Record CheckboxFrame (U : Surface) : Prop := {
  frame_elapse : forall d : dom U,
    is_checked rememberMeCheckbox (elapse d) = is_checked rememberMeCheckbox d;
  frame_clear_email : forall d : dom U,
    is_checked rememberMeCheckbox (on_clear emailInput d)
    = is_checked rememberMeCheckbox d;
  frame_fill_email : forall (t : string) (d : dom U),
    is_checked rememberMeCheckbox (on_fill emailInput t d)
    = is_checked rememberMeCheckbox d;
  frame_clear_password : forall d : dom U,
    is_checked rememberMeCheckbox (on_clear passwordInput d)
    = is_checked rememberMeCheckbox d;
  frame_fill_password : forall (t : string) (d : dom U),
    is_checked rememberMeCheckbox (on_fill passwordInput t d)
    = is_checked rememberMeCheckbox d;
  frame_submit : forall d : dom U,
    is_checked rememberMeCheckbox (on_click loginButton d)
    = is_checked rememberMeCheckbox d
}.

(** ** JavaScript values, on examples *)

Example includes_login_query : includes "/login" "/login?next=%2Fdashboard" = true.
Proof. reflexivity. Qed.

Example includes_nested_path : includes "/dashboard" "/app/dashboard/home" = true.
Proof. reflexivity. Qed.

Example includes_other_path : includes "/login" "/dashboard" = false.
Proof. reflexivity. Qed.

Example includes_empty_needle : includes "" "" = true.
Proof. reflexivity. Qed.

Example or_string_empty_is_falsy : or_string (Some "") "fallback" = "fallback".
Proof. reflexivity. Qed.

Example truthy_false_is_falsy : truthy (Some false) = false /\ truthy None = false.
Proof. split; reflexivity. Qed.

(** ** The monad and the engine *)

Section EngineFacts.
Context {U : Surface}.

Lemma bind_Returned {A B : Type} (m : Async U A) (k : A -> Async U B) w b w' :
  bind m k w = (Returned b, w') ->
  exists a w1, m w = (Returned a, w1) /\ k a w1 = (Returned b, w').
Proof.
  unfold bind. destruct (m w) as [[a|e] w1]; intros H.
  - exists a, w1. split; [reflexivity | exact H].
  - discriminate H.
Qed.

Lemma bind_Thrown {A B : Type} (m : Async U A) (k : A -> Async U B) w e w' :
  bind m k w = (Thrown e, w') ->
  m w = (Thrown e, w') \/
  exists a w1, m w = (Returned a, w1) /\ k a w1 = (Thrown e, w').
Proof.
  unfold bind. destruct (m w) as [[a|e0] w1]; intros H.
  - right. exists a, w1. split; [reflexivity | exact H].
  - left. inversion H; subst. reflexivity.
Qed.

Lemma bind_step {A B : Type} (m : Async U A) (k : A -> Async U B) w a w1 :
  m w = (Returned a, w1) -> bind m k w = k a w1.
Proof. unfold bind. intros ->. reflexivity. Qed.

Lemma bind_abort {A B : Type} (m : Async U A) (k : A -> Async U B) w e w1 :
  m w = (Thrown e, w1) -> bind m k w = (Thrown e, w1).
Proof. unfold bind. intros ->. reflexivity. Qed.

Lemma bind_assoc {A B C : Type} (m : Async U A) (k : A -> Async U B)
      (h : B -> Async U C) (w : World U) :
  bind (bind m k) h w = bind m (fun a => bind (k a) h) w.
Proof.
  unfold bind. destruct (m w) as [[a|e] w1]; reflexivity.
Qed.

Lemma after_ms_elapse (n : nat) (d : dom U) :
  after_ms (S n) d = elapse (after_ms n d).
Proof.
  revert d. induction n as [|n IH]; intros d.
  - reflexivity.
  - change (after_ms (S (S n)) d) with (after_ms (S n) (elapse d)).
    rewrite IH. reflexivity.
Qed.

Lemma after_ms_plus (n m : nat) (d : dom U) :
  after_ms (n + m) d = after_ms m (after_ms n d).
Proof.
  revert d. induction n as [|n IH]; intros d; simpl.
  - reflexivity.
  - apply IH.
Qed.

(** A property of the page that the passing of time respects. *)
Lemma after_ms_keeps (I : dom U -> Prop) :
  (forall d, I d -> I (elapse d)) ->
  forall n d, I d -> I (after_ms n d).
Proof.
  intros step n. induction n as [|n IH]; intros d Hd; simpl.
  - exact Hd.
  - apply IH, step, Hd.
Qed.

Lemma found_keeps (I : dom U -> Prop) :
  (forall d, I d -> I (elapse d)) ->
  forall d, I d -> I (found d).
Proof. intros step d Hd. unfold found. apply after_ms_keeps; assumption. Qed.

(** A page that answers at once is found as it was left. *)
Lemma found_instant (d : dom U) : round_trip d = O -> found d = d.
Proof. unfold found. intros ->. reflexivity. Qed.

Lemma stays_after (ready : dom U -> bool) (d : dom U) (n m : nat) :
  stays ready d ->
  ready (after_ms n d) = true -> ready (after_ms (n + m) d) = true.
Proof.
  intros Hs Hn. induction m as [|m IH].
  - rewrite Nat.add_0_r. exact Hn.
  - replace (n + S m)%nat with (S (n + m)) by lia. apply Hs, IH.
Qed.

Lemma stays_later (ready : dom U -> bool) (d : dom U) (n : nat) :
  stays ready d -> stays ready (after_ms n d).
Proof.
  intros Hs k Hk. rewrite <- after_ms_plus in *.
  replace (n + S k)%nat with (S (n + k)) by lia. apply Hs, Hk.
Qed.

Lemma stays_found (ready : dom U -> bool) (d : dom U) :
  stays ready d -> stays ready (found d).
Proof. apply stays_later. Qed.

(** What holds on a page that keeps it, the next call still finds. *)
Lemma stays_seen (ready : dom U -> bool) (d : dom U) :
  stays ready d -> ready d = true -> ready (found d) = true.
Proof.
  intros Hs Hd. unfold found.
  apply (stays_after ready d O (round_trip d) Hs Hd).
Qed.

Lemma settle_Some ready budget (d : dom U) n d' :
  settle ready budget d = Some (n, d') ->
  (n <= budget)%nat /\ d' = after_ms n d /\ ready d' = true /\
  forall k, (k < n)%nat -> ready (after_ms k d) = false.
Proof.
  revert d n d'. induction budget as [|b IH]; intros d n d'; simpl.
  - destruct (ready d) eqn:R; intros H; [|discriminate].
    inversion H; subst. repeat split; auto. intros k Hk. lia.
  - destruct (ready d) eqn:R; intros H.
    + inversion H; subst. repeat split; auto with arith. intros k Hk. lia.
    + destruct (settle ready b (elapse d)) as [[m d1]|] eqn:E; [|discriminate].
      inversion H; subst. destruct (IH _ _ _ E) as (Hle & Hd & Hr & Hmin).
      repeat split; auto.
      * lia.
      * intros [|k] Hk; simpl; [exact R | apply Hmin; lia].
Qed.

Lemma settle_None ready budget (d : dom U) :
  settle ready budget d = None ->
  forall k, (k <= budget)%nat -> ready (after_ms k d) = false.
Proof.
  revert d. induction budget as [|b IH]; intros d; simpl.
  - destruct (ready d) eqn:R; intros H k Hk; [discriminate|].
    replace k with O by lia. exact R.
  - destruct (ready d) eqn:R; intros H; [discriminate|].
    destruct (settle ready b (elapse d)) as [[m d1]|] eqn:E; [discriminate|].
    intros [|k] Hk; simpl; [exact R | apply (IH _ E); lia].
Qed.

Lemma settle_finds ready budget (d : dom U) k :
  (k <= budget)%nat -> ready (after_ms k d) = true ->
  exists n d', settle ready budget d = Some (n, d').
Proof.
  intros Hk Hr. destruct (settle ready budget d) as [[n d']|] eqn:E.
  - exists n, d'. reflexivity.
  - rewrite (settle_None _ _ _ E k Hk) in Hr. discriminate.
Qed.

Lemma settle_at_once ready budget (d : dom U) :
  ready d = true -> settle ready budget d = Some (O, d).
Proof. intros H. destruct budget; simpl; rewrite H; reflexivity. Qed.

End EngineFacts.

Section PollFacts.
Context {U : Surface}.

Lemma within_true_iff ready timeout (d : dom U) :
  within ready timeout d = true <->
  exists k, (k <= Z.to_nat timeout)%nat /\ ready (after_ms k d) = true.
Proof.
  unfold within. split.
  - destruct (settle ready (Z.to_nat timeout) d) as [[n d']|] eqn:E; [|discriminate].
    intros _. destruct (settle_Some _ _ _ _ _ E) as (Hle & Hd & Hr & _).
    exists n. subst d'. auto.
  - intros (k & Hk & Hr).
    destruct (settle_finds ready _ d k Hk Hr) as (n & d' & ->). reflexivity.
Qed.

Lemma within_false_iff ready timeout (d : dom U) :
  within ready timeout d = false <->
  forall k, (k <= Z.to_nat timeout)%nat -> ready (after_ms k d) = false.
Proof.
  split.
  - intros H k Hk. destruct (ready (after_ms k d)) eqn:R; [|reflexivity].
    assert (within ready timeout d = true) as T
      by (apply within_true_iff; exists k; auto).
    congruence.
  - intros H. destruct (within ready timeout d) eqn:W; [|reflexivity].
    apply within_true_iff in W. destruct W as (k & Hk & Hr).
    rewrite (H k Hk) in Hr. discriminate.
Qed.

Lemma within_at_once ready timeout (d : dom U) :
  ready d = true -> within ready timeout d = true.
Proof. intros H. unfold within. rewrite (settle_at_once _ _ _ H). reflexivity. Qed.

(** A waiting call, by cases on what it finds from the moment it reaches
    the page. *)
Lemma poll_cases c err ready timeout effect (w : World U) :
  poll c err ready timeout effect w
  = match settle ready (Z.to_nat timeout) (page (as_found w)) with
    | Some (n, d) =>
        (Returned tt,
         mkWorld (effect d) (clock (as_found w) + Z.of_nat n) (calls w ++ [c]))
    | None =>
        (Thrown err,
         mkWorld (after_ms (Z.to_nat timeout) (page (as_found w)))
                 (clock (as_found w) + Z.of_nat (Z.to_nat timeout))
                 (calls w ++ [c]))
    end.
Proof. reflexivity. Qed.

Lemma poll_Returned c err ready timeout effect (w : World U) u w' :
  poll c err ready timeout effect w = (Returned u, w') ->
  exists n, (n <= Z.to_nat timeout)%nat /\
    ready (after_ms n (page (as_found w))) = true /\
    (forall k, (k < n)%nat -> ready (after_ms k (page (as_found w))) = false) /\
    w' = mkWorld (effect (after_ms n (page (as_found w))))
                 (clock (as_found w) + Z.of_nat n) (calls w ++ [c]).
Proof.
  rewrite poll_cases.
  destruct (settle ready (Z.to_nat timeout) (page (as_found w))) as [[n d']|] eqn:E;
    intros H; [|discriminate H].
  apply pair_equal_spec in H. destruct H as [_ <-].
  destruct (settle_Some _ _ _ _ _ E) as (Hle & Hd & Hr & Hmin).
  exists n. subst d'. auto.
Qed.

Lemma poll_Thrown c err ready timeout effect (w : World U) e w' :
  poll c err ready timeout effect w = (Thrown e, w') ->
  e = err /\
  (forall k, (k <= Z.to_nat timeout)%nat ->
     ready (after_ms k (page (as_found w))) = false) /\
  w' = mkWorld (after_ms (Z.to_nat timeout) (page (as_found w)))
               (clock (as_found w) + Z.of_nat (Z.to_nat timeout)) (calls w ++ [c]).
Proof.
  rewrite poll_cases.
  destruct (settle ready (Z.to_nat timeout) (page (as_found w))) as [[n d']|] eqn:E;
    intros H; [discriminate H|].
  apply pair_equal_spec in H. destruct H as [H <-].
  inversion H; subst. repeat split; auto. apply settle_None. exact E.
Qed.

(** Whether a waiting call returns is decided by [within], from the moment
    the call reaches the page. *)
Lemma poll_within c err ready timeout effect (w : World U) :
  fst (poll c err ready timeout effect w)
  = if within ready timeout (page (as_found w)) then Returned tt else Thrown err.
Proof.
  rewrite poll_cases. unfold within.
  destruct (settle ready (Z.to_nat timeout) (page (as_found w))) as [[n d']|];
    reflexivity.
Qed.

(** A waiting call whose condition holds when it reaches the page returns
    there and then. *)
Lemma poll_found c err ready timeout effect (w : World U) :
  ready (page (as_found w)) = true ->
  poll c err ready timeout effect w
  = (Returned tt,
     mkWorld (effect (page (as_found w))) (clock (as_found w) + 0) (calls w ++ [c])).
Proof.
  intros Hr. rewrite poll_cases, (settle_at_once _ _ _ Hr). reflexivity.
Qed.

Lemma poll_calls c err ready timeout effect (w : World U) :
  calls (snd (poll c err ready timeout effect w)) = calls w ++ [c].
Proof.
  rewrite poll_cases.
  destruct (settle ready (Z.to_nat timeout) (page (as_found w))) as [[n d']|];
    reflexivity.
Qed.

End PollFacts.

(** Taking a computation apart along its [bind]s, down to the engine
    calls. *)
Ltac run_inv H :=
  lazymatch type of H with
  | bind _ _ _ = (Returned _, _) =>
      let a := fresh "a" in
      let w := fresh "w" in
      let H1 := fresh "Hrun" in
      let H2 := fresh "Hrun" in
      apply bind_Returned in H; destruct H as (a & w & H1 & H2);
      run_inv H1; run_inv H2
  | poll _ _ _ _ _ _ = (Returned _, _) =>
      let n := fresh "n" in
      let Hle := fresh "Hle" in
      let Hat := fresh "Hat" in
      let Hmin := fresh "Hmin" in
      apply poll_Returned in H; destruct H as (n & Hle & Hat & Hmin & H);
      try subst
  | ret _ _ = (Returned _, _) => inversion H; subst; clear H
  | throw _ _ = (Returned _, _) => discriminate H
  | _ => idtac
  end.

Ltac base_unfold H :=
  unfold clickElement, fillInput, getElementText, isElementChecked, navigateToUrl,
    waitForPageLoad in H;
  unfold waitForElement, waitForElementToBeHidden in H;
  unfold Locator_waitFor, Locator_click, Locator_clear, Locator_fill,
    Page_waitForLoadState, Page_waitForFunction, expect_locator_toBeVisible,
    or_default in H.

(** Stretches of time that follow one another add up. *)
Ltac merge_ms :=
  unfold as_found, found; cbn [page clock calls];
  repeat rewrite <- after_ms_plus.

(** ** [BasePage] *)

Section BasePageFacts.
Context {U : Surface}.

(** The soft probe, in full: it issues one [waitFor] with the one-second
    timeout, answers whether the element showed within it, and leaves the
    page at the moment the wait ended. *)
Lemma probe_spec (l : Locator) (w : World U) :
  exists n : nat,
    isElementVisible l w
    = (Returned (within (is_visible l) 1000 (page (as_found w))),
       mkWorld (after_ms n (page (as_found w))) (clock (as_found w) + Z.of_nat n)
               (calls w ++ [locator_waitFor l visible 1000]))
    /\ Z.of_nat n <= 1000
    /\ is_visible l (after_ms n (page (as_found w)))
       = within (is_visible l) 1000 (page (as_found w)).
Proof.
  unfold isElementVisible, try_catch, bind, Locator_waitFor.
  destruct (poll (locator_waitFor l visible 1000) TimeoutError (in_state visible l)
                 1000 (fun d => d) w) as [[u|e] w1] eqn:E.
  - apply poll_Returned in E. destruct E as (n & Hle & Hat & Hmin & ->).
    assert (within (is_visible l) 1000 (page (as_found w)) = true) as W.
    { apply within_true_iff. exists n. split; [exact Hle | exact Hat]. }
    exists n. rewrite W. unfold ret. repeat split; [lia | exact Hat].
  - apply poll_Thrown in E. destruct E as (-> & Hnever & ->).
    assert (within (is_visible l) 1000 (page (as_found w)) = false) as W.
    { apply within_false_iff. exact Hnever. }
    exists (Z.to_nat 1000). rewrite W. unfold ret.
    repeat split; [lia | apply Hnever; lia].
Qed.

(** C4. [isElementVisible] never throws, for any locator and any page: it
    issues a single wait with the fixed one-second timeout (not the ten
    seconds other operations default to), returns at most 1000 ms after that
    wait has reached the page, answers [true] exactly when the element is
    visible at some moment of that window, and [false] otherwise, where the
    wait has timed out. *)
Theorem isElementVisible_never_throws (l : Locator) (w : World U) :
  exists (b : bool) (n : nat),
    isElementVisible l w
    = (Returned b,
       mkWorld (after_ms n (page (as_found w))) (clock (as_found w) + Z.of_nat n)
               (calls w ++ [locator_waitFor l visible 1000]))
    /\ Z.of_nat n <= 1000
    /\ (b = true <->
        exists k : nat,
          Z.of_nat k <= 1000
          /\ is_visible l (after_ms k (page (as_found w))) = true)
    /\ (b = false <->
        fst (Locator_waitFor l visible 1000 w) = Thrown TimeoutError)
    /\ is_visible l (after_ms n (page (as_found w))) = b.
Proof.
  destruct (probe_spec l w) as (n & Hrun & Hn & Hvis).
  exists (within (is_visible l) 1000 (page (as_found w))), n.
  split; [exact Hrun|]. split; [exact Hn|]. split; [|split; [|exact Hvis]].
  - rewrite within_true_iff. split; intros (k & Hk & Hr); exists k; split;
      try exact Hr; lia.
  - unfold Locator_waitFor. rewrite poll_within.
    change (in_state visible l) with (@is_visible U l).
    destruct (within (is_visible l) 1000 (page (as_found w))); split; congruence.
Qed.

(** What a probe hands to the code that follows it. *)
Lemma probe_then (l : Locator) {A : Type} (k : bool -> Async U A) (w : World U) :
  bind (isElementVisible l) k w
  = k (within (is_visible l) 1000 (page (as_found w))) (snd (isElementVisible l w)).
Proof.
  destruct (probe_spec l w) as (n & Hrun & _).
  rewrite (bind_step _ _ _ _ _ Hrun), Hrun. reflexivity.
Qed.

Lemma probe_run (l : Locator) (w : World U) :
  isElementVisible l w
  = (Returned (within (is_visible l) 1000 (page (as_found w))),
     snd (isElementVisible l w)).
Proof.
  destruct (probe_spec l w) as (n & Hrun & _). rewrite Hrun. reflexivity.
Qed.

Lemma probe_calls (l : Locator) (w : World U) :
  calls (snd (isElementVisible l w)) = calls w ++ [locator_waitFor l visible 1000].
Proof.
  destruct (probe_spec l w) as (n & Hrun & _). rewrite Hrun. reflexivity.
Qed.

(** The probe leaves the page at a moment at which the element is as the
    probe says. *)
Lemma probe_seen (l : Locator) (w : World U) :
  is_visible l (page (snd (isElementVisible l w)))
  = within (is_visible l) 1000 (page (as_found w)).
Proof.
  destruct (probe_spec l w) as (n & Hrun & _ & Hvis). rewrite Hrun. exact Hvis.
Qed.

End BasePageFacts.

(** ** [LoginPage.waitForLoadingToComplete] *)

Section LoadingFacts.
Context {U : Surface}.

(** What [waitForLoadingToComplete] does, case by case: the spinner does
    not show within five seconds; it shows and goes within ten seconds;
    it shows and stays. *)
Lemma waitForLoadingToComplete_spec (w : World U) :
  waitForLoadingToComplete w =
  (Returned tt,
   match settle (is_visible loadingSpinner) (Z.to_nat TIMEOUTS.SHORT)
                (page (as_found w)) with
   | None =>
       mkWorld (after_ms (Z.to_nat TIMEOUTS.SHORT) (page (as_found w)))
               (clock (as_found w) + Z.of_nat (Z.to_nat TIMEOUTS.SHORT))
               (calls w ++ [locator_waitFor loadingSpinner visible 5000])
   | Some (n, d) =>
       let w1 := mkWorld d (clock (as_found w) + Z.of_nat n)
                   (calls w ++ [locator_waitFor loadingSpinner visible 5000]) in
       let cs := calls w1 ++ [locator_waitFor loadingSpinner hidden 10000] in
       match settle (in_state hidden loadingSpinner) (Z.to_nat TIMEOUTS.MEDIUM)
                    (page (as_found w1)) with
       | Some (m, d') => mkWorld d' (clock (as_found w1) + Z.of_nat m) cs
       | None =>
           mkWorld (after_ms (Z.to_nat TIMEOUTS.MEDIUM) (page (as_found w1)))
                   (clock (as_found w1) + Z.of_nat (Z.to_nat TIMEOUTS.MEDIUM)) cs
       end
   end).
Proof.
  unfold waitForLoadingToComplete, try_catch, bind, waitForElement,
    waitForElementToBeHidden, Locator_waitFor, or_default, ret.
  rewrite poll_cases.
  change (in_state visible loadingSpinner) with (@is_visible U loadingSpinner).
  change TIMEOUTS.SHORT with 5000. change TIMEOUTS.MEDIUM with 10000.
  destruct (settle (is_visible loadingSpinner) (Z.to_nat 5000) (page (as_found w)))
    as [[n d]|]; [|reflexivity].
  rewrite poll_cases. cbv zeta.
  match goal with
  | |- context [settle ?r ?b ?p] => destruct (settle r b p) as [[m d']|]
  end; reflexivity.
Qed.

(** C8. When the loading spinner does not appear within the short wait
    (five seconds), [waitForLoadingToComplete] returns normally: the
    timeout raised by the inner wait is caught, nothing more is awaited,
    and the only call issued is that one wait. *)
Theorem waitForLoadingToComplete_absent_spinner (w : World U) :
  within (is_visible loadingSpinner) TIMEOUTS.SHORT (page (as_found w)) = false ->
  fst (waitForElement loadingSpinner (Some TIMEOUTS.SHORT) w) = Thrown TimeoutError
  /\ waitForLoadingToComplete w
     = (Returned tt,
        mkWorld (after_ms (Z.to_nat 5000) (page (as_found w)))
                (clock (as_found w) + 5000)
                (calls w ++ [locator_waitFor loadingSpinner visible 5000])).
Proof.
  intros Habsent. split.
  - unfold waitForElement, Locator_waitFor, or_default. rewrite poll_within.
    change (in_state visible loadingSpinner) with (@is_visible U loadingSpinner).
    rewrite Habsent. reflexivity.
  - rewrite waitForLoadingToComplete_spec. unfold within in Habsent.
    destruct (settle (is_visible loadingSpinner) (Z.to_nat TIMEOUTS.SHORT)
                     (page (as_found w)))
      as [[n d]|]; [discriminate|].
    change TIMEOUTS.SHORT with 5000. rewrite Z2Nat.id by lia. reflexivity.
Qed.

(** C10. [waitForLoadingToComplete] returns normally whatever the page
    does.  In particular, when the spinner shows (within the five seconds)
    and is then still there throughout the ten seconds of the hidden-wait,
    that wait throws its timeout and the operation all the same returns,
    10000 ms after the hidden-wait has reached the page. *)
Theorem waitForLoadingToComplete_never_throws (w : World U) :
  (exists w', waitForLoadingToComplete w = (Returned tt, w'))
  /\ (forall (n : nat) (d : dom U),
        settle (is_visible loadingSpinner) (Z.to_nat TIMEOUTS.SHORT)
               (page (as_found w))
        = Some (n, d) ->
        let w1 := mkWorld d (clock (as_found w) + Z.of_nat n)
                    (calls w ++ [locator_waitFor loadingSpinner visible 5000]) in
        within (in_state hidden loadingSpinner) TIMEOUTS.MEDIUM (page (as_found w1))
        = false ->
        waitForElement loadingSpinner (Some TIMEOUTS.SHORT) w = (Returned tt, w1)
        /\ fst (waitForElementToBeHidden loadingSpinner (Some TIMEOUTS.MEDIUM) w1)
           = Thrown TimeoutError
        /\ waitForLoadingToComplete w
           = (Returned tt,
              mkWorld (after_ms (Z.to_nat 10000) (page (as_found w1)))
                (clock (as_found w1) + 10000)
                (calls w ++ [locator_waitFor loadingSpinner visible 5000;
                             locator_waitFor loadingSpinner hidden 10000]))).
Proof.
  split.
  - rewrite waitForLoadingToComplete_spec. eexists. reflexivity.
  - intros n d Hshow w1 Hstay. split; [|split].
    + unfold waitForElement, Locator_waitFor, or_default. rewrite poll_cases.
      change (in_state visible loadingSpinner) with (@is_visible U loadingSpinner).
      rewrite Hshow. reflexivity.
    + unfold waitForElementToBeHidden, Locator_waitFor, or_default.
      rewrite poll_within, Hstay. reflexivity.
    + rewrite waitForLoadingToComplete_spec, Hshow. cbv zeta. fold w1.
      unfold within in Hstay.
      destruct (settle (in_state hidden loadingSpinner) (Z.to_nat TIMEOUTS.MEDIUM)
                       (page (as_found w1)))
        as [[m d']|]; [discriminate|].
      change TIMEOUTS.MEDIUM with 10000. rewrite Z2Nat.id by lia.
      subst w1. cbn [calls]. rewrite <- app_assoc. reflexivity.
Qed.

End LoadingFacts.

(** ** Invariants of the page and of the call log *)

Section Preservation.
Context {U : Surface}.
Variable I : dom U -> Prop.

Lemma keeps_ret {A : Type} (a : A) : keeps I (@ret U A a).
Proof. intros w r w' H Hw. inversion H; subst. exact Hw. Qed.

Lemma keeps_throw {A : Type} (e : Error) : keeps I (@throw U A e).
Proof. intros w r w' H Hw. inversion H; subst. exact Hw. Qed.

Lemma keeps_bind {A B : Type} (m : Async U A) (k : A -> Async U B) :
  keeps I m -> (forall a, keeps I (k a)) -> keeps I (bind m k).
Proof.
  intros Hm Hk w r w' H Hw. unfold bind in H.
  destruct (m w) as [[a|e] w1] eqn:E.
  - apply (Hk a w1 r w' H). apply (Hm w _ w1 E Hw).
  - inversion H; subst. apply (Hm w _ w' E Hw).
Qed.

Lemma keeps_try_catch {A : Type} (m h : Async U A) :
  keeps I m -> keeps I h -> keeps I (try_catch m h).
Proof.
  intros Hm Hh w r w' H Hw. unfold try_catch in H.
  destruct (m w) as [[a|e] w1] eqn:E.
  - inversion H; subst. apply (Hm w _ w' E Hw).
  - apply (Hh w1 r w' H). apply (Hm w _ w1 E Hw).
Qed.

Lemma keeps_poll c err ready timeout effect :
  (forall d, I d -> I (elapse d)) ->
  (forall d, I d -> I (effect d)) ->
  keeps I (poll c err ready timeout effect).
Proof.
  intros Hstep Heff w [u|e] w' H Hw.
  - apply poll_Returned in H. destruct H as (n & _ & _ & _ & ->).
    unfold as_found. cbn [page].
    apply Heff, after_ms_keeps; [assumption|]. apply (found_keeps I); assumption.
  - apply poll_Thrown in H. destruct H as (_ & _ & ->).
    unfold as_found. cbn [page].
    apply after_ms_keeps; [assumption|]. apply (found_keeps I); assumption.
Qed.

Lemma keeps_isChecked (l : Locator) :
  (forall d, I d -> I (elapse d)) -> keeps I (Locator_isChecked l).
Proof.
  intros Hstep w r w' H Hw. inversion H; subst. cbn [page].
  apply (found_keeps I); assumption.
Qed.

Lemma keeps_textContent (l : Locator) :
  (forall d, I d -> I (elapse d)) -> keeps I (Locator_textContent l).
Proof.
  intros Hstep w r w' H Hw. inversion H; subst. cbn [page].
  apply (found_keeps I); assumption.
Qed.

End Preservation.

Section Emission.
Context {U : Surface}.
Variable P : Call -> bool.

Lemma emits_ret {A : Type} (a : A) : emits P (@ret U A a).
Proof.
  intros w r w' H. inversion H; subst. exists []. rewrite app_nil_r. auto.
Qed.

Lemma emits_throw {A : Type} (e : Error) : emits P (@throw U A e).
Proof.
  intros w r w' H. inversion H; subst. exists []. rewrite app_nil_r. auto.
Qed.

Lemma emits_bind {A B : Type} (m : Async U A) (k : A -> Async U B) :
  emits P m -> (forall a, emits P (k a)) -> emits P (bind m k).
Proof.
  intros Hm Hk w r w' H. unfold bind in H.
  destruct (m w) as [[a|e] w1] eqn:E.
  - destruct (Hm w _ w1 E) as (cs1 & E1 & H1).
    destruct (Hk a w1 r w' H) as (cs2 & E2 & H2).
    exists (cs1 ++ cs2). rewrite E2, E1, app_assoc, forallb_app, H1, H2. auto.
  - inversion H; subst. apply (Hm w _ w' E).
Qed.

Lemma emits_try_catch {A : Type} (m h : Async U A) :
  emits P m -> emits P h -> emits P (try_catch m h).
Proof.
  intros Hm Hh w r w' H. unfold try_catch in H.
  destruct (m w) as [[a|e] w1] eqn:E.
  - inversion H; subst. apply (Hm w _ w' E).
  - destruct (Hm w _ w1 E) as (cs1 & E1 & H1).
    destruct (Hh w1 r w' H) as (cs2 & E2 & H2).
    exists (cs1 ++ cs2). rewrite E2, E1, app_assoc, forallb_app, H1, H2. auto.
Qed.

Lemma emits_poll c err ready timeout effect :
  P c = true -> emits P (@poll U c err ready timeout effect).
Proof.
  intros Hc w [u|e] w' H.
  - apply poll_Returned in H. destruct H as (n & _ & _ & _ & ->).
    exists [c]. cbn. rewrite Hc. auto.
  - apply poll_Thrown in H. destruct H as (_ & _ & ->).
    exists [c]. cbn. rewrite Hc. auto.
Qed.

Lemma emits_isChecked (l : Locator) :
  P (locator_isChecked l) = true -> emits P (@Locator_isChecked U l).
Proof.
  intros Hc w r w' H. inversion H; subst. exists [locator_isChecked l].
  cbn. rewrite Hc. auto.
Qed.

Lemma emits_textContent (l : Locator) :
  P (locator_textContent l) = true -> emits P (@Locator_textContent U l).
Proof.
  intros Hc w r w' H. inversion H; subst. exists [locator_textContent l].
  cbn. rewrite Hc. auto.
Qed.

End Emission.

(** What a computation can throw. *)
Section Failure.
Context {U : Surface}.

Lemma throws_only_bind {A B : Type} (err : Error) (m : Async U A)
      (k : A -> Async U B) :
  throws_only err m -> (forall a, throws_only err (k a)) ->
  throws_only err (bind m k).
Proof.
  intros Hm Hk w e w' H. apply bind_Thrown in H.
  destruct H as [H | (a & w1 & _ & H)]; [apply (Hm _ _ _ H) | apply (Hk _ _ _ _ H)].
Qed.

Lemma throws_only_poll c err ready timeout effect :
  throws_only err (@poll U c err ready timeout effect).
Proof. intros w e w' H. apply poll_Thrown in H. apply H. Qed.

Lemma throws_only_ret {A : Type} (err : Error) (a : A) :
  throws_only err (@ret U A a).
Proof. intros w e w' H. discriminate H. Qed.

Lemma throws_only_probe {A : Type} (err : Error) (l : Locator)
      (k : bool -> Async U A) :
  (forall b, throws_only err (k b)) ->
  throws_only err (bind (isElementVisible l) k).
Proof.
  intros Hk w e w' H. rewrite probe_then in H. apply (Hk _ _ _ _ H).
Qed.

End Failure.

(** ** [BasePage], continued: waiting, clicking, reading *)

Section InteractionFacts.
Context {U : Surface}.

Lemma clickElement_Returned (l : Locator) (w w' : World U) :
  clickElement l None w = (Returned tt, w') ->
  exists n : nat,
    page w' = on_click l (after_ms n (page w))
    /\ calls w' = calls w ++ [locator_waitFor l visible 10000; locator_click l].
Proof.
  intros H. base_unfold H. run_inv H. merge_ms.
  eexists. rewrite <- app_assoc. split; reflexivity.
Qed.

Lemma clickElement_throws_only (l : Locator) (t : option Z) :
  throws_only TimeoutError (@clickElement U l t).
Proof.
  unfold clickElement, waitForElement, Locator_waitFor, Locator_click.
  apply throws_only_bind; [|intros _]; apply throws_only_poll.
Qed.

Lemma isElementChecked_spec (l : Locator) (w : World U) r w' :
  isElementChecked l w = (r, w') ->
  exists n : nat,
    page w' = after_ms n (page w)
    /\ ((r = Returned (is_checked l (page w'))
         /\ calls w' = calls w ++ [locator_waitFor l visible 10000; locator_isChecked l])
        \/ (r = Thrown TimeoutError
            /\ calls w' = calls w ++ [locator_waitFor l visible 10000])).
Proof.
  intros H. base_unfold H. unfold bind in H.
  destruct (poll (locator_waitFor l visible 10000) TimeoutError (in_state visible l)
                 10000 (fun d => d) w) as [[u|e] w1] eqn:E.
  - apply poll_Returned in E. destruct E as (n & _ & _ & _ & ->).
    unfold Locator_isChecked, record in H. cbv zeta in H.
    apply pair_equal_spec in H. destruct H as [<- <-].
    merge_ms. eexists. split; [reflexivity|].
    left. rewrite <- app_assoc. auto.
  - apply poll_Thrown in E. destruct E as (-> & _ & ->).
    apply pair_equal_spec in H. destruct H as [<- <-].
    merge_ms. eexists. split; [reflexivity|]. auto.
Qed.

Lemma isElementChecked_throws_only (l : Locator) :
  throws_only TimeoutError (@isElementChecked U l).
Proof.
  intros w e w' H. apply isElementChecked_spec in H.
  destruct H as (n & _ & [(H & _) | (H & _)]); [discriminate | congruence].
Qed.

Lemma fillInput_Returned (l : Locator) (t : string) (w w' : World U) :
  fillInput l t None w = (Returned tt, w') ->
  calls w' =
  calls w ++ [locator_waitFor l visible 10000; locator_clear l; locator_fill l t].
Proof.
  intros H. base_unfold H. run_inv H. cbn [calls].
  repeat rewrite <- app_assoc. reflexivity.
Qed.

Lemma fillInput_throws_only (l : Locator) (t : string) (timeout : option Z) :
  throws_only TimeoutError (@fillInput U l t timeout).
Proof.
  unfold fillInput, waitForElement, Locator_waitFor, Locator_clear, Locator_fill.
  apply throws_only_bind; [apply throws_only_poll | intros _].
  apply throws_only_bind; [|intros _]; apply throws_only_poll.
Qed.

Lemma fillInput_emits (P : Call -> bool) (l : Locator) (t : string) :
  P (locator_waitFor l visible 10000) = true ->
  P (locator_clear l) = true ->
  P (locator_fill l t) = true ->
  emits P (@fillInput U l t None).
Proof.
  intros H1 H2 H3.
  unfold fillInput, waitForElement, Locator_waitFor, Locator_clear, Locator_fill,
    or_default.
  apply emits_bind; [apply emits_poll; exact H1 | intros _].
  apply emits_bind; [apply emits_poll; exact H2 | intros _].
  apply emits_poll; exact H3.
Qed.

Lemma clickElement_emits (P : Call -> bool) (l : Locator) :
  P (locator_waitFor l visible 10000) = true ->
  P (locator_click l) = true ->
  emits P (@clickElement U l None).
Proof.
  intros H1 H2.
  unfold clickElement, waitForElement, Locator_waitFor, Locator_click, or_default.
  apply emits_bind; [apply emits_poll; exact H1 | intros _].
  apply emits_poll; exact H2.
Qed.

Lemma isElementChecked_emits (P : Call -> bool) (l : Locator) :
  P (locator_waitFor l visible 10000) = true ->
  P (locator_isChecked l) = true ->
  emits P (@isElementChecked U l).
Proof.
  intros H1 H2.
  unfold isElementChecked, waitForElement, Locator_waitFor, or_default.
  apply emits_bind; [apply emits_poll; exact H1 | intros _].
  apply emits_isChecked; exact H2.
Qed.

Lemma fillInput_keeps (I : dom U -> Prop) (l : Locator) (t : string) :
  (forall d, I d -> I (elapse d)) ->
  (forall d, I d -> I (on_clear l d)) ->
  (forall d, I d -> I (on_fill l t d)) ->
  keeps I (fillInput l t None).
Proof.
  intros H1 H2 H3.
  unfold fillInput, waitForElement, Locator_waitFor, Locator_clear, Locator_fill,
    or_default.
  apply keeps_bind; [apply keeps_poll; auto | intros _].
  apply keeps_bind; [apply keeps_poll; auto | intros _].
  apply keeps_poll; auto.
Qed.

Lemma isElementChecked_keeps (I : dom U -> Prop) (l : Locator) :
  (forall d, I d -> I (elapse d)) -> keeps I (isElementChecked l).
Proof.
  intros Hstep. unfold isElementChecked, waitForElement, Locator_waitFor.
  apply keeps_bind; [apply keeps_poll; auto | intros _; apply keeps_isChecked; auto].
Qed.

Lemma clickElement_keeps (I : dom U -> Prop) (l : Locator) t :
  (forall d, I d -> I (elapse d)) -> (forall d, I d -> I (on_click l d)) ->
  keeps I (clickElement l t).
Proof.
  intros Hstep Hclick.
  unfold clickElement, waitForElement, Locator_waitFor, Locator_click.
  apply keeps_bind; [|intros _]; apply keeps_poll; auto.
Qed.

End InteractionFacts.

(** ** [LoginPage.setRememberMe] *)

Section RememberMeFacts.
Context {U : Surface}.

Lemma setRememberMe_keeps (I : dom U -> Prop) (b : bool) :
  (forall d, I d -> I (elapse d)) ->
  (forall d, I d -> I (on_click rememberMeCheckbox d)) ->
  keeps I (setRememberMe b).
Proof.
  intros Hstep Hclick. unfold setRememberMe.
  apply keeps_bind; [apply isElementChecked_keeps; auto|].
  intros cur. destruct (negb (Bool.eqb cur b)).
  - apply clickElement_keeps; auto.
  - apply keeps_ret.
Qed.

Lemma setRememberMe_throws_only (b : bool) :
  throws_only TimeoutError (@setRememberMe U b).
Proof.
  unfold setRememberMe.
  apply throws_only_bind; [apply isElementChecked_throws_only|].
  intros cur. destruct (negb (Bool.eqb cur b)).
  - apply clickElement_throws_only.
  - apply throws_only_ret.
Qed.

Lemma setRememberMe_emits (P : Call -> bool) (b : bool) :
  P (locator_waitFor rememberMeCheckbox visible 10000) = true ->
  P (locator_isChecked rememberMeCheckbox) = true ->
  P (locator_click rememberMeCheckbox) = true ->
  emits P (@setRememberMe U b).
Proof.
  intros H1 H2 H3. unfold setRememberMe.
  apply emits_bind; [apply isElementChecked_emits; assumption|].
  intros cur. destruct (negb (Bool.eqb cur b)).
  - apply clickElement_emits; assumption.
  - apply emits_ret.
Qed.

Hypothesis L : CheckboxLaws U.

Lemma checked_after_ms (n : nat) (d : dom U) :
  is_checked rememberMeCheckbox (after_ms n d) = is_checked rememberMeCheckbox d.
Proof.
  revert d. induction n as [|n IH]; intros d; simpl.
  - reflexivity.
  - rewrite IH. apply (checkbox_elapse U L).
Qed.

(** A call that returns has read the box and clicked it exactly when it
    was not as requested; the box is then as requested. *)
Lemma setRememberMe_Returned (b : bool) (w w' : World U) :
  setRememberMe b w = (Returned tt, w') ->
  is_checked rememberMeCheckbox (page w') = b
  /\ calls w' =
     calls w ++
     locator_waitFor rememberMeCheckbox visible 10000
     :: locator_isChecked rememberMeCheckbox
     :: (if Bool.eqb (is_checked rememberMeCheckbox (page w)) b then []
         else [locator_waitFor rememberMeCheckbox visible 10000;
               locator_click rememberMeCheckbox]).
Proof.
  unfold setRememberMe. intros H.
  apply bind_Returned in H. destruct H as (cur & wa & Hread & Hact).
  apply isElementChecked_spec in Hread.
  destruct Hread as (n & Hpage & [(Hcur & Hlog) | (Hcur & _)]); [|discriminate].
  inversion Hcur as [Hc]. rewrite Hpage, checked_after_ms in Hc.
  rewrite <- Hc.
  destruct (Bool.eqb cur b) eqn:E; cbn [negb] in Hact.
  - inversion Hact; subst w'. apply eqb_prop in E. split.
    + rewrite Hpage, checked_after_ms. congruence.
    + exact Hlog.
  - apply clickElement_Returned in Hact. destruct Hact as (m & Hp & Hl). split.
    + rewrite Hp, (checkbox_click U L), checked_after_ms, Hpage, checked_after_ms.
      rewrite <- Hc. destruct cur, b; simpl in *; congruence.
    + rewrite Hl, Hlog, <- app_assoc. reflexivity.
Qed.



End RememberMeFacts.

(** ** [LoginPage.clearForm] *)

Section ClearFormFacts.
Context {U : Surface}.
Hypothesis L : CheckboxLaws U.
Hypothesis F : FieldLaws U.

Lemma emptied_elapse (d : dom U) : emptied d -> emptied (elapse d).
Proof.
  intros [He Hp]. split.
  - rewrite (email_frame_elapse U F). exact He.
  - rewrite (password_frame_elapse U F). exact Hp.
Qed.

Lemma emptied_click (d : dom U) : emptied d -> emptied (on_click rememberMeCheckbox d).
Proof.
  intros [He Hp]. split.
  - rewrite (email_frame_click U F). exact He.
  - rewrite (password_frame_click U F). exact Hp.
Qed.

Lemma email_after_ms (n : nat) (d : dom U) :
  input_value emailInput (after_ms n d) = input_value emailInput d.
Proof.
  revert d. induction n as [|n IH]; intros d; simpl.
  - reflexivity.
  - rewrite IH. apply (email_frame_elapse U F).
Qed.

(** A [clearForm] that returns leaves the form empty and unchecked, and
    has unchecked the box only if it read it checked. *)
Lemma clearForm_Returned (w w' : World U) :
  clearForm w = (Returned tt, w') ->
  form (page w') = ("", "", false)
  /\ exists wc : World U,
       (Locator_clear emailInput ;; Locator_clear passwordInput) w = (Returned tt, wc)
       /\ exists n : nat,
            calls w' =
            calls wc ++
            locator_waitFor rememberMeCheckbox visible 10000
            :: locator_isChecked rememberMeCheckbox
            :: (if is_checked rememberMeCheckbox (after_ms n (page wc))
                then [locator_waitFor rememberMeCheckbox visible 10000;
                      locator_isChecked rememberMeCheckbox;
                      locator_waitFor rememberMeCheckbox visible 10000;
                      locator_click rememberMeCheckbox]
                else []).
Proof.
  unfold clearForm. intros H.
  apply bind_Returned in H. destruct H as ([] & wa & Ha & H).
  apply bind_Returned in H. destruct H as ([] & wb & Hb & H).
  apply bind_Returned in H. destruct H as (c & wc & Hc & H).
  assert (emptied (page wb)) as Hempty.
  { unfold Locator_clear in Ha, Hb.
    apply poll_Returned in Ha. destruct Ha as (n1 & _ & _ & _ & ->).
    apply poll_Returned in Hb. destruct Hb as (n2 & _ & _ & _ & ->).
    unfold as_found, found. cbn [page]. split.
    - rewrite (email_frame_clear U F), !email_after_ms. apply (email_clear U F).
    - apply (password_clear U F). }
  apply isElementChecked_spec in Hc.
  destruct Hc as (n & Hpage & [(Hcur & Hlog) | (Hcur & _)]); [|discriminate].
  inversion Hcur as [Hcv].
  assert (emptied (page wc)) as Hempty'.
  { rewrite Hpage. apply after_ms_keeps; [apply emptied_elapse | exact Hempty]. }
  assert (form (page w') = ("", "", false)
          /\ calls w' =
             calls wc ++
             (if c then [locator_waitFor rememberMeCheckbox visible 10000;
                         locator_isChecked rememberMeCheckbox;
                         locator_waitFor rememberMeCheckbox visible 10000;
                         locator_click rememberMeCheckbox]
              else [])) as [Hform Hcalls].
  { destruct c.
    - destruct (setRememberMe_Returned L false wc w' H) as (Hoff & Hl).
      assert (emptied (page w')) as [He Hp].
      { apply (setRememberMe_keeps emptied false emptied_elapse emptied_click
                 wc (Returned tt) w' H Hempty'). }
      split.
      + unfold form. rewrite He, Hp, Hoff. reflexivity.
      + rewrite Hl, <- Hcv. reflexivity.
    - inversion H; subst w'. destruct Hempty' as [He Hp]. split.
      + unfold form. rewrite He, Hp, <- Hcv. reflexivity.
      + rewrite app_nil_r. reflexivity. }
  split; [exact Hform|].
  exists wb. split.
  - unfold bind. rewrite Ha. exact Hb.
  - exists n. rewrite Hcalls, Hlog, <- Hpage, <- Hcv, <- app_assoc. reflexivity.
Qed.

(** C6. [clearForm] is idempotent.  On a page whose email and password
    controls are text inputs and whose remember-me control is a checkbox,
    from any form state: when [clearForm] has returned, the email field is
    empty, the password field is empty and remember-me is unchecked, and a
    second [clearForm] that returns leaves that same end state.  The box is
    clicked (to uncheck it) only when [clearForm] has read it checked. *)
Theorem clearForm_idempotent (w w1 w2 : World U) :
  clearForm w = (Returned tt, w1) ->
  clearForm w1 = (Returned tt, w2) ->
  form (page w1) = ("", "", false)
  /\ form (page w2) = form (page w1)
  /\ exists (wc : World U) (n : nat),
       (Locator_clear emailInput ;; Locator_clear passwordInput) w = (Returned tt, wc)
       /\ calls w1 =
          calls wc ++
          locator_waitFor rememberMeCheckbox visible 10000
          :: locator_isChecked rememberMeCheckbox
          :: (if is_checked rememberMeCheckbox (after_ms n (page wc))
              then [locator_waitFor rememberMeCheckbox visible 10000;
                    locator_isChecked rememberMeCheckbox;
                    locator_waitFor rememberMeCheckbox visible 10000;
                    locator_click rememberMeCheckbox]
              else []).
Proof.
  intros H1 H2.
  destruct (clearForm_Returned w w1 H1) as (Hf1 & wc & Hclear & n & Hlog).
  destruct (clearForm_Returned w1 w2 H2) as (Hf2 & _).
  split; [exact Hf1|]. split; [congruence|].
  exists wc, n. auto.
Qed.

End ClearFormFacts.

(** ** [LoginPage.login] *)

Section LoginFacts.
Context {U : Surface}.

Lemma removelast_quiet (P : Call -> bool) (cs : list Call) :
  forallb P cs = true -> forallb P (removelast cs) = true.
Proof.
  induction cs as [|c cs IH]; [reflexivity|].
  cbn [forallb]. intros H. apply andb_true_iff in H. destruct H as [Hc Hcs].
  destruct cs as [|c' cs']; [reflexivity|].
  change (removelast (c :: c' :: cs')) with (c :: removelast (c' :: cs')).
  cbn [forallb]. rewrite Hc. apply IH. exact Hcs.
Qed.

Lemma emits_before_last_bind {A B : Type} (P : Call -> bool) (m : Async U A)
      (k : A -> Async U B) :
  emits P m -> (forall a, emits_before_last P (k a)) ->
  emits_before_last P (bind m k).
Proof.
  intros Hm Hk w r w' H. unfold bind in H.
  destruct (m w) as [[a|e] w1] eqn:E.
  - destruct (Hm w _ w1 E) as (cs1 & E1 & H1).
    destruct (Hk a w1 r w' H) as (cs2 & E2 & H2).
    exists (cs1 ++ cs2). rewrite E2, E1, app_assoc. split; [reflexivity|].
    destruct cs2 as [|c2 cs2].
    + rewrite app_nil_r. apply removelast_quiet. exact H1.
    + rewrite removelast_app by discriminate. rewrite forallb_app, H1. exact H2.
  - apply pair_equal_spec in H. destruct H as [_ <-].
    destruct (Hm w _ w1 E) as (cs1 & E1 & H1).
    exists cs1. split; [exact E1 | apply removelast_quiet; exact H1].
Qed.

(** However the submit ends, the click is the last call it issues. *)
Lemma clickLoginButton_last :
  emits_before_last (fun k => negb (is_submit k)) (@clickLoginButton U).
Proof.
  intros w r w'.
  unfold clickLoginButton, clickElement, waitForElement, Locator_waitFor,
    Locator_click, or_default, bind.
  rewrite poll_cases.
  match goal with
  | |- context [settle ?r ?b ?p] => destruct (settle r b p) as [[n d]|]
  end.
  - rewrite poll_cases.
    match goal with
    | |- context [settle ?r ?b ?p] => destruct (settle r b p) as [[m d']|]
    end; intros H; apply pair_equal_spec in H; destruct H as [_ <-];
      cbn [calls];
      exists [locator_waitFor loginButton visible 10000; locator_click loginButton];
      rewrite <- app_assoc; split; reflexivity.
  - intros H. apply pair_equal_spec in H. destruct H as [_ <-]. cbn [calls].
    exists [locator_waitFor loginButton visible 10000]. split; reflexivity.
Qed.

(** Whatever comes before the submit is not a click on the submit
    button. *)
Lemma login_submits_last (c : UserCredentials) :
  emits_before_last (fun k => negb (is_submit k)) (@login U c).
Proof.
  unfold login, enterEmail, enterPassword.
  apply emits_before_last_bind; [apply fillInput_emits; reflexivity | intros _].
  apply emits_before_last_bind; [apply fillInput_emits; reflexivity | intros _].
  apply emits_before_last_bind; [|intros _; apply clickLoginButton_last].
  destruct (truthy (rememberMe c)).
  - apply setRememberMe_emits; reflexivity.
  - apply emits_ret.
Qed.

(** Without a request for remember-me, no call of [login] is addressed to
    the checkbox. *)
Lemma login_leaves_checkbox (c : UserCredentials) :
  truthy (rememberMe c) = false ->
  emits (fun k => negb (touches rememberMeCheckbox k)) (@login U c).
Proof.
  intros Hno. unfold login, enterEmail, enterPassword, clickLoginButton.
  rewrite Hno.
  apply emits_bind; [apply fillInput_emits; reflexivity | intros _].
  apply emits_bind; [apply fillInput_emits; reflexivity | intros _].
  apply emits_bind; [apply emits_ret | intros _].
  apply clickElement_emits; reflexivity.
Qed.

Lemma login_keeps_checkbox (c : UserCredentials) (v : bool) :
  CheckboxFrame U ->
  truthy (rememberMe c) = false ->
  keeps (fun d => is_checked rememberMeCheckbox d = v) (@login U c).
Proof.
  intros Fr Hno. unfold login, enterEmail, enterPassword, clickLoginButton.
  rewrite Hno.
  assert (forall d : dom U,
             is_checked rememberMeCheckbox d = v ->
             is_checked rememberMeCheckbox (elapse d) = v) as Hstep.
  { intros d Hd. rewrite (frame_elapse U Fr). exact Hd. }
  apply keeps_bind; [apply fillInput_keeps; auto | intros _].
  - intros d Hd. rewrite (frame_clear_email U Fr). exact Hd.
  - intros d Hd. rewrite (frame_fill_email U Fr). exact Hd.
  - apply keeps_bind; [apply fillInput_keeps; auto | intros _].
    + intros d Hd. rewrite (frame_clear_password U Fr). exact Hd.
    + intros d Hd. rewrite (frame_fill_password U Fr). exact Hd.
    + apply keeps_bind; [apply keeps_ret | intros _].
      apply clickElement_keeps; auto.
      intros d Hd. rewrite (frame_submit U Fr). exact Hd.
Qed.

(** The optional third step of [login]. *)
Lemma remember_step (c : UserCredentials) (w2 : World U) r w3 :
  (if truthy (rememberMe c) then setRememberMe true else ret tt) w2 = (r, w3) ->
  (r = Returned tt
   /\ if truthy (rememberMe c)
      then setRememberMe true w2 = (Returned tt, w3)
      else w3 = w2)
  \/ (exists e, r = Thrown e
        /\ truthy (rememberMe c) = true
        /\ setRememberMe true w2 = (Thrown e, w3)).
Proof.
  destruct (truthy (rememberMe c)).
  - destruct r as [[]|e]; intros H; [left | right; exists e]; auto.
  - intros H. inversion H; subst. left. auto.
Qed.

Lemma remember_step_run (c : UserCredentials) (w2 w3 : World U) :
  (if truthy (rememberMe c)
   then setRememberMe true w2 = (Returned tt, w3)
   else w3 = w2) ->
  (if truthy (rememberMe c) then setRememberMe true else ret tt) w2
  = (Returned tt, w3).
Proof.
  destruct (truthy (rememberMe c)); intros H; [exact H | subst w3; reflexivity].
Qed.

(** C7. For every credentials value, [login] is exactly this sequence:
    [enterEmail], then [enterPassword], then [setRememberMe true] if and only
    if [credentials.rememberMe] is true, then the click on the submit button.
    It returns exactly when each step in turn returns, each starting where
    the one before it ended; it throws exactly when one of them throws, with
    what that step threw and in the world that step left, the steps after it
    not being run.  However it ends, no call before its last one is a click
    on the submit button.  When [credentials.rememberMe] is not set (or
    false), no call is addressed to the remember-me checkbox, however
    [login] ends, and on a page where nothing but a click on it changes the
    checkbox, it is in the state it was in. *)
Theorem login_sequence (c : UserCredentials) (w : World U) :
  (forall w',
     login c w = (Returned tt, w') <->
     exists w1 w2 w3 : World U,
       enterEmail (email c) w = (Returned tt, w1)
       /\ enterPassword (password c) w1 = (Returned tt, w2)
       /\ (if truthy (rememberMe c)
           then setRememberMe true w2 = (Returned tt, w3)
           else w3 = w2)
       /\ clickLoginButton w3 = (Returned tt, w')
       /\ calls w1 = calls w ++ [locator_waitFor emailInput visible 10000;
                                 locator_clear emailInput;
                                 locator_fill emailInput (email c)]
       /\ calls w2 = calls w1 ++ [locator_waitFor passwordInput visible 10000;
                                  locator_clear passwordInput;
                                  locator_fill passwordInput (password c)]
       /\ calls w' = calls w3 ++ [locator_waitFor loginButton visible 10000;
                                  locator_click loginButton])
  /\ (forall e w',
        login c w = (Thrown e, w') <->
        enterEmail (email c) w = (Thrown e, w')
        \/ exists w1 : World U,
             enterEmail (email c) w = (Returned tt, w1)
             /\ (enterPassword (password c) w1 = (Thrown e, w')
                 \/ exists w2 : World U,
                      enterPassword (password c) w1 = (Returned tt, w2)
                      /\ ((truthy (rememberMe c) = true
                           /\ setRememberMe true w2 = (Thrown e, w'))
                          \/ exists w3 : World U,
                               (if truthy (rememberMe c)
                                then setRememberMe true w2 = (Returned tt, w3)
                                else w3 = w2)
                               /\ clickLoginButton w3 = (Thrown e, w'))))
  /\ (forall r w', login c w = (r, w') ->
        exists cs, calls w' = calls w ++ cs
          /\ forallb (fun k => negb (is_submit k)) (removelast cs) = true)
  /\ (truthy (rememberMe c) = false ->
      forall r w', login c w = (r, w') ->
        (exists cs, calls w' = calls w ++ cs
           /\ forallb (fun k => negb (touches rememberMeCheckbox k)) cs = true)
        /\ (CheckboxFrame U ->
            is_checked rememberMeCheckbox (page w')
            = is_checked rememberMeCheckbox (page w))).
Proof.
  split; [|split; [|split]].
  - intros w'. split.
    + intros H. unfold login in H.
      apply bind_Returned in H. destruct H as ([] & w1 & H1 & H).
      apply bind_Returned in H. destruct H as ([] & w2 & H2 & H).
      apply bind_Returned in H. destruct H as ([] & w3 & H3 & H4).
      exists w1, w2, w3. split; [exact H1|]. split; [exact H2|]. split.
      { destruct (remember_step c w2 _ w3 H3) as [(_ & Hs) | (e & He & _)];
          [exact Hs | discriminate He]. }
      split; [exact H4|]. split; [|split].
      * apply fillInput_Returned. exact H1.
      * apply fillInput_Returned. exact H2.
      * apply clickElement_Returned in H4. destruct H4 as (n & _ & Hl). exact Hl.
    + intros (w1 & w2 & w3 & H1 & H2 & H3 & H4 & _). unfold login.
      rewrite (bind_step _ _ _ _ _ H1), (bind_step _ _ _ _ _ H2).
      rewrite (bind_step _ _ _ _ _ (remember_step_run c w2 w3 H3)). exact H4.
  - intros e w'. split.
    + intros H. unfold login in H.
      apply bind_Thrown in H. destruct H as [H | ([] & w1 & H1 & H)];
        [left; exact H | right; exists w1; split; [exact H1|]].
      apply bind_Thrown in H. destruct H as [H | ([] & w2 & H2 & H)];
        [left; exact H | right; exists w2; split; [exact H2|]].
      apply bind_Thrown in H. destruct H as [H | ([] & w3 & H3 & H)].
      * left. destruct (remember_step c w2 _ w' H) as [(He & _) | (e' & He & T & Hs)];
          [discriminate He|]. inversion He; subst e'. auto.
      * right. exists w3. split; [|exact H].
        destruct (remember_step c w2 _ w3 H3) as [(_ & Hs) | (e' & He & _)];
          [exact Hs | discriminate He].
    + unfold login.
      intros [H | (w1 & H1 & [H | (w2 & H2 & [(T & H) | (w3 & H3 & H)])])].
      * apply bind_abort. exact H.
      * rewrite (bind_step _ _ _ _ _ H1). apply bind_abort. exact H.
      * rewrite (bind_step _ _ _ _ _ H1), (bind_step _ _ _ _ _ H2), T.
        apply bind_abort. exact H.
      * rewrite (bind_step _ _ _ _ _ H1), (bind_step _ _ _ _ _ H2).
        rewrite (bind_step _ _ _ _ _ (remember_step_run c w2 w3 H3)). exact H.
  - intros r w' H. apply (login_submits_last c w r w' H).
  - intros Hno r w' H. split.
    + apply (login_leaves_checkbox c Hno w r w' H).
    + intros Fr.
      apply (login_keeps_checkbox c _ Fr Hno w r w' H). reflexivity.
Qed.

End LoginFacts.

(** ** [LoginPage.attemptLogin] *)

Section AttemptLoginFacts.
Context {U : Surface}.

(** A [validateErrorMessage] that returns has seen the banner, and the
    banner read as expected: the text is read one round trip after the
    banner has last been seen. *)
Lemma validateErrorMessage_Returned (expected : string) (w w' : World U) :
  validateErrorMessage expected w = (Returned tt, w') ->
  calls w' = calls w ++ [locator_waitFor errorMessage visible 10000;
                         expect_toBeVisible errorMessage;
                         locator_waitFor errorMessage visible 10000;
                         locator_textContent errorMessage]
  /\ (exists n : nat,
        is_visible errorMessage (after_ms n (page w)) = true
        /\ page w' = found (after_ms n (page w)))
  /\ includes expected (or_string (text_content errorMessage (page w')) "") = true.
Proof.
  unfold validateErrorMessage. change TIMEOUTS.MEDIUM with 10000. intros H.
  apply bind_Returned in H. destruct H as ([] & w1 & H1 & H).
  apply bind_Returned in H. destruct H as ([] & w2 & H2 & H).
  apply bind_Returned in H. destruct H as (actual & w3 & H3 & H4).
  unfold getElementText in H3.
  apply bind_Returned in H3. destruct H3 as ([] & w4 & H3 & H5).
  apply bind_Returned in H5. destruct H5 as (t & w5 & H5 & H6).
  base_unfold H3. apply poll_Returned in H3.
  destruct H3 as (n & _ & Hat & _ & Hw4).
  unfold Locator_textContent, record in H5. cbv zeta in H5.
  apply pair_equal_spec in H5. destruct H5 as [Ht Hw5].
  unfold ret in H6. apply pair_equal_spec in H6. destruct H6 as [Ha Hw3].
  inversion Ha as [Hactual]. clear Ha.
  unfold expect_toContain in H4.
  destruct (includes expected actual) eqn:Hinc; [|discriminate].
  apply pair_equal_spec in H4. destruct H4 as [_ Hw'].
  assert (page w' = found (page w4)) as Hpage.
  { rewrite <- Hw', <- Hw3, <- Hw5. reflexivity. }
  base_unfold H1. base_unfold H2.
  apply poll_Returned in H1. destruct H1 as (n1 & _ & _ & _ & Hw1).
  apply poll_Returned in H2. destruct H2 as (n2 & _ & _ & _ & Hw2).
  split; [|split].
  - subst. unfold as_found. cbn [calls].
    repeat rewrite <- app_assoc. reflexivity.
  - assert (exists k : nat, page w4 = after_ms k (page w)) as (k & Hk).
    { rewrite Hw4, Hw2, Hw1. merge_ms. eexists. reflexivity. }
    exists k. rewrite <- Hk. split; [|exact Hpage]. rewrite Hw4. exact Hat.
  - inversion Ht as [Ht']. rewrite Hpage, <- Hinc, <- Hactual, <- Ht'. reflexivity.
Qed.

(** C1. For every credentials value: [attemptLogin] expects success
    unless told otherwise.  On the success path it runs [login], then
    [waitForLoadingToComplete], then polls for at most ten seconds until the
    path of the location no longer contains ["/login"], and it returns at
    the first such moment, issuing no call about the error banner.  On the
    failure path it runs [login] and then [validateErrorMessage] with the
    invalid-credentials message: when it returns the banner has been seen
    and its text, read one round trip after the banner was last awaited,
    contains ["Invalid email or password"], and when the banner does not
    show within ten seconds of [login] it throws. *)
Theorem attemptLogin_contract (c : UserCredentials) (w : World U) :
  attemptLogin c None w = attemptLogin c (Some true) w
  /\ (forall w', attemptLogin c (Some true) w = (Returned tt, w') ->
        exists (w1 w2 : World U) (n : nat),
          login c w = (Returned tt, w1)
          /\ waitForLoadingToComplete w1 = (Returned tt, w2)
          /\ Z.of_nat n <= 10000
          /\ w' = mkWorld (after_ms n (page (as_found w2)))
                    (clock (as_found w2) + Z.of_nat n)
                    (calls w2 ++ [page_waitForFunction (pathname_excludes "/login") 10000])
          /\ (forall k, (k < n)%nat ->
                includes "/login" (pathname (after_ms k (page (as_found w2)))) = true)
          /\ includes "/login" (pathname (page w')) = false)
  /\ (forall w', attemptLogin c (Some false) w = (Returned tt, w') ->
        exists w1 : World U,
          login c w = (Returned tt, w1)
          /\ validateErrorMessage "Invalid email or password" w1 = (Returned tt, w')
          /\ calls w' = calls w1 ++ [locator_waitFor errorMessage visible 10000;
                                     expect_toBeVisible errorMessage;
                                     locator_waitFor errorMessage visible 10000;
                                     locator_textContent errorMessage]
          /\ (exists n : nat,
                is_visible errorMessage (after_ms n (page w1)) = true
                /\ page w' = found (after_ms n (page w1)))
          /\ exists t, text_content errorMessage (page w') = Some t
                       /\ includes "Invalid email or password" t = true)
  /\ (forall w1, login c w = (Returned tt, w1) ->
        within (is_visible errorMessage) 10000 (page (as_found w1)) = false ->
        fst (attemptLogin c (Some false) w) = Thrown TimeoutError).
Proof.
  split; [reflexivity|]. split; [|split].
  - intros w' H. unfold attemptLogin, or_default in H.
    apply bind_Returned in H. destruct H as ([] & w1 & H1 & H).
    apply bind_Returned in H. destruct H as ([] & w2 & H2 & H3).
    unfold Page_waitForFunction in H3. change TIMEOUTS.MEDIUM with 10000 in H3.
    apply poll_Returned in H3. destruct H3 as (n & Hle & Hat & Hmin & ->).
    exists w1, w2, n. cbn [page eval] in *.
    change URLs.LOGIN with "/login" in *.
    split; [exact H1|]. split; [exact H2|]. split; [lia|]. split; [reflexivity|].
    split.
    + intros k Hk. specialize (Hmin k Hk). apply negb_false_iff in Hmin. exact Hmin.
    + apply negb_true_iff in Hat. exact Hat.
  - intros w' H. unfold attemptLogin, or_default in H.
    apply bind_Returned in H. destruct H as ([] & w1 & H1 & H2).
    change ERROR_MESSAGES.INVALID_CREDENTIALS with "Invalid email or password" in H2.
    exists w1. split; [exact H1|]. split; [exact H2|].
    destruct (validateErrorMessage_Returned _ _ _ H2) as (Hl & Hv & Hinc).
    split; [exact Hl|]. split; [exact Hv|].
    destruct (text_content errorMessage (page w')) as [t|].
    + exists t. split; [reflexivity|]. destruct t; [discriminate Hinc | exact Hinc].
    + discriminate Hinc.
  - intros w1 H1 Hnone. unfold attemptLogin, or_default.
    rewrite (bind_step _ _ _ _ _ H1).
    unfold validateErrorMessage, waitForElement, Locator_waitFor, or_default, bind.
    change TIMEOUTS.MEDIUM with 10000.
    pose proof (poll_within (locator_waitFor errorMessage visible 10000) TimeoutError
                  (in_state visible errorMessage) 10000 (fun d => d) w1) as Hp.
    change (in_state visible errorMessage) with (@is_visible U errorMessage) in *.
    rewrite Hnone in Hp.
    destruct (poll (locator_waitFor errorMessage visible 10000) TimeoutError
                   (is_visible errorMessage) 10000 (fun d => d) w1) as [[u|e] wx];
      cbn [fst] in Hp; [discriminate | inversion Hp; reflexivity].
Qed.

End AttemptLoginFacts.

(** ** Retrying assertions *)

Section AssertionFacts.
Context {U : Surface}.

(** A retrying assertion of visibility, by cases on what it finds from the
    moment it reaches the page. *)
Lemma expect_cases (l : Locator) (w : World U) :
  expect_locator_toBeVisible l w
  = match settle (is_visible l) (Z.to_nat 10000) (page (as_found w)) with
    | Some (n, d) =>
        (Returned tt,
         mkWorld d (clock (as_found w) + Z.of_nat n)
                 (calls w ++ [expect_toBeVisible l]))
    | None =>
        (Thrown AssertionError,
         mkWorld (after_ms (Z.to_nat 10000) (page (as_found w)))
                 (clock (as_found w) + Z.of_nat (Z.to_nat 10000))
                 (calls w ++ [expect_toBeVisible l]))
    end.
Proof. reflexivity. Qed.

Lemma expect_outcome (l : Locator) (w : World U) r w' :
  expect_locator_toBeVisible l w = (r, w') ->
  calls w' = calls w ++ [expect_toBeVisible l]
  /\ ((r = Returned tt /\ is_visible l (page w') = true
       /\ within (is_visible l) 10000 (page (as_found w)) = true)
      \/ (r = Thrown AssertionError
          /\ within (is_visible l) 10000 (page (as_found w)) = false)).
Proof.
  destruct r as [[]|e]; intros H.
  - apply poll_Returned in H. destruct H as (n & Hle & Hat & _ & ->).
    split; [reflexivity|]. left. split; [reflexivity|]. split; [exact Hat|].
    apply within_true_iff. exists n. auto.
  - apply poll_Thrown in H. destruct H as (-> & Hnever & ->).
    split; [reflexivity|]. right. split; [reflexivity|].
    apply within_false_iff. exact Hnever.
Qed.

Lemma expect_fst (l : Locator) (w : World U) :
  fst (expect_locator_toBeVisible l w)
  = if within (is_visible l) 10000 (page (as_found w))
    then Returned tt else Thrown AssertionError.
Proof. apply poll_within. Qed.

(** An assertion made only if the probe has seen the element. *)
Lemma soft_assert (l : Locator) (b : bool) (w : World U) r w' :
  (if b then expect_locator_toBeVisible l else ret tt) w = (r, w') ->
  (r = Returned tt
   /\ calls w' = calls w ++ (if b then [expect_toBeVisible l] else [])
   /\ if b then expect_locator_toBeVisible l w = (Returned tt, w') else w' = w)
  \/ (r = Thrown AssertionError
      /\ b = true
      /\ expect_locator_toBeVisible l w = (Thrown AssertionError, w')).
Proof.
  destruct b; intros H.
  - destruct (expect_outcome l w r w' H) as (Hc & [(-> & _) | (-> & _)]); auto.
  - inversion H; subst. left. rewrite app_nil_r. auto.
Qed.

Lemma waitForElement_outcome (l : Locator) (t : Z) (w : World U) r w' :
  waitForElement l (Some t) w = (r, w') ->
  calls w' = calls w ++ [locator_waitFor l visible t]
  /\ ((r = Returned tt /\ is_visible l (page w') = true
       /\ within (is_visible l) t (page (as_found w)) = true)
      \/ (r = Thrown TimeoutError
          /\ within (is_visible l) t (page (as_found w)) = false)).
Proof.
  unfold waitForElement, Locator_waitFor, or_default.
  change (in_state visible l) with (@is_visible U l).
  destruct r as [[]|e]; intros H.
  - apply poll_Returned in H. destruct H as (n & Hle & Hat & _ & ->).
    split; [reflexivity|]. left. split; [reflexivity|]. split; [exact Hat|].
    apply within_true_iff. exists n. auto.
  - apply poll_Thrown in H. destruct H as (-> & Hnever & ->).
    split; [reflexivity|]. right. split; [reflexivity|].
    apply within_false_iff. exact Hnever.
Qed.

End AssertionFacts.

(** ** [DashboardPage] *)

Section DashboardFacts.
Context {U : Surface}.

(** C2. [validateStandardUserElements] probes the admin panel and then the
    user-management link, each for its one-second window, and fails (with an
    assertion error) if and only if at least one of the two was seen by its
    probe; it returns if and only if neither was.  [validateAdminElements]
    probes the same two controls and asserts visibility only of a control
    its probe has just seen: when neither control is seen it returns, the two
    probes being its only calls; when it returns, the log shows an assertion
    after a probe exactly when that probe saw the control; and when it fails,
    it fails with an assertion error on a control that its probe had seen and
    that was gone for the ten seconds of the assertion, never on a control
    the probe did not see. *)
Theorem admin_controls_asymmetry (w : World U) :
  let w1 := snd (isElementVisible adminPanel w) in
  let seen_panel := within (is_visible adminPanel) 1000 (page (as_found w)) in
  let seen_link := within (is_visible userManagementLink) 1000 (page (as_found w1)) in
  (fst (validateStandardUserElements w) = Thrown AssertionError
   <-> seen_panel = true \/ seen_link = true)
  /\ (fst (validateStandardUserElements w) = Returned tt
      <-> seen_panel = false /\ seen_link = false)
  /\ calls (snd (validateStandardUserElements w))
     = calls w ++ [locator_waitFor adminPanel visible 1000;
                   locator_waitFor userManagementLink visible 1000]
  /\ (seen_panel = false -> seen_link = false ->
      validateAdminElements w
      = (Returned tt, snd (isElementVisible userManagementLink w1))
      /\ calls (snd (validateAdminElements w))
         = calls w ++ [locator_waitFor adminPanel visible 1000;
                       locator_waitFor userManagementLink visible 1000])
  /\ (forall w', validateAdminElements w = (Returned tt, w') ->
        exists w2 : World U,
          (if seen_panel
           then expect_locator_toBeVisible adminPanel w1 = (Returned tt, w2)
           else w2 = w1)
          /\ calls w' =
             calls w ++
             (locator_waitFor adminPanel visible 1000
              :: (if seen_panel then [expect_toBeVisible adminPanel] else []))
             ++ (locator_waitFor userManagementLink visible 1000
                 :: (if within (is_visible userManagementLink) 1000
                               (page (as_found w2))
                     then [expect_toBeVisible userManagementLink] else [])))
  /\ (forall e w', validateAdminElements w = (Thrown e, w') ->
        e = AssertionError
        /\ exists (l : Locator) (w0 : World U),
             In l [adminPanel; userManagementLink]
             /\ isElementVisible l w0 = (Returned true, snd (isElementVisible l w0))
             /\ expect_locator_toBeVisible l (snd (isElementVisible l w0))
                = (Thrown AssertionError, w')
             /\ within (is_visible l) 10000
                       (page (as_found (snd (isElementVisible l w0)))) = false).
Proof.
  intros w1 seen_panel seen_link.
  assert (validateStandardUserElements w
          = ((if seen_panel || seen_link then Thrown AssertionError else Returned tt),
             snd (isElementVisible userManagementLink w1))) as Hstd.
  { unfold validateStandardUserElements. rewrite probe_then. fold w1 seen_panel.
    rewrite probe_then. fold seen_link.
    destruct seen_panel, seen_link; reflexivity. }
  pose proof (probe_calls adminPanel w) as Hc. fold w1 in Hc.
  pose proof (probe_run adminPanel w) as Hp. fold w1 seen_panel in Hp.
  split; [|split; [|split; [|split; [|split]]]].
  - rewrite Hstd. cbn [fst]. destruct seen_panel, seen_link; cbn; split;
      intros H; try discriminate; auto; destruct H; discriminate.
  - rewrite Hstd. cbn [fst]. destruct seen_panel, seen_link; cbn; split;
      intros H; try discriminate; auto; destruct H; discriminate.
  - rewrite Hstd. cbn [snd]. rewrite probe_calls, Hc, <- app_assoc. reflexivity.
  - intros Hno_panel Hno_link.
    assert (validateAdminElements w
            = (Returned tt, snd (isElementVisible userManagementLink w1))) as Hrun.
    { unfold validateAdminElements. rewrite probe_then. fold w1 seen_panel.
      rewrite Hno_panel. unfold ret at 1. unfold bind at 1.
      rewrite probe_then. fold seen_link. rewrite Hno_link. reflexivity. }
    split; [exact Hrun|]. rewrite Hrun. cbn [snd].
    rewrite probe_calls, Hc, <- app_assoc. reflexivity.
  - intros w'. unfold validateAdminElements. rewrite probe_then.
    fold w1 seen_panel. intros H.
    apply bind_Returned in H. destruct H as ([] & w2 & H1 & H2).
    rewrite probe_then in H2.
    destruct (soft_assert _ _ _ _ _ H1) as [(_ & Hc2 & Hw2) | (He & _)];
      [|discriminate He].
    destruct (soft_assert _ _ _ _ _ H2) as [(_ & Hc3 & _) | (He & _)];
      [|discriminate He].
    exists w2. split; [exact Hw2|].
    rewrite Hc3, probe_calls, Hc2, Hc. repeat rewrite <- app_assoc. reflexivity.
  - intros e w'. unfold validateAdminElements. rewrite probe_then.
    fold w1 seen_panel. intros H.
    apply bind_Thrown in H. destruct H as [H | ([] & w2 & H1 & H2)].
    + destruct (soft_assert _ _ _ _ _ H) as [(He & _) | (He & Hb & Hx)];
        [discriminate He|].
      inversion He; subst e. split; [reflexivity|].
      exists adminPanel, w. fold w1. rewrite Hp, Hb.
      split; [left; reflexivity|]. split; [reflexivity|]. split; [exact Hx|].
      destruct (expect_outcome _ _ _ _ Hx) as (_ & [(Hr & _) | (_ & Hgone)]);
        [discriminate Hr | exact Hgone].
    + rewrite probe_then in H2.
      destruct (soft_assert _ _ _ _ _ H2) as [(He & _) | (He & Hb & Hx)];
        [discriminate He|].
      inversion He; subst e. split; [reflexivity|].
      exists userManagementLink, w2. rewrite (probe_run userManagementLink w2), Hb.
      split; [right; left; reflexivity|]. split; [reflexivity|]. split; [exact Hx|].
      destruct (expect_outcome _ _ _ _ Hx) as (_ & [(Hr & _) | (_ & Hgone)]);
        [discriminate Hr | exact Hgone].
Qed.

(** A [clickLogout] that returns has opened the profile dropdown exactly
    when the probe did not see the logout control, and has then clicked
    the logout control. *)
Lemma clickLogout_Returned (w w1 : World U) :
  clickLogout w = (Returned tt, w1) ->
  calls w1 =
  calls w ++
  (locator_waitFor logoutButton visible 1000
   :: (if within (is_visible logoutButton) 1000 (page (as_found w)) then []
       else [locator_waitFor profileDropdown visible 10000;
             locator_click profileDropdown;
             locator_waitFor logoutButton visible 5000]))
  ++ [locator_waitFor logoutButton visible 10000; locator_click logoutButton].
Proof.
  unfold clickLogout. rewrite probe_then.
  pose proof (probe_calls logoutButton w) as Hc.
  destruct (within (is_visible logoutButton) 1000 (page (as_found w)));
    cbn [negb]; intros H.
  - apply bind_Returned in H. destruct H as ([] & wa & Ha & Hb).
    inversion Ha; subst wa.
    apply clickElement_Returned in Hb. destruct Hb as (n & _ & Hl).
    rewrite Hl, Hc, <- app_assoc. reflexivity.
  - apply bind_Returned in H. destruct H as ([] & wa & Ha & Hb).
    unfold openProfileDropdown in Ha.
    apply bind_Returned in Ha. destruct Ha as ([] & wb & Ha & Hw).
    apply clickElement_Returned in Ha. destruct Ha as (n & _ & Hla).
    unfold waitForElement, Locator_waitFor, or_default in Hw.
    change TIMEOUTS.SHORT with 5000 in Hw.
    apply poll_Returned in Hw. destruct Hw as (m & _ & _ & _ & ->).
    apply clickElement_Returned in Hb. destruct Hb as (k & _ & Hlb).
    rewrite Hlb. cbn [calls]. rewrite Hla, Hc.
    repeat rewrite <- app_assoc. reflexivity.
Qed.

(** C9. Whenever [logout] returns, the path of the location does not
    contain ["/dashboard"]: after [clickLogout] it polls for at most ten
    seconds and returns at the first moment the path is free of it, and it
    throws when there is no such moment.  This holds on both routes of
    [clickLogout], which opens the profile dropdown first exactly when the
    one-second probe has not seen the logout control, and clicks the logout
    control in either case; whether [logout] returns then depends on the
    location alone. *)
Theorem logout_leaves_dashboard (w : World U) :
  (forall w', logout w = (Returned tt, w') ->
     includes "/dashboard" (pathname (page w')) = false
     /\ exists (w1 : World U) (n : nat),
          clickLogout w = (Returned tt, w1)
          /\ Z.of_nat n <= 10000
          /\ w' = mkWorld (after_ms n (page (as_found w1)))
                    (clock (as_found w1) + Z.of_nat n)
                    (calls w1 ++
                     [page_waitForFunction (pathname_excludes "/dashboard") 10000])
          /\ forall k, (k < n)%nat ->
               includes "/dashboard" (pathname (after_ms k (page (as_found w1))))
               = true)
  /\ (forall w1, clickLogout w = (Returned tt, w1) ->
        calls w1 =
        calls w ++
        (locator_waitFor logoutButton visible 1000
         :: (if within (is_visible logoutButton) 1000 (page (as_found w)) then []
             else [locator_waitFor profileDropdown visible 10000;
                   locator_click profileDropdown;
                   locator_waitFor logoutButton visible 5000]))
        ++ [locator_waitFor logoutButton visible 10000; locator_click logoutButton])
  /\ (forall w1, clickLogout w = (Returned tt, w1) ->
        fst (logout w)
        = if within (eval (pathname_excludes "/dashboard")) 10000
                    (page (as_found w1))
          then Returned tt else Thrown TimeoutError).
Proof.
  split; [|split].
  - intros w' H. unfold logout in H.
    apply bind_Returned in H. destruct H as ([] & w1 & H1 & H2).
    unfold Page_waitForFunction in H2.
    change TIMEOUTS.MEDIUM with 10000 in H2.
    change URLs.DASHBOARD with "/dashboard" in H2.
    apply poll_Returned in H2. destruct H2 as (n & Hle & Hat & Hmin & ->).
    cbn [page eval] in *. split.
    + apply negb_true_iff in Hat. exact Hat.
    + exists w1, n. split; [exact H1|]. split; [lia|]. split; [reflexivity|].
      intros k Hk. specialize (Hmin k Hk). apply negb_false_iff in Hmin. exact Hmin.
  - apply clickLogout_Returned.
  - intros w1 H1. unfold logout. rewrite (bind_step _ _ _ _ _ H1).
    unfold Page_waitForFunction. rewrite poll_within. reflexivity.
Qed.

End DashboardFacts.

(** ** Navigation *)

Section NavigationFacts.
Context {U : Surface}.

(** C3, as the code has it. [navigateToUrl], with its default timeout of
    thirty seconds, issues one [goto] that waits for network idle only: when
    it returns, network idle has been reached, within thirty seconds of the
    navigation.  The barrier on both conditions is [waitForPageLoad], which
    [navigateToLogin] runs right after [navigateToUrl]: when it returns it
    has seen network idle and, after that, DOM content loaded, thirty
    seconds at most for each; where a load state once reached stays reached,
    both hold on the page it returns. *)
Theorem navigation_barriers (url : string) (w : World U) :
  (forall w', navigateToUrl url None w = (Returned tt, w') ->
     reached networkidle (page w') = true
     /\ exists n : nat,
          Z.of_nat n <= 30000
          /\ w' = mkWorld (after_ms n (found (on_goto url (page w))))
                    (clock w + Z.of_nat (round_trip (on_goto url (page w)))
                     + Z.of_nat n)
                    (calls w ++ [page_goto url networkidle 30000]))
  /\ (forall w', waitForPageLoad None w = (Returned tt, w') ->
        reached domcontentloaded (page w') = true
        /\ exists n m : nat,
             let w1 := mkWorld (after_ms n (page (as_found w)))
                         (clock (as_found w) + Z.of_nat n)
                         (calls w ++ [page_waitForLoadState networkidle 30000]) in
             Z.of_nat n <= 30000 /\ Z.of_nat m <= 30000
             /\ reached networkidle (page w1) = true
             /\ w' = mkWorld (after_ms m (page (as_found w1)))
                       (clock (as_found w1) + Z.of_nat m)
                       (calls w ++ [page_waitForLoadState networkidle 30000;
                                    page_waitForLoadState domcontentloaded 30000])
             /\ ((forall d : dom U,
                    reached networkidle d = true ->
                    reached networkidle (elapse d) = true) ->
                 reached networkidle (page w') = true))
  /\ (forall env baseUrl,
        @navigateToLogin U env baseUrl
        = (navigateToUrl (or_string baseUrl (URLs.BASE_URL env) ++ "/login")%string None ;;
           waitForPageLoad None ;;
           validateLoginFormIsVisible)).
Proof.
  split; [|split].
  - intros w' H. unfold navigateToUrl, or_default, Page_goto in H.
    apply poll_Returned in H. destruct H as (n & Hle & Hat & _ & ->).
    unfold as_found in *. cbn [page clock calls] in *. split; [exact Hat|].
    exists n. split; [lia | reflexivity].
  - intros w' H. base_unfold H.
    apply bind_Returned in H. destruct H as ([] & w1 & H1 & H2).
    apply poll_Returned in H1. destruct H1 as (n & Hn & Hidle & _ & ->).
    apply poll_Returned in H2. destruct H2 as (m & Hm & Hdom & _ & ->).
    split; [exact Hdom|].
    exists n, m. cbv zeta.
    split; [lia|]. split; [lia|]. split; [exact Hidle|]. split.
    + cbn [calls]. rewrite <- app_assoc. reflexivity.
    + intros Hmono. cbn [page]. unfold as_found at 1. cbn [page].
      apply (after_ms_keeps (fun d => reached networkidle d = true) Hmono).
      apply (found_keeps (fun d => reached networkidle d = true) Hmono).
      exact Hidle.
  - reflexivity.
Qed.

End NavigationFacts.

(** ** The small login application obeys the laws *)

(** What the passing of time leaves alone. *)
Lemma demo_tick_form (d : Demo.Dom) :
  Demo.remember (Demo.tick d) = Demo.remember d
  /\ Demo.email_value (Demo.tick d) = Demo.email_value d
  /\ Demo.password_value (Demo.tick d) = Demo.password_value d.
Proof.
  destruct d as [p e pw r b fl pe m a la pa]. unfold Demo.tick. cbn.
  destruct (fl <=? 0); [auto|].
  destruct (fl =? 1); [|auto].
  destruct pe; cbn; auto.
Qed.

Lemma demo_checkbox_laws : CheckboxLaws Demo.app.
Proof.
  split; intros d.
  - apply (demo_tick_form d).
  - destruct d; reflexivity.
Qed.

Lemma demo_field_laws : FieldLaws Demo.app.
Proof.
  split; intros d; try (destruct d; reflexivity); apply (demo_tick_form d).
Qed.

Lemma demo_checkbox_frame : CheckboxFrame Demo.app.
Proof.
  split; try (intros t d; destruct d; reflexivity).
  - intros d. apply (checkbox_elapse _ demo_checkbox_laws).
  - intros d. destruct d; reflexivity.
  - intros d. destruct d; reflexivity.
  - intros d. destruct d as [p e pw r b fl pe m a la pa].
    cbn. unfold Demo.click, Demo.submit, Demo.ticked. cbn.
    destruct (la <=? 0); cbn; [|reflexivity].
    unfold Demo.arrive. cbn.
    destruct (Demo.verdict _); reflexivity.
Qed.

Lemma demo_networkidle_stays (d : Demo.Dom) :
  Demo.loaded networkidle d = true -> Demo.loaded networkidle (Demo.tick d) = true.
Proof.
  destruct d as [p e pw r b fl pe m a la pa]. unfold Demo.tick. cbn.
  intros H. rewrite H. cbn. exact H.
Qed.

(** ** The theorems at work on the small application *)

Ltac by_run := vm_compute; reflexivity.

(** C1, at work: valid credentials against a server that answers after
    300 ms leave the login path; a wrong password brings up the banner,
    which reads as expected. *)
Lemma attemptLogin_contract_witness :
  (attemptLogin Demo.STANDARD_USER (Some true) (Demo.login_page 300)
   = (Returned tt,
      snd (attemptLogin Demo.STANDARD_USER (Some true) (Demo.login_page 300)))
   /\ includes "/login"
        (pathname
           (page (snd (attemptLogin Demo.STANDARD_USER (Some true)
                         (Demo.login_page 300))))) = false)
  /\ (attemptLogin Demo.WRONG_PASSWORD (Some false) (Demo.login_page 300)
      = (Returned tt,
         snd (attemptLogin Demo.WRONG_PASSWORD (Some false) (Demo.login_page 300)))
      /\ includes "Invalid email or password"
           (or_string
              (text_content errorMessage
                 (page (snd (attemptLogin Demo.WRONG_PASSWORD (Some false)
                               (Demo.login_page 300))))) "") = true).
Proof.
  assert (attemptLogin Demo.STANDARD_USER (Some true) (Demo.login_page 300)
          = (Returned tt,
             snd (attemptLogin Demo.STANDARD_USER (Some true) (Demo.login_page 300))))
    as Hs by by_run.
  assert (attemptLogin Demo.WRONG_PASSWORD (Some false) (Demo.login_page 300)
          = (Returned tt,
             snd (attemptLogin Demo.WRONG_PASSWORD (Some false) (Demo.login_page 300))))
    as Hf by by_run.
  destruct (attemptLogin_contract Demo.STANDARD_USER (Demo.login_page 300))
    as (_ & Hsucc & _).
  destruct (attemptLogin_contract Demo.WRONG_PASSWORD (Demo.login_page 300))
    as (_ & _ & Hfail & _).
  destruct (Hsucc _ Hs) as (w1 & w2 & n & _ & _ & _ & _ & _ & Hout).
  destruct (Hfail _ Hf) as (w3 & _ & _ & _ & _ & t & Ht & Hinc).
  split; split; try assumption.
  rewrite Ht. destruct t; [discriminate Hinc | exact Hinc].
Defined.

(** C3, refuted as stated: on a document that is still being parsed while
    the network is already idle, [navigateToUrl] returns with DOM content
    not loaded. *)
Lemma navigateToUrl_returns_before_document_loaded :
  fst (navigateToUrl "https://example.com/login" None Scenario.slow_document)
  = Returned tt
  /\ reached networkidle
       (page (snd (navigateToUrl "https://example.com/login" None
                     Scenario.slow_document))) = true
  /\ reached domcontentloaded
       (page (snd (navigateToUrl "https://example.com/login" None
                     Scenario.slow_document))) = false.
Proof. repeat split; by_run. Qed.

(** C3, as the code has it, at work on the same document: after
    [navigateToUrl] the network is idle, and after [waitForPageLoad] both
    conditions hold. *)
Lemma navigation_barriers_witness :
  reached networkidle
    (page (snd (navigateToUrl "https://example.com/login" None
                  Scenario.slow_document))) = true
  /\ reached domcontentloaded
       (page (snd (waitForPageLoad None
                     (snd (navigateToUrl "https://example.com/login" None
                             Scenario.slow_document))))) = true
  /\ reached networkidle
       (page (snd (waitForPageLoad None
                     (snd (navigateToUrl "https://example.com/login" None
                             Scenario.slow_document))))) = true.
Proof.
  assert (navigateToUrl "https://example.com/login" None Scenario.slow_document
          = (Returned tt,
             snd (navigateToUrl "https://example.com/login" None
                    Scenario.slow_document))) as Hnav by by_run.
  assert (waitForPageLoad None
            (snd (navigateToUrl "https://example.com/login" None
                    Scenario.slow_document))
          = (Returned tt,
             snd (waitForPageLoad None
                    (snd (navigateToUrl "https://example.com/login" None
                            Scenario.slow_document))))) as Hload by by_run.
  destruct (navigation_barriers "https://example.com/login" Scenario.slow_document)
    as (Hgoto & _ & _).
  destruct (navigation_barriers "https://example.com/login"
              (snd (navigateToUrl "https://example.com/login" None
                      Scenario.slow_document)))
    as (_ & Hbarrier & _).
  destruct (Hgoto _ Hnav) as (Hidle & _).
  destruct (Hbarrier _ Hload) as (Hdom & n & m & _ & _ & _ & _ & Hboth).
  split; [exact Hidle|]. split; [exact Hdom|].
  apply Hboth. exact demo_networkidle_stays.
Defined.


(** C6, at work: clearing the filled-in form twice. *)
Lemma clearForm_idempotent_witness :
  CheckboxLaws Demo.app /\ FieldLaws Demo.app
  /\ form (page Scenario.filled) = ("test@example.com", "ValidPassword123!", true)
  /\ clearForm Scenario.filled = (Returned tt, snd (clearForm Scenario.filled))
  /\ clearForm (snd (clearForm Scenario.filled))
     = (Returned tt, snd (clearForm (snd (clearForm Scenario.filled))))
  /\ form (page (snd (clearForm Scenario.filled))) = ("", "", false)
  /\ form (page (snd (clearForm (snd (clearForm Scenario.filled)))))
     = form (page (snd (clearForm Scenario.filled))).
Proof.
  assert (clearForm Scenario.filled = (Returned tt, snd (clearForm Scenario.filled)))
    as H1 by by_run.
  assert (clearForm (snd (clearForm Scenario.filled))
          = (Returned tt, snd (clearForm (snd (clearForm Scenario.filled)))))
    as H2 by by_run.
  destruct (clearForm_idempotent demo_checkbox_laws demo_field_laws _ _ _ H1 H2)
    as (Hclear & Hsame & _).
  split; [exact demo_checkbox_laws|]. split; [exact demo_field_laws|].
  split; [by_run|]. split; [exact H1|]. split; [exact H2|]. split; assumption.
Defined.

(** C7, at work: credentials that do not ask for remember-me, on the
    filled-in form whose box is checked.  [login] returns; its calls are the
    two fills and the submit, in this order, none on the checkbox; and the
    box stays checked. *)
Lemma login_sequence_witness :
  truthy (rememberMe Demo.STANDARD_USER) = false
  /\ CheckboxFrame Demo.app
  /\ login Demo.STANDARD_USER Scenario.filled
     = (Returned tt, snd (login Demo.STANDARD_USER Scenario.filled))
  /\ calls (snd (login Demo.STANDARD_USER Scenario.filled))
     = calls Scenario.filled
       ++ [locator_waitFor emailInput visible 10000;
           locator_clear emailInput;
           locator_fill emailInput "test@example.com";
           locator_waitFor passwordInput visible 10000;
           locator_clear passwordInput;
           locator_fill passwordInput "ValidPassword123!";
           locator_waitFor loginButton visible 10000;
           locator_click loginButton]
  /\ is_checked rememberMeCheckbox (page Scenario.filled) = true
  /\ is_checked rememberMeCheckbox
       (page (snd (login Demo.STANDARD_USER Scenario.filled))) = true.
Proof.
  destruct (login_sequence Demo.STANDARD_USER Scenario.filled)
    as (Hreturns & _ & _ & Hquiet).
  assert (login Demo.STANDARD_USER Scenario.filled
          = (Returned tt, snd (login Demo.STANDARD_USER Scenario.filled)))
    as Hrun by by_run.
  destruct (proj1 (Hreturns _) Hrun)
    as (w1 & w2 & w3 & _ & _ & Hskip & _ & Hl1 & Hl2 & Hl3).
  change (w3 = w2) in Hskip. subst w3.
  destruct (Hquiet eq_refl _ _ Hrun) as (_ & Hstate).
  split; [reflexivity|]. split; [exact demo_checkbox_frame|].
  split; [exact Hrun|]. split; [|split; [by_run|]].
  - rewrite Hl3, Hl2, Hl1. repeat rewrite <- app_assoc. reflexivity.
  - rewrite (Hstate demo_checkbox_frame). by_run.
Defined.

(** C8, at work: nothing was submitted, no spinner shows, and the wait
    returns five seconds after it has reached the page. *)
Lemma waitForLoadingToComplete_absent_spinner_witness :
  within (is_visible loadingSpinner) TIMEOUTS.SHORT
         (page (as_found (Demo.login_page 0))) = false
  /\ fst (waitForLoadingToComplete (Demo.login_page 0)) = Returned tt
  /\ clock (snd (waitForLoadingToComplete (Demo.login_page 0))) = 5001.
Proof.
  assert (within (is_visible loadingSpinner) TIMEOUTS.SHORT
                 (page (as_found (Demo.login_page 0)))
          = false) as Habsent by by_run.
  destruct (waitForLoadingToComplete_absent_spinner (Demo.login_page 0) Habsent)
    as (_ & Hrun).
  split; [exact Habsent|]. rewrite Hrun. split; reflexivity.
Defined.

(** C9, at work: signing out with the profile dropdown closed, and with it
    open. *)
Lemma logout_leaves_dashboard_witness :
  (logout (Demo.dashboard false false)
   = (Returned tt, snd (logout (Demo.dashboard false false)))
   /\ within (is_visible logoutButton) 1000
             (page (as_found (Demo.dashboard false false))) = false
   /\ includes "/dashboard"
        (pathname (page (snd (logout (Demo.dashboard false false))))) = false)
  /\ (logout (Demo.dashboard false true)
      = (Returned tt, snd (logout (Demo.dashboard false true)))
      /\ within (is_visible logoutButton) 1000
                (page (as_found (Demo.dashboard false true))) = true
      /\ includes "/dashboard"
           (pathname (page (snd (logout (Demo.dashboard false true))))) = false).
Proof.
  assert (logout (Demo.dashboard false false)
          = (Returned tt, snd (logout (Demo.dashboard false false)))) as Hclosed
    by by_run.
  assert (logout (Demo.dashboard false true)
          = (Returned tt, snd (logout (Demo.dashboard false true)))) as Hopen
    by by_run.
  destruct (logout_leaves_dashboard (Demo.dashboard false false)) as (H1 & _).
  destruct (logout_leaves_dashboard (Demo.dashboard false true)) as (H2 & _).
  destruct (H1 _ Hclosed) as (Hout1 & _).
  destruct (H2 _ Hopen) as (Hout2 & _).
  split; (split; [assumption|]); (split; [by_run | assumption]).
Defined.

(** C10, at work: the spinner of a request that takes twenty seconds is
    up when the wait reaches the page and still up ten seconds later; the
    wait returns all the same. *)
Lemma waitForLoadingToComplete_never_throws_witness :
  let w := Scenario.submitted_slow in
  let w1 := mkWorld (page (as_found w)) (clock (as_found w) + Z.of_nat 0)
              (calls w ++ [locator_waitFor loadingSpinner visible 5000]) in
  settle (is_visible loadingSpinner) (Z.to_nat TIMEOUTS.SHORT) (page (as_found w))
  = Some (O, page (as_found w))
  /\ within (in_state hidden loadingSpinner) TIMEOUTS.MEDIUM (page (as_found w1))
     = false
  /\ fst (waitForLoadingToComplete w) = Returned tt
  /\ clock (snd (waitForLoadingToComplete w)) = clock w + 10002.
Proof.
  intros w w1.
  assert (settle (is_visible loadingSpinner) (Z.to_nat TIMEOUTS.SHORT)
                 (page (as_found w))
          = Some (O, page (as_found w))) as Hshow by by_run.
  assert (within (in_state hidden loadingSpinner) TIMEOUTS.MEDIUM
                 (page (as_found w1)) = false) as Hstay by by_run.
  destruct (waitForLoadingToComplete_never_throws w) as (_ & Hstuck).
  destruct (Hstuck _ _ Hshow Hstay) as (_ & _ & Hrun).
  split; [exact Hshow|]. split; [exact Hstay|]. rewrite Hrun.
  split; [reflexivity|]. by_run.
Defined.

(** C2, at work: the dashboard of an admin fails the standard-user
    check, the dashboard of a standard user passes it, and the admin check
    returns on a dashboard that shows no admin control at all, after its two
    probes and nothing else. *)
Lemma admin_controls_asymmetry_witness :
  fst (validateStandardUserElements (Demo.dashboard true false))
  = Thrown AssertionError
  /\ fst (validateStandardUserElements (Demo.dashboard false false)) = Returned tt
  /\ fst (validateAdminElements (Demo.dashboard false false)) = Returned tt
  /\ calls (snd (validateAdminElements (Demo.dashboard false false)))
     = [locator_waitFor adminPanel visible 1000;
        locator_waitFor userManagementLink visible 1000].
Proof.
  destruct (admin_controls_asymmetry (Demo.dashboard true false))
    as (Hfail & _).
  destruct (admin_controls_asymmetry (Demo.dashboard false false))
    as (_ & Hpass & _ & Habsent & _).
  destruct Habsent as (Hadmin & Hlog); [by_run | by_run |].
  split; [|split; [|split]].
  - apply Hfail. left. by_run.
  - apply Hpass. split; by_run.
  - rewrite Hadmin. reflexivity.
  - exact Hlog.
Defined.

(** C4, at work: no banner on a fresh login page; the probe says so one
    second later. *)
Lemma isElementVisible_never_throws_witness :
  fst (Locator_waitFor errorMessage visible 1000 (Demo.login_page 0))
  = Thrown TimeoutError
  /\ fst (isElementVisible errorMessage (Demo.login_page 0)) = Returned false.
Proof.
  assert (fst (Locator_waitFor errorMessage visible 1000 (Demo.login_page 0))
          = Thrown TimeoutError) as Hwait by by_run.
  destruct (isElementVisible_never_throws errorMessage (Demo.login_page 0))
    as (b & n & Hrun & _ & _ & Hfalse & _).
  split; [exact Hwait|].
  rewrite Hrun. cbn [fst]. f_equal. apply Hfalse. exact Hwait.
Defined.

(** ** The remaining methods of the page objects *)

Section WaitingFacts.
Context {U : Surface}.

(** A wait for visibility followed by the retrying assertion of
    visibility: the assertion is a call of its own, issued where the wait
    ended. *)
Lemma wait_then_expect_cases (l : Locator) (t : Z) (w : World U) :
  (waitForElement l (Some t) ;; expect_locator_toBeVisible l) w
  = match settle (is_visible l) (Z.to_nat t) (page (as_found w)) with
    | Some (n, d) =>
        expect_locator_toBeVisible l
          (mkWorld d (clock (as_found w) + Z.of_nat n)
                   (calls w ++ [locator_waitFor l visible t]))
    | None =>
        (Thrown TimeoutError,
         mkWorld (after_ms (Z.to_nat t) (page (as_found w)))
                 (clock (as_found w) + Z.of_nat (Z.to_nat t))
                 (calls w ++ [locator_waitFor l visible t]))
    end.
Proof.
  unfold bind, waitForElement, Locator_waitFor, or_default.
  rewrite poll_cases.
  change (in_state visible l) with (@is_visible U l).
  destruct (settle (is_visible l) (Z.to_nat t) (page (as_found w))) as [[n d]|];
    reflexivity.
Qed.

(** The pair, whatever its outcome. *)
Lemma wait_then_expect_outcome (l : Locator) (t : Z) (w : World U) r w' :
  (waitForElement l (Some t) ;; expect_locator_toBeVisible l) w = (r, w') ->
  (r = Thrown TimeoutError
   /\ within (is_visible l) t (page (as_found w)) = false
   /\ calls w' = calls w ++ [locator_waitFor l visible t])
  \/ (exists w1 : World U,
        waitForElement l (Some t) w = (Returned tt, w1)
        /\ within (is_visible l) t (page (as_found w)) = true
        /\ calls w' = calls w ++ [locator_waitFor l visible t; expect_toBeVisible l]
        /\ ((r = Returned tt /\ is_visible l (page w') = true
             /\ within (is_visible l) 10000 (page (as_found w1)) = true)
            \/ (r = Thrown AssertionError
                /\ within (is_visible l) 10000 (page (as_found w1)) = false))).
Proof.
  unfold bind.
  destruct (waitForElement l (Some t) w) as [[[]|e] w1] eqn:E; intros H.
  - right. exists w1. split; [reflexivity|].
    destruct (waitForElement_outcome _ _ _ _ _ E) as (Hc1 & [(_ & _ & Hw) | (Hr & _)]);
      [|discriminate Hr].
    split; [exact Hw|].
    destruct (expect_outcome _ _ _ _ H) as (Hc2 & Hr).
    split; [rewrite Hc2, Hc1, <- app_assoc; reflexivity | exact Hr].
  - left. apply pair_equal_spec in H. destruct H as [<- <-].
    destruct (waitForElement_outcome _ _ _ _ _ E) as (Hc1 & [(Hr & _) | (Hr & Hw)]);
      [discriminate Hr|].
    auto.
Qed.

(** On a page that keeps the element once it shows, the assertion that
    follows the wait finds it. *)
Lemma expect_after_wait (l : Locator) (t : Z) (w w1 : World U) :
  stays (is_visible l) (page (as_found w)) ->
  waitForElement l (Some t) w = (Returned tt, w1) ->
  is_visible l (page w1) = true
  /\ stays (is_visible l) (page w1)
  /\ within (is_visible l) 10000 (page (as_found w1)) = true.
Proof.
  intros Hs H. unfold waitForElement, Locator_waitFor, or_default in H.
  apply poll_Returned in H. destruct H as (n & _ & Hat & _ & ->).
  cbn [page] in *. change (in_state visible l) with (@is_visible U l) in Hat.
  assert (stays (is_visible l) (after_ms n (page (as_found w)))) as Hs1
    by (apply stays_later; exact Hs).
  split; [exact Hat|]. split; [exact Hs1|].
  apply within_at_once. unfold as_found. cbn [page].
  apply stays_seen; assumption.
Qed.

Lemma wait_then_expect_stays (l : Locator) (t : Z) (w : World U) :
  stays (is_visible l) (page (as_found w)) ->
  fst ((waitForElement l (Some t) ;; expect_locator_toBeVisible l) w)
  = if within (is_visible l) t (page (as_found w))
    then Returned tt else Thrown TimeoutError.
Proof.
  intros Hs.
  destruct ((waitForElement l (Some t) ;; expect_locator_toBeVisible l) w)
    as [r w'] eqn:E.
  destruct (wait_then_expect_outcome _ _ _ _ _ E)
    as [(-> & -> & _) | (w1 & H1 & -> & _ & [(-> & _) | (_ & Hgone)])];
    try reflexivity.
  destruct (expect_after_wait l t w w1 Hs H1) as (_ & _ & Hseen). congruence.
Qed.

(** Reading the text of an element, whatever the outcome: the read is a
    call of its own, one round trip after the wait. *)
Lemma getElementText_outcome (l : Locator) (w : World U) r w' :
  getElementText l w = (r, w') ->
  (r = Thrown TimeoutError
   /\ within (is_visible l) 10000 (page (as_found w)) = false
   /\ calls w' = calls w ++ [locator_waitFor l visible 10000])
  \/ (exists w1 : World U,
        waitForElement l None w = (Returned tt, w1)
        /\ r = Returned (or_string (text_content l (page w')) "")
        /\ page w' = found (page w1)
        /\ calls w' = calls w ++ [locator_waitFor l visible 10000;
                                  locator_textContent l]).
Proof.
  unfold getElementText, bind.
  destruct (waitForElement l None w) as [[[]|e] w1] eqn:E; intros H.
  - right. exists w1. split; [reflexivity|].
    unfold Locator_textContent, record, ret in H. cbv zeta in H.
    apply pair_equal_spec in H. destruct H as [<- <-].
    destruct (waitForElement_outcome l 10000 _ _ _ E) as (Hc & _).
    unfold as_found. cbn [page calls]. rewrite Hc, <- app_assoc.
    repeat split; reflexivity.
  - left. apply pair_equal_spec in H. destruct H as [<- <-].
    destruct (waitForElement_outcome l 10000 _ _ _ E)
      as (Hc & [(Hr & _) | (Hr & Hw)]); [discriminate Hr|].
    inversion Hr; subst e. repeat split; assumption.
Qed.

Lemma getElementText_stays (l : Locator) (w : World U) :
  stays (is_visible l) (page w) -> is_visible l (page w) = true ->
  exists s w', getElementText l w = (Returned s, w').
Proof.
  intros Hs Hv.
  destruct (getElementText l w) as [r w'] eqn:E.
  destruct (getElementText_outcome _ _ _ _ E)
    as [(_ & Hgone & _) | (w1 & _ & -> & _)].
  - assert (within (is_visible l) 10000 (page (as_found w)) = true) as Hseen.
    { apply within_at_once. unfold as_found. cbn [page]. apply stays_seen; assumption. }
    congruence.
  - eexists. eexists. reflexivity.
Qed.

End WaitingFacts.

Section SoftChecksFacts.
Context {U : Surface}.

(** X1. [isUserLoggedIn] never throws.  It answers [true] exactly when
    [validateDashboardIsLoaded] returns, that is when the dashboard header
    is seen by the wait and again by the assertion that follows, and the
    header is then on the page it hands back; it answers [false] when the
    header does not show within the ten seconds of the wait, and also when
    the header, once seen, is gone for the ten seconds of the assertion.  On
    a page that keeps the header once it shows, the answer is whether the
    header shows within the ten seconds of the wait. *)
Theorem isUserLoggedIn_never_throws (w : World U) :
  exists (b : bool) (w' : World U),
    isUserLoggedIn w = (Returned b, w')
    /\ (b = true <-> fst (validateDashboardIsLoaded w) = Returned tt)
    /\ (b = true ->
        is_visible dashboardHeader (page w') = true
        /\ calls w' = calls w ++ [locator_waitFor dashboardHeader visible 10000;
                                  expect_toBeVisible dashboardHeader])
    /\ (within (is_visible dashboardHeader) 10000 (page (as_found w)) = false ->
        b = false
        /\ calls w' = calls w ++ [locator_waitFor dashboardHeader visible 10000])
    /\ (forall w1 : World U,
          waitForElement dashboardHeader (Some 10000) w = (Returned tt, w1) ->
          b = within (is_visible dashboardHeader) 10000 (page (as_found w1)))
    /\ (stays (is_visible dashboardHeader) (page (as_found w)) ->
        b = within (is_visible dashboardHeader) 10000 (page (as_found w))).
Proof.
  pose proof (wait_then_expect_stays dashboardHeader 10000 w) as Hstays.
  unfold isUserLoggedIn, try_catch, bind at 1.
  unfold validateDashboardIsLoaded in *. change TIMEOUTS.MEDIUM with 10000.
  destruct ((waitForElement dashboardHeader (Some 10000) ;;
             expect_locator_toBeVisible dashboardHeader) w) as [r w'] eqn:E.
  destruct (wait_then_expect_outcome _ _ _ _ _ E)
    as [(-> & Hw & Hc) | (w1 & H1 & Hw & Hc & [(-> & Hv & _) | (-> & Hgone)])].
  - exists false, w'. unfold ret. cbn [fst] in *.
    split; [reflexivity|]. split; [split; discriminate|].
    split; [discriminate|]. split; [auto|]. split.
    + intros w1 H1. unfold bind in E. rewrite H1 in E.
      destruct (waitForElement_outcome _ _ _ _ _ H1) as (_ & [(_ & _ & Hs) | (Hr & _)]);
        [congruence | discriminate Hr].
    + intros Hs. rewrite Hw. reflexivity.
  - exists true, w'. unfold ret. cbn [fst] in *.
    split; [reflexivity|]. split; [split; reflexivity|].
    split; [auto|]. split; [congruence|]. split.
    + intros w0 H0. rewrite H1 in H0. inversion H0; subst w0.
      unfold bind in E. rewrite H1 in E.
      pose proof (expect_fst dashboardHeader w1) as Hx. rewrite E in Hx.
      cbn [fst] in Hx.
      destruct (within (is_visible dashboardHeader) 10000 (page (as_found w1)));
        [reflexivity | discriminate Hx].
    + intros Hs. rewrite Hw. reflexivity.
  - exists false, w'. unfold ret. cbn [fst] in *.
    split; [reflexivity|]. split; [split; discriminate|].
    split; [discriminate|]. split; [congruence|]. split.
    + intros w0 H0. rewrite H1 in H0. inversion H0; subst w0.
      rewrite Hgone. reflexivity.
    + intros Hs. specialize (Hstays Hs). rewrite Hw in Hstays.
      discriminate Hstays.
Qed.

(** X2. [validateNoErrorMessage] fails, with an assertion error, exactly
    when the error banner shows within the one-second probe; it never times
    out. *)
Theorem validateNoErrorMessage_outcome (w : World U) :
  validateNoErrorMessage w
  = ((if within (is_visible errorMessage) 1000 (page (as_found w))
      then Thrown AssertionError else Returned tt),
     snd (isElementVisible errorMessage w))
  /\ calls (snd (isElementVisible errorMessage w))
     = calls w ++ [locator_waitFor errorMessage visible 1000].
Proof.
  split; [|apply probe_calls].
  unfold validateNoErrorMessage. rewrite probe_then.
  destruct (within (is_visible errorMessage) 1000 (page (as_found w))); reflexivity.
Qed.

(** X3. [togglePasswordVisibility] clicks the show-password toggle only
    when the one-second probe has seen it.  When the probe has not, the
    operation returns without a click, the probe being its only call; when
    it has and the operation returns, the toggle has been clicked once. *)
Theorem togglePasswordVisibility_absent_toggle (w : World U) :
  (within (is_visible showPasswordToggle) 1000 (page (as_found w)) = false ->
   togglePasswordVisibility w
   = (Returned tt,
      mkWorld (after_ms (Z.to_nat 1000) (page (as_found w)))
              (clock (as_found w) + 1000)
              (calls w ++ [locator_waitFor showPasswordToggle visible 1000])))
  /\ (forall w', togglePasswordVisibility w = (Returned tt, w') ->
        calls w' =
        calls w ++
        locator_waitFor showPasswordToggle visible 1000
        :: (if within (is_visible showPasswordToggle) 1000 (page (as_found w))
            then [locator_waitFor showPasswordToggle visible 10000;
                  locator_click showPasswordToggle]
            else [])).
Proof.
  split.
  - intros Habsent. unfold togglePasswordVisibility. rewrite probe_then, Habsent.
    unfold isElementVisible, try_catch, bind, Locator_waitFor, ret.
    rewrite poll_cases.
    change (in_state visible showPasswordToggle)
      with (@is_visible U showPasswordToggle).
    unfold within in Habsent.
    destruct (settle (is_visible showPasswordToggle) (Z.to_nat 1000)
                     (page (as_found w)))
      as [[n d]|]; [discriminate|].
    cbn [snd]. rewrite Z2Nat.id by lia. reflexivity.
  - intros w'. unfold togglePasswordVisibility. rewrite probe_then.
    pose proof (probe_calls showPasswordToggle w) as Hc.
    destruct (within (is_visible showPasswordToggle) 1000 (page (as_found w)));
      intros H.
    + apply clickElement_Returned in H. destruct H as (n & _ & Hl).
      rewrite Hl, Hc, <- app_assoc. reflexivity.
    + inversion H; subst w'. exact Hc.
Qed.

(** X4. [getDisplayedUserName] and [getDisplayedUserEmail] answer the empty
    string, without reading anything, when the display element does not
    show within the one-second probe.  When the probe has seen it they read
    its text with [getElementText], unguarded: a call that returns answers
    the text the element holds when it is read (the empty string if it holds
    none); a call can throw, only a timeout and only after the probe has
    seen the element, and it does when the element is gone for the ten
    seconds that follow the probe.  On a page that keeps the element once it
    shows, they do not throw. *)
Theorem getDisplayed_outcome (get : Async U string) (l : Locator) :
  In (get, l) [(getDisplayedUserName, userNameDisplay);
               (getDisplayedUserEmail, userEmailDisplay)] ->
  forall w : World U,
    let seen := within (is_visible l) 1000 (page (as_found w)) in
    let w1 := snd (isElementVisible l w) in
    (seen = false -> get w = (Returned "", w1))
    /\ (seen = true -> get w = getElementText l w1)
    /\ (forall s w', get w = (Returned s, w') -> seen = true ->
          s = or_string (text_content l (page w')) ""
          /\ calls w' = calls w ++ [locator_waitFor l visible 1000;
                                    locator_waitFor l visible 10000;
                                    locator_textContent l])
    /\ (forall e w', get w = (Thrown e, w') ->
          e = TimeoutError /\ seen = true)
    /\ (within (is_visible l) 10000 (page (as_found w1)) = false ->
        seen = true -> fst (get w) = Thrown TimeoutError)
    /\ (stays (is_visible l) (page (as_found w)) ->
        exists s w', get w = (Returned s, w')).
Proof.
  intros Hin w seen w1.
  assert (get w = if seen then getElementText l w1 else (Returned "", w1)) as Hget.
  { destruct Hin as [H | [H | []]]; inversion H; subst get l;
      [unfold getDisplayedUserName | unfold getDisplayedUserEmail];
      rewrite probe_then; fold seen w1; destruct seen; reflexivity. }
  pose proof (probe_calls l w) as Hc. fold w1 in Hc.
  split; [|split; [|split; [|split; [|split]]]].
  - intros Hs. rewrite Hget, Hs. reflexivity.
  - intros Hs. rewrite Hget, Hs. reflexivity.
  - intros s w' H Hs. rewrite Hget, Hs in H.
    destruct (getElementText_outcome _ _ _ _ H)
      as [(Hr & _) | (w2 & _ & Hr & _ & Hl)]; [discriminate Hr|].
    inversion Hr. split; [reflexivity|]. rewrite Hl, Hc, <- app_assoc. reflexivity.
  - intros e w' H. rewrite Hget in H. destruct seen eqn:Hs; [|discriminate H].
    destruct (getElementText_outcome _ _ _ _ H)
      as [(Hr & Hgone & _) | (w2 & _ & Hr & _)]; [|discriminate Hr].
    inversion Hr. auto.
  - intros Hgone Hs. rewrite Hget, Hs.
    destruct (getElementText l w1) as [r w'] eqn:E.
    destruct (getElementText_outcome _ _ _ _ E)
      as [(Hr & _) | (w2 & H2 & _)]; [rewrite Hr; reflexivity|].
    destruct (waitForElement_outcome l 10000 _ _ _ H2)
      as (_ & [(_ & _ & Hseen) | (Hr & _)]); [congruence | discriminate Hr].
  - intros Hstays. rewrite Hget. destruct seen eqn:Hs.
    + apply getElementText_stays.
      * destruct (probe_spec l w) as (n & Hrun & _). unfold w1. rewrite Hrun.
        cbn [snd page]. apply stays_later. exact Hstays.
      * unfold w1. rewrite probe_seen. exact Hs.
    + eexists. eexists. reflexivity.
Qed.

(** X20. the validators that wait for an element and then assert it
    ([validateLoadingSpinner], five seconds; [validateDashboardIsLoaded],
    ten seconds).  They time out exactly when the element does not show
    within the wait.  The assertion that follows is a call of its own: when
    the wait has seen the element, the validator passes if the element shows
    within the ten seconds of the assertion and fails with an assertion
    error if it is gone throughout.  When they return, the element is on the
    page.  On a page that keeps the element once it shows, they fail only by
    the timeout of the wait. *)
Theorem wait_then_assert_validators (check : Async U unit) (l : Locator) (t : Z) :
  In (check, l, t) [(validateLoadingSpinner, loadingSpinner, 5000);
                    (validateDashboardIsLoaded, dashboardHeader, 10000)] ->
  forall w : World U,
    (fst (check w) = Thrown TimeoutError
     <-> within (is_visible l) t (page (as_found w)) = false)
    /\ (forall w1 : World U,
          waitForElement l (Some t) w = (Returned tt, w1) ->
          fst (check w)
          = if within (is_visible l) 10000 (page (as_found w1))
            then Returned tt else Thrown AssertionError)
    /\ (forall w', check w = (Returned tt, w') ->
          is_visible l (page w') = true
          /\ calls w' = calls w ++ [locator_waitFor l visible t;
                                    expect_toBeVisible l])
    /\ (stays (is_visible l) (page (as_found w)) ->
        fst (check w)
        = if within (is_visible l) t (page (as_found w))
          then Returned tt else Thrown TimeoutError).
Proof.
  intros Hin w.
  assert (check = (waitForElement l (Some t) ;; expect_locator_toBeVisible l))
    as ->.
  { destruct Hin as [H | [H | []]]; inversion H; reflexivity. }
  destruct ((waitForElement l (Some t) ;; expect_locator_toBeVisible l) w)
    as [r w'] eqn:E.
  pose proof (wait_then_expect_stays l t w) as Hstays. rewrite E in Hstays.
  cbn [fst] in *.
  destruct (wait_then_expect_outcome _ _ _ _ _ E)
    as [(-> & Hw & Hc) | (w1 & H1 & Hw & Hc & Hr)].
  - split; [split; auto|]. split; [|split; [|exact Hstays]].
    + intros w1 H1. unfold bind in E. rewrite H1 in E.
      destruct (waitForElement_outcome _ _ _ _ _ H1) as (_ & [(_ & _ & Hs) | (Hx & _)]);
        [congruence | discriminate Hx].
    + intros w0 H0. discriminate H0.
  - split; [|split; [|split; [|exact Hstays]]].
    + rewrite Hw. split; [|discriminate].
      destruct Hr as [(-> & _) | (-> & _)]; discriminate.
    + intros w0 H0. rewrite H1 in H0. inversion H0; subst w0.
      unfold bind in E. rewrite H1 in E.
      rewrite <- (expect_fst l w1), E. reflexivity.
    + intros w0 H0. apply pair_equal_spec in H0. destruct H0 as [-> <-].
      destruct Hr as [(_ & Hv & _) | (Hx & _)]; [auto | discriminate Hx].
Qed.

End SoftChecksFacts.

Section OutcomeFacts.
Context {U : Surface}.

(** On a page that keeps the element once it shows, what an assertion has
    seen the next call finds. *)
Lemma expect_then_seen (l : Locator) (w w1 : World U) :
  stays (is_visible l) (page (as_found w)) ->
  expect_locator_toBeVisible l w = (Returned tt, w1) ->
  is_visible l (page w1) = true
  /\ stays (is_visible l) (page w1)
  /\ within (is_visible l) 10000 (page (as_found w1)) = true.
Proof.
  intros Hs H. unfold expect_locator_toBeVisible in H.
  apply poll_Returned in H. destruct H as (n & _ & Hat & _ & ->).
  cbn [page] in *.
  assert (stays (is_visible l) (after_ms n (page (as_found w)))) as Hs1
    by (apply stays_later; exact Hs).
  split; [exact Hat|]. split; [exact Hs1|].
  apply within_at_once. unfold as_found. cbn [page].
  apply stays_seen; assumption.
Qed.

(** Asserting that an element shows and that its text contains
    [expected], whatever the outcome: three calls, the assertion, the wait
    of [getElementText] and the read. *)
Lemma expect_text_outcome (l : Locator) (expected : string) (w : World U) r w' :
  (expect_locator_toBeVisible l ;;
   actual <- getElementText l ;;
   expect_toContain actual expected) w = (r, w') ->
  (r = Thrown AssertionError
   /\ within (is_visible l) 10000 (page (as_found w)) = false)
  \/ exists w1 : World U,
       expect_locator_toBeVisible l w = (Returned tt, w1)
       /\ ((r = Thrown TimeoutError
            /\ within (is_visible l) 10000 (page (as_found w1)) = false)
           \/ (calls w' = calls w ++ [expect_toBeVisible l;
                                     locator_waitFor l visible 10000;
                                     locator_textContent l]
               /\ r = if includes expected (or_string (text_content l (page w')) "")
                      then Returned tt else Thrown AssertionError)).
Proof.
  unfold bind at 1.
  destruct (expect_locator_toBeVisible l w) as [[[]|e] w1] eqn:E1; intros H.
  - right. exists w1. split; [reflexivity|].
    destruct (expect_outcome _ _ _ _ E1) as (Hc1 & _).
    unfold bind in H.
    destruct (getElementText l w1) as [[s|e] w2] eqn:E2.
    + destruct (getElementText_outcome _ _ _ _ E2)
        as [(Hr & _) | (w3 & _ & Hr & _ & Hc2)]; [discriminate Hr|].
      inversion Hr as [Hs]. right.
      unfold expect_toContain in H.
      destruct (includes expected s) eqn:Hinc;
        apply pair_equal_spec in H; destruct H as [<- <-];
        (split; [rewrite Hc2, Hc1, <- app_assoc; reflexivity
                | rewrite <- Hs, Hinc; reflexivity]).
    + destruct (getElementText_outcome _ _ _ _ E2)
        as [(Hr & Hgone & _) | (w3 & _ & Hr & _)]; [|discriminate Hr].
      apply pair_equal_spec in H. destruct H as [<- <-].
      inversion Hr; subst e. left. auto.
  - left. apply pair_equal_spec in H. destruct H as [<- <-].
    destruct (expect_outcome _ _ _ _ E1) as (_ & [(Hr & _) | (Hr & Hgone)]);
      [discriminate Hr|].
    inversion Hr; subst e. auto.
Qed.

(** X5. the two field-validation checks.  Called with no expected message,
    or with the empty string (which is falsy), the check asserts that the
    hint is absent: it fails, with an assertion error, exactly when the hint
    shows within the one-second probe.  Called with a message, it asserts
    the hint, then waits for it again and reads its text, three calls: it
    fails with an assertion error when the hint does not show within the ten
    seconds of the assertion; a call that returns has read a text that
    contains the message; any failure is an assertion error, or a timeout
    after the assertion has passed, which the second wait throws when the
    hint, once asserted, is gone for ten seconds.  On a page that keeps the
    hint once it shows, it fails only with an assertion error. *)
Theorem field_validation_outcome
        (check : option string -> Async U unit) (hint : Locator) :
  In (check, hint)
     [(validateEmailValidation, emailValidation);
      (validatePasswordValidation, passwordValidation)] ->
  forall (expectedError : option string) (w : World U),
    (truthy_string expectedError = false ->
     fst (check expectedError w)
     = if within (is_visible hint) 1000 (page (as_found w))
       then Thrown AssertionError else Returned tt)
    /\ (truthy_string expectedError = true ->
        (within (is_visible hint) 10000 (page (as_found w)) = false ->
         fst (check expectedError w) = Thrown AssertionError)
        /\ (forall w', check expectedError w = (Returned tt, w') ->
              includes (or_string expectedError "")
                       (or_string (text_content hint (page w')) "") = true
              /\ calls w' = calls w ++ [expect_toBeVisible hint;
                                        locator_waitFor hint visible 10000;
                                        locator_textContent hint])
        /\ (forall e w', check expectedError w = (Thrown e, w') ->
              e = AssertionError
              \/ (e = TimeoutError
                  /\ exists w1 : World U,
                       expect_locator_toBeVisible hint w = (Returned tt, w1)))
        /\ (forall w1 : World U,
              expect_locator_toBeVisible hint w = (Returned tt, w1) ->
              within (is_visible hint) 10000 (page (as_found w1)) = false ->
              fst (check expectedError w) = Thrown TimeoutError)
        /\ (stays (is_visible hint) (page (as_found w)) ->
            forall e w', check expectedError w = (Thrown e, w') ->
                         e = AssertionError)).
Proof.
  intros Hin expectedError w.
  assert (check expectedError
          = if truthy_string expectedError
            then (expect_locator_toBeVisible hint ;;
                  validationText <- getElementText hint ;;
                  expect_toContain validationText (or_string expectedError ""))
            else (isVisible <- isElementVisible hint ;;
                  expect_toBe isVisible false)) as ->.
  { destruct Hin as [H | [H | []]]; inversion H; reflexivity. }
  split.
  - intros ->. rewrite probe_then.
    destruct (within (is_visible hint) 1000 (page (as_found w))); reflexivity.
  - intros ->.
    assert (forall r w',
               (expect_locator_toBeVisible hint ;;
                validationText <- getElementText hint ;;
                expect_toContain validationText (or_string expectedError "")) w
               = (r, w') ->
               (r = Thrown AssertionError
                /\ within (is_visible hint) 10000 (page (as_found w)) = false)
               \/ exists w1 : World U,
                    expect_locator_toBeVisible hint w = (Returned tt, w1)
                    /\ ((r = Thrown TimeoutError
                         /\ within (is_visible hint) 10000 (page (as_found w1))
                            = false)
                        \/ (calls w' = calls w ++ [expect_toBeVisible hint;
                                                  locator_waitFor hint visible 10000;
                                                  locator_textContent hint]
                            /\ r = if includes (or_string expectedError "")
                                               (or_string (text_content hint (page w')) "")
                                   then Returned tt else Thrown AssertionError)))
      as Hcases by (intros r w'; apply expect_text_outcome).
    split; [|split; [|split; [|split]]].
    + intros Hgone.
      destruct (Hcases _ _ (surjective_pairing _)) as [(Hr & _) | (w1 & H1 & _)];
        [exact Hr|].
      destruct (expect_outcome _ _ _ _ H1) as (_ & [(_ & _ & Hs) | (Hr & _)]);
        [congruence | discriminate Hr].
    + intros w' H.
      destruct (Hcases _ _ H) as [(Hr & _) | (w1 & _ & [(Hr & _) | (Hc & Hr)])];
        try discriminate Hr.
      split; [|exact Hc].
      destruct (includes (or_string expectedError "")
                         (or_string (text_content hint (page w')) ""));
        [reflexivity | discriminate Hr].
    + intros e w' H.
      destruct (Hcases _ _ H) as [(Hr & _) | (w1 & H1 & [(Hr & Hgone) | (_ & Hr)])].
      * inversion Hr. auto.
      * inversion Hr. right. split; [reflexivity|]. exists w1. exact H1.
      * destruct (includes (or_string expectedError "")
                           (or_string (text_content hint (page w')) ""));
          [discriminate Hr | inversion Hr; auto].
    + intros w1 H1 Hgone. rewrite (bind_step _ _ _ _ _ H1). unfold bind.
      destruct (getElementText hint w1) as [r w'] eqn:E.
      destruct (getElementText_outcome _ _ _ _ E)
        as [(Hr & _) | (w2 & H2 & _)]; [rewrite Hr; reflexivity|].
      destruct (waitForElement_outcome hint 10000 _ _ _ H2)
        as (_ & [(_ & _ & Hseen) | (Hr & _)]); [congruence | discriminate Hr].
    + intros Hstays e w' H.
      destruct (Hcases _ _ H) as [(Hr & _) | (w1 & H1 & [(Hr & Hgone) | (_ & Hr)])].
      * inversion Hr. reflexivity.
      * destruct (expect_then_seen hint w w1 Hstays H1) as (_ & _ & Hseen).
        congruence.
      * destruct (includes (or_string expectedError "")
                           (or_string (text_content hint (page w')) ""));
          [discriminate Hr | inversion Hr; reflexivity].
Qed.

(** A retrying assertion on an element the call finds on the page. *)
Lemma expect_found (l : Locator) (w : World U) :
  is_visible l (page (as_found w)) = true ->
  expect_locator_toBeVisible l w
  = (Returned tt,
     mkWorld (page (as_found w)) (clock (as_found w) + 0)
             (calls w ++ [expect_toBeVisible l])).
Proof.
  intros H.
  exact (poll_found (expect_toBeVisible l) AssertionError (is_visible l)
           CONFIG.expectTimeout (fun d => d) w H).
Qed.

Lemma waitForElement_found (l : Locator) (t : option Z) (w : World U) :
  is_visible l (page (as_found w)) = true ->
  waitForElement l t w
  = (Returned tt,
     mkWorld (page (as_found w)) (clock (as_found w) + 0)
             (calls w ++ [locator_waitFor l visible (or_default t 10000)])).
Proof.
  intros H.
  exact (poll_found (locator_waitFor l visible (or_default t 10000)) TimeoutError
           (in_state visible l) (or_default t 10000) (fun d => d) w H).
Qed.

(** Reading the text of an element the wait finds on the page: the text
    is that of one round trip later. *)
Lemma getElementText_found (l : Locator) (w : World U) :
  is_visible l (page (as_found w)) = true ->
  fst (getElementText l w)
  = Returned (or_string (text_content l (found (page (as_found w)))) "").
Proof.
  intros H. unfold getElementText.
  rewrite (bind_step _ _ _ _ _ (waitForElement_found l None w H)).
  reflexivity.
Qed.

(** X6. [validateWelcomeMessage] times out when the welcome message does
    not show within the ten seconds of its wait, and fails with an assertion
    error when the message, once seen by the wait, is gone for the ten
    seconds of the assertion.  With no user name expected (none given, or
    the empty string) it is that wait and that assertion and nothing more.
    With a name expected, a call that returns has read, after a second wait,
    a text that contains the name.  On a page that keeps the message once it
    shows, it times out exactly when the message does not show within ten
    seconds, and otherwise passes or fails with an assertion error according
    to whether the text, read three round trips after the message has shown,
    contains the name. *)
Theorem validateWelcomeMessage_outcome (expectedUserName : option string)
        (w : World U) :
  (within (is_visible welcomeMessage) 10000 (page (as_found w)) = false ->
   fst (validateWelcomeMessage expectedUserName w) = Thrown TimeoutError)
  /\ (forall w1 : World U,
        waitForElement welcomeMessage (Some 10000) w = (Returned tt, w1) ->
        within (is_visible welcomeMessage) 10000 (page (as_found w1)) = false ->
        fst (validateWelcomeMessage expectedUserName w) = Thrown AssertionError)
  /\ (truthy_string expectedUserName = false ->
      validateWelcomeMessage expectedUserName w
      = (waitForElement welcomeMessage (Some 10000) ;;
         expect_locator_toBeVisible welcomeMessage) w)
  /\ (forall w', validateWelcomeMessage expectedUserName w = (Returned tt, w') ->
        truthy_string expectedUserName = true ->
        includes (or_string expectedUserName "")
                 (or_string (text_content welcomeMessage (page w')) "") = true
        /\ calls w' = calls w ++ [locator_waitFor welcomeMessage visible 10000;
                                  expect_toBeVisible welcomeMessage;
                                  locator_waitFor welcomeMessage visible 10000;
                                  locator_textContent welcomeMessage])
  /\ (stays (is_visible welcomeMessage) (page (as_found w)) ->
      fst (validateWelcomeMessage expectedUserName w)
      = match settle (is_visible welcomeMessage) (Z.to_nat 10000)
                     (page (as_found w)) with
        | None => Thrown TimeoutError
        | Some (_, d) =>
            if truthy_string expectedUserName
            then if includes (or_string expectedUserName "")
                             (or_string
                                (text_content welcomeMessage (found (found (found d))))
                                "")
                 then Returned tt else Thrown AssertionError
            else Returned tt
        end).
Proof.
  unfold validateWelcomeMessage. change TIMEOUTS.MEDIUM with 10000.
  split; [|split; [|split; [|split]]].
  - intros Hgone. unfold bind at 1.
    destruct (waitForElement welcomeMessage (Some 10000) w) as [[[]|e] w1] eqn:E;
      destruct (waitForElement_outcome _ _ _ _ _ E)
        as (_ & [(Hr & _ & Hs) | (Hr & _)]);
      try congruence; try discriminate Hr.
    inversion Hr. reflexivity.
  - intros w1 H1 Hgone. rewrite (bind_step _ _ _ _ _ H1). unfold bind at 1.
    pose proof (expect_fst welcomeMessage w1) as Hx. rewrite Hgone in Hx.
    destruct (expect_locator_toBeVisible welcomeMessage w1) as [[[]|e] w2];
      cbn [fst] in Hx; [discriminate Hx | inversion Hx; reflexivity].
  - intros ->. unfold bind.
    destruct (waitForElement welcomeMessage (Some 10000) w) as [[[]|e] w1];
      [|reflexivity].
    destruct (expect_locator_toBeVisible welcomeMessage w1) as [[[]|e] w2];
      reflexivity.
  - intros w' H T. rewrite T in H.
    apply bind_Returned in H. destruct H as ([] & w1 & H1 & H).
    destruct (waitForElement_outcome _ _ _ _ _ H1) as (Hc1 & _).
    destruct (expect_text_outcome _ _ _ _ _ H)
      as [(Hr & _) | (w2 & _ & [(Hr & _) | (Hc & Hr)])]; try discriminate Hr.
    split.
    + destruct (includes (or_string expectedUserName "")
                         (or_string (text_content welcomeMessage (page w')) ""));
        [reflexivity | discriminate Hr].
    + rewrite Hc, Hc1, <- app_assoc. reflexivity.
  - intros Hstays. unfold bind at 1.
    unfold waitForElement at 1, Locator_waitFor, or_default.
    rewrite poll_cases.
    change (in_state visible welcomeMessage) with (@is_visible U welcomeMessage).
    destruct (settle (is_visible welcomeMessage) (Z.to_nat 10000) (page (as_found w)))
      as [[n d]|] eqn:E; [|reflexivity].
    destruct (settle_Some _ _ _ _ _ E) as (_ & -> & Hd & _).
    assert (stays (is_visible welcomeMessage) (after_ms n (page (as_found w))))
      as Hs0 by (apply stays_later; exact Hstays).
    set (d := after_ms n (page (as_found w))) in *.
    pose proof (stays_seen _ _ Hs0 Hd) as Hd1.
    pose proof (stays_found _ _ Hs0) as Hs1.
    pose proof (stays_seen _ _ Hs1 Hd1) as Hd2.
    unfold bind at 1. rewrite expect_found by exact Hd1.
    destruct (truthy_string expectedUserName); [|reflexivity].
    unfold bind.
    match goal with
    | |- context [getElementText welcomeMessage ?w2] =>
        pose proof (getElementText_found welcomeMessage w2 Hd2) as Hread;
        destruct (getElementText welcomeMessage w2) as [[s|e] w3]
    end; cbn [fst] in Hread; [|discriminate Hread].
    inversion Hread as [Hs]. unfold as_found. cbn [page].
    unfold expect_toContain.
    destruct (includes (or_string expectedUserName "")
                (or_string (text_content welcomeMessage (found (found (found d)))) ""));
      reflexivity.
Qed.

End OutcomeFacts.

Section ValidatorFacts.
Context {U : Surface}.

Lemma expect_then {A : Type} (l : Locator) (rest : Async U A) (w : World U) :
  (expect_locator_toBeVisible l ;; rest) w
  = match settle (is_visible l) (Z.to_nat 10000) (found (page w)) with
    | Some (n, d) =>
        rest (mkWorld d (clock (as_found w) + Z.of_nat n)
                      (calls w ++ [expect_toBeVisible l]))
    | None =>
        (Thrown AssertionError,
         mkWorld (after_ms (Z.to_nat 10000) (found (page w)))
                 (clock (as_found w) + Z.of_nat (Z.to_nat 10000))
                 (calls w ++ [expect_toBeVisible l]))
    end.
Proof.
  unfold bind. rewrite expect_cases. unfold as_found at 1 2. cbn [page].
  destruct (settle (is_visible l) (Z.to_nat 10000) (found (page w))) as [[n d]|];
    reflexivity.
Qed.

Lemma expect_last (l : Locator) (w : World U) :
  expect_locator_toBeVisible l w
  = match settle (is_visible l) (Z.to_nat 10000) (found (page w)) with
    | Some (n, d) =>
        (Returned tt,
         mkWorld d (clock (as_found w) + Z.of_nat n)
                 (calls w ++ [expect_toBeVisible l]))
    | None =>
        (Thrown AssertionError,
         mkWorld (after_ms (Z.to_nat 10000) (found (page w)))
                 (clock (as_found w) + Z.of_nat (Z.to_nat 10000))
                 (calls w ++ [expect_toBeVisible l]))
    end.
Proof. reflexivity. Qed.

(** Three assertions in a row, and the page they leave to what follows. *)
Lemma expect_three (a b c : Locator) (w : World U) :
  exists w3 : World U,
    (expect_locator_toBeVisible a ;;
     expect_locator_toBeVisible b ;;
     expect_locator_toBeVisible c) w
    = ((if shown_in_turn [a; b; c] (page w)
        then Returned tt else Thrown AssertionError), w3).
Proof.
  cbn [shown_in_turn].
  rewrite expect_then.
  destruct (settle (is_visible a) (Z.to_nat 10000) (found (page w))) as [[n1 d1]|];
    [|eexists; reflexivity].
  rewrite expect_then. cbn [page].
  destruct (settle (is_visible b) (Z.to_nat 10000) (found d1)) as [[n2 d2]|];
    [|eexists; reflexivity].
  rewrite expect_last. cbn [page].
  destruct (settle (is_visible c) (Z.to_nat 10000) (found d2)) as [[n3 d3]|];
    eexists; reflexivity.
Qed.

Lemma seq_three {A : Type} (a b c : Async U unit) (rest : Async U A) (w : World U) :
  (a ;; b ;; c ;; rest) w = ((a ;; b ;; c) ;; rest) w.
Proof.
  unfold bind.
  destruct (a w) as [[[]|e1] w1]; [|reflexivity].
  destruct (b w1) as [[[]|e2] w2]; [|reflexivity].
  destruct (c w2) as [[[]|e3] w3]; reflexivity.
Qed.

(** X7. the validators that only assert visibility fail with an assertion
    error and never time out.  [validateFormElements] passes exactly when
    the six controls of the login form show in turn, each within the ten
    seconds of the assertion on it.  [validateDashboardElements] needs the
    header, the user profile and the navigation menu to show in turn; it
    then probes the profile dropdown, and a dropdown the probe does not see
    has no bearing on the outcome; a dropdown the probe has seen is asserted,
    a call of its own, which fails if the dropdown is gone for the ten
    seconds of that assertion. *)
Theorem visibility_validators_outcome (w : World U) :
  fst (validateFormElements w)
  = (if shown_in_turn [emailInput; passwordInput; loginButton; rememberMeCheckbox;
                       forgotPasswordLink; signupLink] (page w)
     then Returned tt else Thrown AssertionError)
  /\ (let w3 := snd ((expect_locator_toBeVisible dashboardHeader ;;
                      expect_locator_toBeVisible userProfile ;;
                      expect_locator_toBeVisible navigationMenu) w) in
      let w4 := snd (isElementVisible profileDropdown w3) in
      fst (validateDashboardElements w)
      = if shown_in_turn [dashboardHeader; userProfile; navigationMenu] (page w)
        then if within (is_visible profileDropdown) 1000 (page (as_found w3))
             then if within (is_visible profileDropdown) 10000 (page (as_found w4))
                  then Returned tt else Thrown AssertionError
             else Returned tt
        else Thrown AssertionError)
  /\ (forall e w', validateDashboardElements w = (Thrown e, w') ->
        e = AssertionError).
Proof.
  split; [|split].
  - unfold validateFormElements. cbn [shown_in_turn].
    repeat (rewrite expect_then; cbn [page];
            match goal with
            | |- context [settle ?r ?b ?d] =>
                destruct (settle r b d) as [[? ?]|]; [|reflexivity]
            end).
    rewrite expect_last. cbn [page].
    match goal with
    | |- context [settle ?r ?b ?d] => destruct (settle r b d) as [[? ?]|]; reflexivity
    end.
  - cbv zeta. unfold validateDashboardElements. rewrite seq_three.
    unfold bind at 1.
    destruct (expect_three dashboardHeader userProfile navigationMenu w)
      as (w3 & ->). cbn [snd].
    destruct (shown_in_turn [dashboardHeader; userProfile; navigationMenu] (page w));
      [|reflexivity].
    rewrite probe_then.
    destruct (within (is_visible profileDropdown) 1000 (page (as_found w3)));
      [|reflexivity].
    apply expect_fst.
  - unfold validateDashboardElements.
    apply throws_only_bind; [apply throws_only_poll | intros _].
    apply throws_only_bind; [apply throws_only_poll | intros _].
    apply throws_only_bind; [apply throws_only_poll | intros _].
    apply throws_only_probe. intros [|].
    + apply throws_only_poll.
    + apply throws_only_ret.
Qed.

Variable page_url : dom U -> string.

(** X8. [validateSuccessfulLogin] times out when the dashboard header
    does not show within the ten seconds of its wait.  Once the wait has
    seen the header it fails only with an assertion error: when the header
    is gone for the ten seconds of the assertion that follows, when the user
    profile does not show within the ten seconds of the next assertion, or
    when the URL of the page, read at the moment the profile shows, does not
    contain ["/dashboard"]; otherwise it passes. *)
Theorem validateSuccessfulLogin_outcome (w : World U) :
  fst (validateSuccessfulLogin page_url w)
  = match settle (is_visible dashboardHeader) (Z.to_nat 10000) (found (page w)) with
    | None => Thrown TimeoutError
    | Some (_, d) =>
        match settle (is_visible dashboardHeader) (Z.to_nat 10000) (found d) with
        | None => Thrown AssertionError
        | Some (_, d1) =>
            match settle (is_visible userProfile) (Z.to_nat 10000) (found d1) with
            | None => Thrown AssertionError
            | Some (_, d2) =>
                if includes "/dashboard" (page_url d2)
                then Returned tt else Thrown AssertionError
            end
        end
    end.
Proof.
  unfold validateSuccessfulLogin, validateDashboardIsLoaded.
  change TIMEOUTS.MEDIUM with 10000.
  unfold bind at 1. rewrite wait_then_expect_cases. unfold as_found at 1 2 3. cbn [page].
  destruct (settle (is_visible dashboardHeader) (Z.to_nat 10000) (found (page w)))
    as [[n d]|]; [|reflexivity].
  rewrite expect_last. cbn [page].
  destruct (settle (is_visible dashboardHeader) (Z.to_nat 10000) (found d))
    as [[n1 d1]|]; [|reflexivity].
  rewrite expect_then. cbn [page].
  destruct (settle (is_visible userProfile) (Z.to_nat 10000) (found d1))
    as [[n2 d2]|]; [|reflexivity].
  unfold validateDashboardUrl, validateUrlContains, getCurrentUrl, bind,
    expect_toContain.
  cbn [page]. change URLs.DASHBOARD with "/dashboard".
  destruct (includes "/dashboard" (page_url d2)); reflexivity.
Qed.

(** X9. [validateLogoutSuccess] is stricter than the poll of [logout].  It
    waits, ten seconds at most, for the path of the location to be free of
    ["/dashboard"], and then requires the whole URL to be free of it: when
    the path is clean but the URL still names the dashboard (in its query,
    say), it fails with an assertion error.  When it returns, neither the
    path nor the URL contains ["/dashboard"]. *)
Theorem validateLogoutSuccess_outcome (w : World U) :
  fst (validateLogoutSuccess page_url w)
  = match settle (eval (pathname_excludes "/dashboard")) (Z.to_nat 10000)
                 (page (as_found w)) with
    | None => Thrown TimeoutError
    | Some (_, d) =>
        if includes "/dashboard" (page_url d)
        then Thrown AssertionError else Returned tt
    end
  /\ forall w', validateLogoutSuccess page_url w = (Returned tt, w') ->
        includes "/dashboard" (pathname (page w')) = false
        /\ includes "/dashboard" (page_url (page w')) = false.
Proof.
  unfold validateLogoutSuccess, Page_waitForFunction, getCurrentUrl,
    expect_not_toContain, bind.
  rewrite poll_cases.
  change TIMEOUTS.MEDIUM with 10000. change URLs.DASHBOARD with "/dashboard".
  destruct (settle (eval (pathname_excludes "/dashboard")) (Z.to_nat 10000)
                   (page (as_found w)))
    as [[n d]|] eqn:E.
  - destruct (settle_Some _ _ _ _ _ E) as (_ & _ & Hd & _). cbn [eval] in Hd.
    apply negb_true_iff in Hd. cbn [page].
    destruct (includes "/dashboard" (page_url d)) eqn:Hu; (split; [reflexivity|]);
      intros w' H; inversion H; subst w'. cbn [page]. auto.
  - split; [reflexivity|]. intros w' H. discriminate H.
Qed.

End ValidatorFacts.

Section ProfileInfoFacts.
Context {U : Surface}.

(** The optional cross-check of one displayed value: it can only fail on
    a display element that the probe has seen, by the timeout of the wait
    that follows when the element is gone for ten seconds, or by an
    assertion error when the text it has read lacks the expected value. *)
Lemma cross_check (l : Locator) (expected : option string) (w : World U) r w' :
  (if truthy_string expected
   then
     shown <- isElementVisible l ;;
     if shown
     then
       displayed <- getElementText l ;;
       expect_toContain displayed (or_string expected "")
     else ret tt
   else ret tt) w = (r, w') ->
  r = Returned tt
  \/ (truthy_string expected = true
      /\ isElementVisible l w = (Returned true, snd (isElementVisible l w))
      /\ ((r = Thrown TimeoutError
           /\ within (is_visible l) 10000
                     (page (as_found (snd (isElementVisible l w)))) = false)
          \/ (r = Thrown AssertionError
              /\ includes (or_string expected "")
                          (or_string (text_content l (page w')) "") = false))).
Proof.
  destruct (truthy_string expected) eqn:T.
  - rewrite probe_then. pose proof (probe_run l w) as Hp.
    destruct (within (is_visible l) 1000 (page (as_found w))).
    + unfold bind.
      destruct (getElementText l (snd (isElementVisible l w))) as [[s|e] w2] eqn:E.
      * destruct (getElementText_outcome _ _ _ _ E)
          as [(Hr & _) | (w3 & _ & Hr & _)]; [discriminate Hr|].
        assert (s = or_string (text_content l (page w2)) "") as Hs by congruence.
        clear Hr. unfold expect_toContain.
        destruct (includes (or_string expected "") s) eqn:Hinc; intros H;
          apply pair_equal_spec in H; destruct H as [<- <-]; [left; reflexivity|].
        right. split; [reflexivity|]. split; [exact Hp|]. right.
        split; [reflexivity|]. rewrite <- Hs. exact Hinc.
      * destruct (getElementText_outcome _ _ _ _ E)
          as [(Hr & Hgone & _) | (w3 & _ & Hr & _)]; [|discriminate Hr].
        intros H. apply pair_equal_spec in H. destruct H as [<- <-].
        inversion Hr; subst e. right. split; [reflexivity|]. split; [exact Hp|].
        left. auto.
    + intros H. inversion H. auto.
  - intros H. inversion H. auto.
Qed.

Lemma cross_check_absent (l : Locator) (expected : option string) (w : World U) :
  (forall d : dom U, is_visible l d = false) ->
  fst ((if truthy_string expected
        then
          shown <- isElementVisible l ;;
          if shown
          then
            displayed <- getElementText l ;;
            expect_toContain displayed (or_string expected "")
          else ret tt
        else ret tt) w) = Returned tt.
Proof.
  intros Habsent. destruct (truthy_string expected); [|reflexivity].
  rewrite probe_then.
  assert (within (is_visible l) 1000 (page (as_found w)) = false) as ->.
  { apply within_false_iff. intros k _. apply Habsent. }
  reflexivity.
Qed.

(** X10. [validateUserProfileInfo] is a best-effort cross-check.  With
    nothing expected (values left out or empty) it only waits for the user
    profile and asserts it.  A failure is either the failure of that wait or
    of that assertion, or it concerns a display element whose value is
    expected and that the one-second probe has seen: a timeout while
    reading it, or an assertion error, when the text read lacks the expected
    value.  Display elements that never show fail nothing. *)
Theorem validateUserProfileInfo_best_effort
        (expectedEmail expectedName : option string) (w : World U) :
  (truthy_string expectedEmail = false -> truthy_string expectedName = false ->
   validateUserProfileInfo expectedEmail expectedName w
   = (waitForElement userProfile (Some 10000) ;;
      expect_locator_toBeVisible userProfile) w)
  /\ (forall e w',
        validateUserProfileInfo expectedEmail expectedName w = (Thrown e, w') ->
        (waitForElement userProfile (Some 10000) ;;
         expect_locator_toBeVisible userProfile) w = (Thrown e, w')
        \/ exists (l : Locator) (expected : option string) (w0 : World U),
             In (l, expected) [(userEmailDisplay, expectedEmail);
                               (userNameDisplay, expectedName)]
             /\ truthy_string expected = true
             /\ isElementVisible l w0 = (Returned true, snd (isElementVisible l w0))
             /\ (e = TimeoutError
                 \/ (e = AssertionError
                     /\ includes (or_string expected "")
                                 (or_string (text_content l (page w')) "") = false)))
  /\ ((forall d : dom U, is_visible userEmailDisplay d = false) ->
      (forall d : dom U, is_visible userNameDisplay d = false) ->
      fst (validateUserProfileInfo expectedEmail expectedName w)
      = fst ((waitForElement userProfile (Some 10000) ;;
              expect_locator_toBeVisible userProfile) w)).
Proof.
  unfold validateUserProfileInfo. change TIMEOUTS.MEDIUM with 10000.
  split; [|split].
  - intros -> ->. unfold bind.
    destruct (waitForElement userProfile (Some 10000) w) as [[[]|e] w1];
      [|reflexivity].
    destruct (expect_locator_toBeVisible userProfile w1) as [[[]|e] w2];
      reflexivity.
  - intros e w'. rewrite <- bind_assoc. unfold bind at 1.
    destruct ((waitForElement userProfile (Some 10000) ;;
               expect_locator_toBeVisible userProfile) w) as [[[]|e0] w1].
    + intros H. right. apply bind_Thrown in H.
      destruct H as [H | ([] & w2 & _ & H)]; apply cross_check in H;
        destruct H as [H | (T & Hseen & Hfail)]; try discriminate H.
      * exists userEmailDisplay, expectedEmail, w1.
        split; [left; reflexivity|]. split; [exact T|]. split; [exact Hseen|].
        destruct Hfail as [(Hr & Hgone) | (Hr & Hinc)]; inversion Hr; auto.
      * exists userNameDisplay, expectedName, w2.
        split; [right; left; reflexivity|]. split; [exact T|]. split; [exact Hseen|].
        destruct Hfail as [(Hr & Hgone) | (Hr & Hinc)]; inversion Hr; auto.
    + intros H. left. exact H.
  - intros He Hn. rewrite <- bind_assoc. unfold bind at 1.
    destruct ((waitForElement userProfile (Some 10000) ;;
               expect_locator_toBeVisible userProfile) w) as [[[]|e0] w1];
      [|reflexivity].
    unfold bind at 1.
    match goal with
    | |- context [(if truthy_string expectedEmail then ?a else ?b) ?w1] =>
        generalize (cross_check_absent userEmailDisplay expectedEmail w1 He);
        destruct ((if truthy_string expectedEmail then a else b) w1)
          as [[[]|e1] w2]; cbn [fst]; intros H1; [|discriminate H1]
    end.
    apply (cross_check_absent userNameDisplay expectedName w2 Hn).
Qed.

End ProfileInfoFacts.

Section DashboardNavigationFacts.
Context {U : Surface}.

Lemma openProfileDropdown_Returned (w w' : World U) :
  openProfileDropdown w = (Returned tt, w') ->
  calls w' = calls w ++ [locator_waitFor profileDropdown visible 10000;
                         locator_click profileDropdown;
                         locator_waitFor logoutButton visible 5000]
  /\ is_visible logoutButton (page w') = true.
Proof.
  unfold openProfileDropdown. intros H.
  apply bind_Returned in H. destruct H as ([] & wb & Ha & Hw).
  apply clickElement_Returned in Ha. destruct Ha as (n & _ & Hla).
  unfold waitForElement, Locator_waitFor, or_default in Hw.
  change TIMEOUTS.SHORT with 5000 in Hw.
  apply poll_Returned in Hw. destruct Hw as (m & _ & Hat & _ & ->).
  cbn [page calls]. rewrite Hla, <- app_assoc. auto.
Qed.

Lemma waitForPageLoad_Returned (w w' : World U) :
  waitForPageLoad None w = (Returned tt, w') ->
  calls w' = calls w ++ [page_waitForLoadState networkidle 30000;
                         page_waitForLoadState domcontentloaded 30000]
  /\ reached domcontentloaded (page w') = true.
Proof.
  intros H. base_unfold H. run_inv H. cbn [page calls].
  rewrite <- app_assoc. auto.
Qed.

(** Revealing a link of the profile dropdown if need be, clicking it and
    waiting for the page it leads to. *)
Lemma reveal_click_load (l : Locator) (w w' : World U) :
  (seen <- isElementVisible l ;;
   (if negb seen then openProfileDropdown else ret tt) ;;
   clickElement l None ;;
   waitForPageLoad None) w = (Returned tt, w') ->
  calls w' =
  calls w ++
  (locator_waitFor l visible 1000
   :: (if within (is_visible l) 1000 (page (as_found w)) then []
       else [locator_waitFor profileDropdown visible 10000;
             locator_click profileDropdown;
             locator_waitFor logoutButton visible 5000]))
  ++ [locator_waitFor l visible 10000;
      locator_click l;
      page_waitForLoadState networkidle 30000;
      page_waitForLoadState domcontentloaded 30000]
  /\ reached domcontentloaded (page w') = true.
Proof.
  rewrite probe_then. pose proof (probe_calls l w) as Hc. intros H.
  apply bind_Returned in H. destruct H as ([] & wa & Ha & H).
  apply bind_Returned in H. destruct H as ([] & wb & Hb & Hl).
  apply clickElement_Returned in Hb. destruct Hb as (n & _ & Hlb).
  apply waitForPageLoad_Returned in Hl. destruct Hl as (Hll & Hdom).
  split; [|exact Hdom].
  destruct (within (is_visible l) 1000 (page (as_found w))); cbn [negb] in Ha.
  - inversion Ha; subst wa. rewrite Hll, Hlb, Hc.
    repeat rewrite <- app_assoc. reflexivity.
  - apply openProfileDropdown_Returned in Ha. destruct Ha as (Hla & _).
    rewrite Hll, Hlb, Hla, Hc. repeat rewrite <- app_assoc. reflexivity.
Qed.

(** X11. [navigateToProfile] and [navigateToSettings] reach their link the
    way [clickLogout] reaches the logout control: they open the profile
    dropdown first exactly when the one-second probe has not seen the link,
    wait there for the logout control, not for the link, then click the
    link and wait for the page to load; when they return, DOM content is
    loaded. *)
Theorem dropdown_navigation (go : Async U unit) (link : Locator) :
  In (go, link) [(navigateToProfile, profileLink);
                 (navigateToSettings, settingsLink)] ->
  forall w w' : World U,
    go w = (Returned tt, w') ->
    calls w' =
    calls w ++
    (locator_waitFor link visible 1000
     :: (if within (is_visible link) 1000 (page (as_found w)) then []
         else [locator_waitFor profileDropdown visible 10000;
               locator_click profileDropdown;
               locator_waitFor logoutButton visible 5000]))
    ++ [locator_waitFor link visible 10000;
        locator_click link;
        page_waitForLoadState networkidle 30000;
        page_waitForLoadState domcontentloaded 30000]
    /\ reached domcontentloaded (page w') = true.
Proof.
  intros Hin w w'.
  assert (go = navigateToProfile /\ link = profileLink
          \/ go = navigateToSettings /\ link = settingsLink)
    as [[-> ->] | [-> ->]].
  { destruct Hin as [H | [H | []]]; inversion H; auto. }
  - apply reveal_click_load.
  - apply reveal_click_load.
Qed.

(** X12. [waitForDashboardToLoad], once the page has loaded and the header
    has shown, waits for the loading indicator only if the one-second probe
    sees it, and then does not swallow the failure: an indicator still there
    after ten seconds makes it throw a timeout.  When it returns, the
    indicator is not on the page. *)
Theorem waitForDashboardToLoad_outcome (w w1 : World U) :
  (waitForPageLoad None ;; validateDashboardIsLoaded) w = (Returned tt, w1) ->
  fst (waitForDashboardToLoad w)
  = (if within (is_visible loadingIndicator) 1000 (page (as_found w1))
     then if within (in_state hidden loadingIndicator) 10000
                    (page (as_found (snd (isElementVisible loadingIndicator w1))))
          then Returned tt else Thrown TimeoutError
     else Returned tt)
  /\ forall w', waitForDashboardToLoad w = (Returned tt, w') ->
        is_visible loadingIndicator (page w') = false.
Proof.
  intros H. unfold waitForDashboardToLoad.
  assert (forall (rest : Async U unit),
             (waitForPageLoad None ;; validateDashboardIsLoaded ;; rest) w = rest w1)
    as Hrest.
  { intros rest. rewrite <- bind_assoc.
    exact (bind_step _ (fun _ => rest) _ _ _ H). }
  rewrite Hrest, probe_then.
  pose proof (probe_seen loadingIndicator w1) as Hs.
  destruct (within (is_visible loadingIndicator) 1000 (page (as_found w1))).
  - unfold waitForElementToBeHidden, Locator_waitFor, or_default.
    change TIMEOUTS.MEDIUM with 10000. split.
    + apply poll_within.
    + intros w' Hr. apply poll_Returned in Hr.
      destruct Hr as (n & _ & Hat & _ & ->). cbn [page in_state] in *.
      apply negb_true_iff in Hat. exact Hat.
  - split; [reflexivity|]. intros w' Hr. inversion Hr; subst w'. exact Hs.
Qed.

End DashboardNavigationFacts.

Section RememberMeEndFacts.
Context {U : Surface}.
Hypothesis L : CheckboxLaws U.

(** One step of the remember-me test: set the box, read it back, assert. *)
Lemma set_and_check (b : bool) (w : World U) r w' :
  (setRememberMe b ;;
   isChecked <- isRememberMeChecked ;;
   expect_toBe isChecked b) w = (r, w') ->
  (r = Returned tt /\ is_checked rememberMeCheckbox (page w') = b)
  \/ r = Thrown TimeoutError.
Proof.
  unfold bind, isRememberMeChecked.
  destruct (setRememberMe b w) as [[[]|e] w1] eqn:E1.
  - destruct (setRememberMe_Returned L b w w1 E1) as (Hb & _).
    destruct (isElementChecked rememberMeCheckbox w1) as [[c|e] w2] eqn:E2;
      apply isElementChecked_spec in E2;
      destruct E2 as (n & Hpage & [(Hc & _) | (Hc & _)]); try discriminate.
    + assert (is_checked rememberMeCheckbox (page w2) = b) as Hv
        by (rewrite Hpage, (checked_after_ms L); exact Hb).
      inversion Hc as [Hcv]. rewrite Hv.
      unfold expect_toBe. rewrite Bool.eqb_reflx. intros H.
      inversion H; subst. left. split; [reflexivity | exact Hv].
    + intros H. inversion H; subst. right. inversion Hc. reflexivity.
  - intros H. inversion H; subst. right. f_equal.
    eapply setRememberMe_throws_only. exact E1.
Qed.

(** X13. the test "should remember me checkbox work correctly", on a page
    whose remember-me control is a checkbox, cannot fail on one of its two
    assertions: it passes, leaving the box unchecked, or it fails on a
    timeout while waiting for the checkbox. *)
Theorem remember_me_test_assertions_hold (w : World U) r w' :
  LoginSpec.should_remember_me_checkbox_work_correctly w = (r, w') ->
  (r = Returned tt /\ is_checked rememberMeCheckbox (page w') = false)
  \/ r = Thrown TimeoutError.
Proof.
  unfold LoginSpec.should_remember_me_checkbox_work_correctly.
  unfold bind at 1.
  destruct ((setRememberMe true ;;
             isChecked <- isRememberMeChecked ;;
             expect_toBe isChecked true) w) as [[[]|e] w1] eqn:E1.
  - apply set_and_check.
  - intros H. inversion H; subst. right.
    destruct (set_and_check true w _ _ E1) as [(H1 & _) | H1];
      [discriminate | exact H1].
Qed.

Hypothesis Fr : CheckboxFrame U.

Lemma login_checkbox_end_state (c : UserCredentials) (w w' : World U) :
  login c w = (Returned tt, w') ->
  is_checked rememberMeCheckbox (page w')
  = if truthy (rememberMe c) then true
    else is_checked rememberMeCheckbox (page w).
Proof.
  destruct (truthy (rememberMe c)) eqn:T.
  - unfold login. rewrite T. intros H.
    apply bind_Returned in H. destruct H as ([] & w1 & _ & H).
    apply bind_Returned in H. destruct H as ([] & w2 & _ & H).
    apply bind_Returned in H. destruct H as ([] & w3 & H3 & H4).
    destruct (setRememberMe_Returned L true w2 w3 H3) as (Hon & _).
    unfold clickLoginButton in H4. apply clickElement_Returned in H4.
    destruct H4 as (n & Hp & _).
    rewrite Hp, (frame_submit U Fr), (checked_after_ms L). exact Hon.
  - intros H. apply (login_keeps_checkbox c _ Fr T w _ w' H). reflexivity.
Qed.

(** X14. what [quickLogin] does to remember-me.  On a page whose
    remember-me control is a checkbox that typing and submitting leave
    alone, a [quickLogin] that returns leaves the box checked when called
    with [rememberMe] true, and in the state it found it otherwise: with the
    default, or with false, it does not uncheck a box that is checked. *)
Theorem quickLogin_remember_me (user pass : string) (remember : option bool)
        (w w' : World U) :
  quickLogin user pass remember w = (Returned tt, w') ->
  is_checked rememberMeCheckbox (page w')
  = if or_default remember false then true
    else is_checked rememberMeCheckbox (page w).
Proof.
  unfold quickLogin. intros H.
  apply login_checkbox_end_state in H. cbn [rememberMe truthy] in H.
  rewrite H. destruct (or_default remember false); reflexivity.
Qed.

End RememberMeEndFacts.

Section EntryFacts.
Context {U : Surface}.

Lemma goto_calls (url : string) (w w1 : World U) :
  navigateToUrl url None w = (Returned tt, w1) ->
  calls w1 = calls w ++ [page_goto url networkidle 30000].
Proof.
  unfold navigateToUrl, or_default, Page_goto. intros H.
  apply poll_Returned in H. destruct H as (n & _ & _ & _ & ->). reflexivity.
Qed.

(** X15. the entry barriers.  [navigateToLogin] goes to the login path under
    the base URL it is given, or, when that is left out or empty, under the
    [BASE_URL] of the environment, or, when that too is missing or empty,
    under ["https://example.com"]; when it returns it has waited for both
    load states and for the login form, has asserted the form, the two
    inputs and the submit button in this order, and the submit button is on
    the page.  [navigateToDashboard] does the same for the dashboard path and
    the dashboard header. *)
Theorem navigation_entry_barriers (env baseUrl : option string) (w w' : World U) :
  (navigateToLogin env baseUrl w = (Returned tt, w') ->
   calls w' =
   calls w ++
   [page_goto (or_string baseUrl (or_string env "https://example.com") ++ "/login")
              networkidle 30000;
    page_waitForLoadState networkidle 30000;
    page_waitForLoadState domcontentloaded 30000;
    locator_waitFor loginForm visible 10000;
    expect_toBeVisible loginForm;
    expect_toBeVisible emailInput;
    expect_toBeVisible passwordInput;
    expect_toBeVisible loginButton]
   /\ is_visible loginButton (page w') = true)
  /\ (navigateToDashboard env baseUrl w = (Returned tt, w') ->
      calls w' =
      calls w ++
      [page_goto (or_string baseUrl (or_string env "https://example.com")
                  ++ "/dashboard")
                 networkidle 30000;
       page_waitForLoadState networkidle 30000;
       page_waitForLoadState domcontentloaded 30000;
       locator_waitFor dashboardHeader visible 10000;
       expect_toBeVisible dashboardHeader]
      /\ is_visible dashboardHeader (page w') = true).
Proof.
  assert (URLs.BASE_URL env = or_string env "https://example.com") as Hbase
    by (destruct env as [[|]|]; reflexivity).
  split; intros H.
  - unfold navigateToLogin in H. rewrite Hbase in H.
    change URLs.LOGIN with "/login" in H.
    apply bind_Returned in H. destruct H as ([] & w1 & H1 & H).
    apply bind_Returned in H. destruct H as ([] & w2 & H2 & H3).
    apply goto_calls in H1.
    apply waitForPageLoad_Returned in H2. destruct H2 as (Hl2 & _).
    unfold validateLoginFormIsVisible in H3.
    apply bind_Returned in H3. destruct H3 as ([] & w3 & H3 & H).
    apply bind_Returned in H. destruct H as ([] & w4 & H4 & H).
    apply bind_Returned in H. destruct H as ([] & w5 & H5 & H).
    apply bind_Returned in H. destruct H as ([] & w6 & H6 & H7).
    destruct (waitForElement_outcome loginForm 10000 _ _ _ H3) as (Hc3 & _).
    destruct (expect_outcome _ _ _ _ H4) as (Hc4 & _).
    destruct (expect_outcome _ _ _ _ H5) as (Hc5 & _).
    destruct (expect_outcome _ _ _ _ H6) as (Hc6 & _).
    destruct (expect_outcome _ _ _ _ H7) as (Hc7 & [(_ & Hv & _) | (Hr & _)]);
      [|discriminate Hr].
    split; [|exact Hv].
    rewrite Hc7, Hc6, Hc5, Hc4, Hc3, Hl2, H1.
    repeat rewrite <- app_assoc. reflexivity.
  - unfold navigateToDashboard in H. rewrite Hbase in H.
    change URLs.DASHBOARD with "/dashboard" in H.
    apply bind_Returned in H. destruct H as ([] & w1 & H1 & H).
    apply bind_Returned in H. destruct H as ([] & w2 & H2 & H3).
    apply goto_calls in H1.
    apply waitForPageLoad_Returned in H2. destruct H2 as (Hl2 & _).
    unfold validateDashboardIsLoaded in H3. change TIMEOUTS.MEDIUM with 10000 in H3.
    destruct (wait_then_expect_outcome _ _ _ _ _ H3)
      as [(Hr & _) | (w3 & _ & _ & Hc & [(_ & Hv & _) | (Hr & _)])];
      try discriminate Hr.
    split; [|exact Hv].
    rewrite Hc, Hl2, H1. repeat rewrite <- app_assoc. reflexivity.
Qed.

End EntryFacts.

(** ** [setupEnvironmentVariables] *)

Section EnvironmentFacts.
Import GlobalSetup.

Lemma assign_same (env : Env) (name value : string) :
  assign env name value name = Some value.
Proof. unfold assign. rewrite String.eqb_refl. reflexivity. Qed.

Lemma assign_other (env : Env) (name value k : string) :
  k <> name -> assign env name value k = env k.
Proof.
  intros H. unfold assign. destruct (String.eqb_spec k name); congruence.
Qed.

Lemma or_string_truthy (o : option string) (dflt : string) :
  truthy_string o = true -> Some (or_string o dflt) = o.
Proof. destruct o as [[|a s]|]; simpl; congruence. Qed.

Lemma fill_if (c : bool) (env : Env) (name v k : string) :
  (if c then assign env name v else env) k
  = if c && String.eqb k name then Some v else env k.
Proof. unfold assign. destruct c; reflexivity. Qed.

Lemma fill_or (env : Env) (name v k : string) :
  assign env name (or_string (env name) v) k
  = if String.eqb k name
    then (if truthy_string (env name) then env name else Some v)
    else env k.
Proof.
  unfold assign. destruct (String.eqb k name); [|reflexivity].
  destruct (env name) as [[|a s]|]; reflexivity.
Qed.

Ltac env_cases :=
  repeat match goal with
         | |- context [truthy_string ?o] =>
             let T := fresh "T" in destruct (truthy_string o) eqn:T
         end;
  cbn [negb andb]; try reflexivity; try congruence.

(** The setup, variable by variable. *)
Lemma setup_pointwise (env : Env) (k : string) :
  setupEnvironmentVariables env k
  = if String.eqb k "EXPECT_TIMEOUT"
    then (if truthy_string (env "EXPECT_TIMEOUT") then env "EXPECT_TIMEOUT"
          else Some "10000")
    else if String.eqb k "TEST_TIMEOUT"
    then (if truthy_string (env "TEST_TIMEOUT") then env "TEST_TIMEOUT"
          else Some "30000")
    else if String.eqb k "NODE_ENV"
    then (if truthy_string (env "NODE_ENV") then env "NODE_ENV" else Some "test")
    else if String.eqb k "BASE_URL"
    then (if truthy_string (env "BASE_URL") then env "BASE_URL"
          else Some "https://example.com")
    else env k.
Proof.
  unfold setupEnvironmentVariables. cbv zeta.
  repeat (first [rewrite fill_or | rewrite fill_if]).
  cbn [String.eqb Ascii.eqb Bool.eqb andb].
  repeat rewrite Bool.andb_false_r.
  destruct (String.eqb_spec k "EXPECT_TIMEOUT") as [->|N4]; [reflexivity|].
  destruct (String.eqb_spec k "TEST_TIMEOUT") as [->|N3]; [reflexivity|].
  destruct (String.eqb_spec k "NODE_ENV") as [->|N2].
  { cbn [String.eqb Ascii.eqb Bool.eqb andb].
    repeat rewrite Bool.andb_false_r. repeat rewrite Bool.andb_true_r.
    env_cases. }
  repeat rewrite Bool.andb_false_r.
  destruct (String.eqb_spec k "BASE_URL") as [->|N1].
  { repeat rewrite Bool.andb_true_r. env_cases. }
  repeat rewrite Bool.andb_false_r. reflexivity.
Qed.

(** A variable that holds a non-empty value keeps it; so does a variable
    the setup does not know. *)
Lemma setup_keeps (env : Env) (k : string) :
  truthy_string (env k) = true
  \/ ~ In k ["BASE_URL"; "NODE_ENV"; "TEST_TIMEOUT"; "EXPECT_TIMEOUT"] ->
  setupEnvironmentVariables env k = env k.
Proof.
  intros Hk. rewrite setup_pointwise.
  repeat match goal with
         | |- context [String.eqb k ?name] =>
             destruct (String.eqb_spec k name) as [->|?];
             [destruct Hk as [T | N];
              [rewrite T; reflexivity | exfalso; apply N; cbn; auto]|]
         end.
  reflexivity.
Qed.

Lemma setup_sets (env : Env) (k : string) :
  In k ["BASE_URL"; "NODE_ENV"; "TEST_TIMEOUT"; "EXPECT_TIMEOUT"] ->
  truthy_string (setupEnvironmentVariables env k) = true.
Proof.
  intros Hin. rewrite setup_pointwise.
  destruct Hin as [<- | [<- | [<- | [<- | []]]]];
    cbn [String.eqb Ascii.eqb Bool.eqb];
    match goal with
    | |- context [truthy_string (env ?name)] =>
        destruct (truthy_string (env name)) eqn:T; [exact T | reflexivity]
    end.
Qed.

(** X16. [setupEnvironmentVariables] only fills in what is missing.  After
    it, [BASE_URL], [NODE_ENV], [TEST_TIMEOUT] and [EXPECT_TIMEOUT] all hold a
    non-empty value; a variable that held a non-empty value, and every
    variable other than these four, is as it was; and running the setup a
    second time changes nothing. *)
Theorem setupEnvironmentVariables_fills_defaults (env : Env) (k : string) :
  (In k ["BASE_URL"; "NODE_ENV"; "TEST_TIMEOUT"; "EXPECT_TIMEOUT"] ->
   truthy_string (setupEnvironmentVariables env k) = true)
  /\ (truthy_string (env k) = true
      \/ ~ In k ["BASE_URL"; "NODE_ENV"; "TEST_TIMEOUT"; "EXPECT_TIMEOUT"] ->
      setupEnvironmentVariables env k = env k)
  /\ setupEnvironmentVariables (setupEnvironmentVariables env) k
     = setupEnvironmentVariables env k.
Proof.
  split; [apply setup_sets|]. split; [apply setup_keeps|].
  apply setup_keeps.
  destruct (in_dec string_dec k
              ["BASE_URL"; "NODE_ENV"; "TEST_TIMEOUT"; "EXPECT_TIMEOUT"]) as [Hin|Hout].
  - left. apply setup_sets. exact Hin.
  - right. exact Hout.
Qed.

End EnvironmentFacts.

(** ** How the operations compose

    What one operation has seen, the next one finds only on a page that
    keeps it: the statements of this section say so. *)

Section CompositionFacts.
Context {U : Surface}.

(** X17. after a [logout] that has returned, on a page that stays off the
    dashboard once it has left it, [validateLogoutSuccess] does not wait and
    cannot time out: the path is free of ["/dashboard"] when its poll
    reaches the page, and the check passes or fails, with an assertion
    error, on whether the URL of that page contains ["/dashboard"]. *)
Theorem validateLogoutSuccess_after_logout (page_url : dom U -> string)
        (w w' : World U) :
  logout w = (Returned tt, w') ->
  stays (eval (pathname_excludes "/dashboard")) (page w') ->
  validateLogoutSuccess page_url w'
  = ((if includes "/dashboard" (page_url (page (as_found w')))
      then Thrown AssertionError else Returned tt),
     mkWorld (page (as_found w')) (clock (as_found w') + 0)
             (calls w' ++ [page_waitForFunction (pathname_excludes "/dashboard") 10000])).
Proof.
  unfold logout. intros H Hstays.
  apply bind_Returned in H. destruct H as ([] & w1 & _ & H).
  unfold Page_waitForFunction in H. apply poll_Returned in H.
  destruct H as (n & _ & Hat & _ & Hw').
  change URLs.DASHBOARD with "/dashboard" in *.
  assert (eval (pathname_excludes "/dashboard") (page (as_found w')) = true)
    as Hfree.
  { unfold as_found. cbn [page]. apply stays_seen; [exact Hstays|].
    rewrite Hw'. exact Hat. }
  unfold validateLogoutSuccess, Page_waitForFunction.
  change TIMEOUTS.MEDIUM with 10000. change URLs.DASHBOARD with "/dashboard".
  rewrite (bind_step _ _ _ _ _
             (poll_found (page_waitForFunction (pathname_excludes "/dashboard") 10000)
                TimeoutError (eval (pathname_excludes "/dashboard")) 10000
                (fun d => d) w' Hfree)).
  unfold getCurrentUrl, expect_not_toContain, bind. cbn [page].
  destruct (includes "/dashboard" (page_url (page (as_found w')))); reflexivity.
Qed.

(** X18. [validateErrorMessage] and [validateNoErrorMessage] exclude each
    other on a page that keeps the banner once it shows: after a
    [validateErrorMessage] that has returned, whatever the message it was
    given, [validateNoErrorMessage] fails with an assertion error. *)
Theorem validateNoErrorMessage_after_validateErrorMessage
        (expectedMessage : string) (w w' : World U) :
  validateErrorMessage expectedMessage w = (Returned tt, w') ->
  stays (is_visible errorMessage) (page w) ->
  fst (validateNoErrorMessage w') = Thrown AssertionError.
Proof.
  intros H Hstays. apply validateErrorMessage_Returned in H.
  destruct H as (_ & (n & Hv & Hpage) & _).
  assert (stays (is_visible errorMessage) (after_ms n (page w))) as Hs0
    by (apply stays_later; exact Hstays).
  pose proof (stays_seen _ _ Hs0 Hv) as Hv1.
  pose proof (stays_found _ _ Hs0) as Hs1.
  pose proof (stays_seen _ _ Hs1 Hv1) as Hv2.
  unfold validateNoErrorMessage. rewrite probe_then.
  assert (within (is_visible errorMessage) 1000 (page (as_found w')) = true) as ->.
  { apply within_at_once. unfold as_found. cbn [page]. rewrite Hpage. exact Hv2. }
  reflexivity.
Qed.

(** X19. when [openProfileDropdown] has returned, the logout control is on
    the page; on a page that keeps it once it shows, a [clickLogout] that
    follows and returns has gone straight to it: it has not clicked the
    dropdown, which a second click could close. *)
Theorem clickLogout_after_openProfileDropdown (w w1 w2 : World U) :
  openProfileDropdown w = (Returned tt, w1) ->
  stays (is_visible logoutButton) (page w1) ->
  clickLogout w1 = (Returned tt, w2) ->
  is_visible logoutButton (page w1) = true
  /\ calls w2 = calls w1 ++ [locator_waitFor logoutButton visible 1000;
                             locator_waitFor logoutButton visible 10000;
                             locator_click logoutButton].
Proof.
  intros H1 Hstays H2.
  apply openProfileDropdown_Returned in H1. destruct H1 as (_ & Hv).
  split; [exact Hv|]. apply clickLogout_Returned in H2.
  assert (within (is_visible logoutButton) 1000 (page (as_found w1)) = true) as Hseen.
  { apply within_at_once. unfold as_found. cbn [page]. apply stays_seen; assumption. }
  rewrite Hseen in H2. exact H2.
Qed.

End CompositionFacts.

(** ** The further theorems at work on the small application *)

Lemma demo_no_display_element (i : string) (d : Demo.Dom) :
  In i ["user-email-display"; "user-name-display"] ->
  Demo.shown (locatorTestIdAttr i) d = false.
Proof.
  intros [<- | [<- | []]]; unfold Demo.shown; cbn;
    destruct (String.eqb (Demo.path d) "/login");
    try reflexivity;
    destruct (String.eqb (Demo.path d) "/dashboard"); reflexivity.
Qed.

(** With no request in flight, the small application shows the same
    elements, under the same path, from one millisecond to the next. *)
Lemma demo_quiet_tick (d : Demo.Dom) :
  (Demo.in_flight d <=? 0) = true ->
  (Demo.in_flight (Demo.tick d) <=? 0) = true
  /\ Demo.path (Demo.tick d) = Demo.path d
  /\ forall l, Demo.shown l (Demo.tick d) = Demo.shown l d.
Proof.
  destruct d as [p e pw r b fl pe m a la pa]. unfold Demo.tick. cbn.
  intros H. rewrite H. cbn. auto.
Qed.

Lemma demo_quiet_after (n : nat) (d : Demo.Dom) :
  (Demo.in_flight d <=? 0) = true ->
  Demo.path (after_ms (U := Demo.app) n d) = Demo.path d
  /\ forall l, Demo.shown l (after_ms (U := Demo.app) n d) = Demo.shown l d.
Proof.
  revert d. induction n as [|n IH]; intros d H.
  - split; [reflexivity | intros l; reflexivity].
  - destruct (demo_quiet_tick d H) as (H1 & H2 & H3).
    destruct (IH _ H1) as (Hp & Hs). cbn [after_ms elapse Demo.app].
    split; [rewrite Hp; exact H2 | intros l; rewrite Hs; apply H3].
Qed.

Lemma demo_quiet_keeps_shown (l : Locator) (d : Demo.Dom) :
  (Demo.in_flight d <=? 0) = true -> stays (U := Demo.app) (is_visible l) d.
Proof.
  intros H n Hn.
  destruct (demo_quiet_after (S n) d H) as (_ & Hs).
  destruct (demo_quiet_after n d H) as (_ & Hs').
  change (Demo.shown l (after_ms (U := Demo.app) (S n) d) = true).
  change (Demo.shown l (after_ms (U := Demo.app) n d) = true) in Hn.
  rewrite Hs. rewrite <- Hs'. exact Hn.
Qed.

Lemma demo_quiet_keeps_path (p : string) (d : Demo.Dom) :
  (Demo.in_flight d <=? 0) = true ->
  stays (U := Demo.app) (eval (pathname_excludes p)) d.
Proof.
  intros H n Hn.
  destruct (demo_quiet_after (S n) d H) as (Hp & _).
  destruct (demo_quiet_after n d H) as (Hp' & _).
  change (negb (includes p (Demo.path (after_ms (U := Demo.app) (S n) d))) = true).
  change (negb (includes p (Demo.path (after_ms (U := Demo.app) n d))) = true) in Hn.
  rewrite Hp. rewrite <- Hp'. exact Hn.
Qed.

(** X3, at work. The toggle of the small application: it has none. *)
Lemma togglePasswordVisibility_absent_toggle_witness :
  within (is_visible showPasswordToggle) 1000 (page (as_found (Demo.login_page 0)))
  = false
  /\ fst (togglePasswordVisibility (Demo.login_page 0)) = Returned tt
  /\ calls (snd (togglePasswordVisibility (Demo.login_page 0)))
     = [locator_waitFor showPasswordToggle visible 1000].
Proof.
  assert (within (is_visible showPasswordToggle) 1000
                 (page (as_found (Demo.login_page 0)))
          = false) as Habsent by by_run.
  destruct (togglePasswordVisibility_absent_toggle (Demo.login_page 0))
    as (Hnoop & _).
  rewrite (Hnoop Habsent). repeat split; assumption || reflexivity.
Defined.

(** X4, at work. The dashboard of the small application shows no user name:
    the name it displays is the empty string. *)
Lemma getDisplayed_outcome_witness :
  In (@getDisplayedUserName Demo.app, userNameDisplay)
     [(getDisplayedUserName, userNameDisplay);
      (getDisplayedUserEmail, userEmailDisplay)]
  /\ within (is_visible userNameDisplay) 1000
            (page (as_found (Demo.dashboard false false))) = false
  /\ fst (getDisplayedUserName (Demo.dashboard false false)) = Returned "".
Proof.
  assert (In (@getDisplayedUserName Demo.app, userNameDisplay)
             [(getDisplayedUserName, userNameDisplay);
              (getDisplayedUserEmail, userEmailDisplay)]) as Hin
    by (left; reflexivity).
  assert (within (is_visible userNameDisplay) 1000
                 (page (as_found (Demo.dashboard false false))) = false) as Habsent
    by by_run.
  pose proof (getDisplayed_outcome _ _ Hin (Demo.dashboard false false)) as H.
  cbv zeta in H. destruct H as (Hempty & _).
  split; [exact Hin|]. split; [exact Habsent|].
  rewrite (Hempty Habsent). reflexivity.
Defined.

(** X5, at work. An empty expected message asserts that the hint is absent. *)
Lemma field_validation_outcome_witness :
  In (@validateEmailValidation Demo.app, emailValidation)
     [(validateEmailValidation, emailValidation);
      (validatePasswordValidation, passwordValidation)]
  /\ fst (validateEmailValidation (Some "") (Demo.login_page 0)) = Returned tt.
Proof.
  assert (In (@validateEmailValidation Demo.app, emailValidation)
             [(validateEmailValidation, emailValidation);
              (validatePasswordValidation, passwordValidation)]) as Hin
    by (left; reflexivity).
  split; [exact Hin|].
  destruct (field_validation_outcome _ _ Hin (Some "") (Demo.login_page 0))
    as (Hempty & _).
  rewrite (Hempty eq_refl). by_run.
Defined.

(** X9, at work. Signing out of the small application when the login URL
    names the page to come back to: the path is clean, the URL is not. *)
Lemma validateLogoutSuccess_outcome_witness :
  fst (logout (Demo.dashboard false true)) = Returned tt
  /\ fst (validateLogoutSuccess DemoLocation.plain
            (snd (logout (Demo.dashboard false true)))) = Returned tt
  /\ fst (validateLogoutSuccess DemoLocation.with_return_to
            (snd (logout (Demo.dashboard false true)))) = Thrown AssertionError.
Proof.
  destruct (validateLogoutSuccess_outcome DemoLocation.plain
              (snd (logout (Demo.dashboard false true)))) as (Hplain & _).
  destruct (validateLogoutSuccess_outcome DemoLocation.with_return_to
              (snd (logout (Demo.dashboard false true)))) as (Hquery & _).
  rewrite Hplain, Hquery. repeat split; by_run.
Defined.

(** X10, at work. The dashboard of the small application shows no email or
    name display: expecting values for them fails nothing. *)
Lemma validateUserProfileInfo_best_effort_witness :
  (forall d, is_visible (U := Demo.app) userEmailDisplay d = false)
  /\ (forall d, is_visible (U := Demo.app) userNameDisplay d = false)
  /\ fst (validateUserProfileInfo (Some "test@example.com") (Some "Test User")
            (Demo.dashboard false false)) = Returned tt.
Proof.
  assert (forall d, is_visible (U := Demo.app) userEmailDisplay d = false) as He
    by (intros d; apply demo_no_display_element; cbn; auto).
  assert (forall d, is_visible (U := Demo.app) userNameDisplay d = false) as Hn
    by (intros d; apply demo_no_display_element; cbn; auto).
  destruct (validateUserProfileInfo_best_effort (Some "test@example.com")
              (Some "Test User") (Demo.dashboard false false)) as (_ & _ & Habsent).
  split; [exact He|]. split; [exact Hn|].
  rewrite (Habsent He Hn). by_run.
Defined.

(** X11, at work. Going to the profile page with the dropdown closed. *)
Lemma dropdown_navigation_witness :
  In (@navigateToProfile Demo.app, profileLink)
     [(navigateToProfile, profileLink); (navigateToSettings, settingsLink)]
  /\ navigateToProfile (Demo.dashboard false false)
     = (Returned tt, snd (navigateToProfile (Demo.dashboard false false)))
  /\ within (is_visible profileLink) 1000
            (page (as_found (Demo.dashboard false false))) = false
  /\ reached domcontentloaded
       (page (snd (navigateToProfile (Demo.dashboard false false)))) = true.
Proof.
  assert (In (@navigateToProfile Demo.app, profileLink)
             [(navigateToProfile, profileLink); (navigateToSettings, settingsLink)])
    as Hin by (left; reflexivity).
  assert (navigateToProfile (Demo.dashboard false false)
          = (Returned tt, snd (navigateToProfile (Demo.dashboard false false))))
    as Hrun by by_run.
  destruct (dropdown_navigation _ _ Hin _ _ Hrun) as (_ & Hdom).
  split; [exact Hin|]. split; [exact Hrun|]. split; [by_run | exact Hdom].
Defined.

(** X12, at work. A dashboard whose loading indicator never goes away: the
    wait for the dashboard throws, where [waitForLoadingToComplete] would
    return. *)
Lemma waitForDashboardToLoad_outcome_witness :
  (waitForPageLoad None ;; validateDashboardIsLoaded) StuckIndicator.dashboard
  = (Returned tt,
     snd ((waitForPageLoad None ;; validateDashboardIsLoaded)
            StuckIndicator.dashboard))
  /\ fst (waitForDashboardToLoad StuckIndicator.dashboard) = Thrown TimeoutError.
Proof.
  assert ((waitForPageLoad None ;; validateDashboardIsLoaded) StuckIndicator.dashboard
          = (Returned tt,
             snd ((waitForPageLoad None ;; validateDashboardIsLoaded)
                    StuckIndicator.dashboard))) as Hloaded by by_run.
  destruct (waitForDashboardToLoad_outcome _ _ Hloaded) as (Hout & _).
  split; [exact Hloaded|]. rewrite Hout. by_run.
Defined.

(** X13, at work. The remember-me test passes on the small application. *)
Lemma remember_me_test_assertions_hold_witness :
  CheckboxLaws Demo.app
  /\ LoginSpec.should_remember_me_checkbox_work_correctly (Demo.login_page 0)
     = (Returned tt,
        snd (LoginSpec.should_remember_me_checkbox_work_correctly (Demo.login_page 0)))
  /\ is_checked rememberMeCheckbox
       (page (snd (LoginSpec.should_remember_me_checkbox_work_correctly
                     (Demo.login_page 0)))) = false.
Proof.
  assert (LoginSpec.should_remember_me_checkbox_work_correctly (Demo.login_page 0)
          = (Returned tt,
             snd (LoginSpec.should_remember_me_checkbox_work_correctly
                    (Demo.login_page 0)))) as Hrun by by_run.
  split; [exact demo_checkbox_laws|]. split; [exact Hrun|].
  destruct (remember_me_test_assertions_hold demo_checkbox_laws _ _ _ Hrun)
    as [(_ & Hoff) | Hfail]; [exact Hoff | discriminate Hfail].
Defined.

(** X14, at work. A quick login without the remember-me argument, on a form
    whose box is checked: the box stays checked. *)
Lemma quickLogin_remember_me_witness :
  CheckboxLaws Demo.app /\ CheckboxFrame Demo.app
  /\ is_checked rememberMeCheckbox (page Scenario.filled) = true
  /\ quickLogin "test@example.com" "ValidPassword123!" None Scenario.filled
     = (Returned tt,
        snd (quickLogin "test@example.com" "ValidPassword123!" None Scenario.filled))
  /\ is_checked rememberMeCheckbox
       (page (snd (quickLogin "test@example.com" "ValidPassword123!" None
                     Scenario.filled))) = true.
Proof.
  assert (quickLogin "test@example.com" "ValidPassword123!" None Scenario.filled
          = (Returned tt,
             snd (quickLogin "test@example.com" "ValidPassword123!" None
                    Scenario.filled))) as Hrun by by_run.
  split; [exact demo_checkbox_laws|]. split; [exact demo_checkbox_frame|].
  split; [by_run|]. split; [exact Hrun|].
  rewrite (quickLogin_remember_me demo_checkbox_laws demo_checkbox_frame
             _ _ _ _ _ Hrun).
  by_run.
Defined.

(** X15, at work. Entering the small application by its login page, with
    no base URL given and none in the environment. *)
Lemma navigation_entry_barriers_witness :
  navigateToLogin None None (Demo.login_page 0)
  = (Returned tt, snd (navigateToLogin None None (Demo.login_page 0)))
  /\ calls (snd (navigateToLogin None None (Demo.login_page 0)))
     = [page_goto "https://example.com/login" networkidle 30000;
        page_waitForLoadState networkidle 30000;
        page_waitForLoadState domcontentloaded 30000;
        locator_waitFor loginForm visible 10000;
        expect_toBeVisible loginForm;
        expect_toBeVisible emailInput;
        expect_toBeVisible passwordInput;
        expect_toBeVisible loginButton]
  /\ is_visible loginButton (page (snd (navigateToLogin None None (Demo.login_page 0))))
     = true.
Proof.
  assert (navigateToLogin None None (Demo.login_page 0)
          = (Returned tt, snd (navigateToLogin None None (Demo.login_page 0))))
    as Hrun by by_run.
  destruct (navigation_entry_barriers None None (Demo.login_page 0)
              (snd (navigateToLogin None None (Demo.login_page 0)))) as (Hlogin & _).
  destruct (Hlogin Hrun) as (Hcalls & Hv).
  split; [exact Hrun|]. split; [exact Hcalls | exact Hv].
Defined.

(** X17, at work. Signing out of the small application, which then stays on
    its login page, and checking the sign-out against a URL that names the
    page to come back to. *)
Lemma validateLogoutSuccess_after_logout_witness :
  logout (Demo.dashboard false false)
  = (Returned tt, snd (logout (Demo.dashboard false false)))
  /\ stays (eval (pathname_excludes "/dashboard"))
           (page (snd (logout (Demo.dashboard false false))))
  /\ fst (validateLogoutSuccess DemoLocation.with_return_to
            (snd (logout (Demo.dashboard false false)))) = Thrown AssertionError.
Proof.
  assert (logout (Demo.dashboard false false)
          = (Returned tt, snd (logout (Demo.dashboard false false)))) as Hrun
    by by_run.
  assert (stays (eval (pathname_excludes "/dashboard"))
                (page (snd (logout (Demo.dashboard false false))))) as Hstays
    by (apply demo_quiet_keeps_path; by_run).
  split; [exact Hrun|]. split; [exact Hstays|].
  rewrite (validateLogoutSuccess_after_logout DemoLocation.with_return_to _ _
             Hrun Hstays).
  by_run.
Defined.

(** X18, at work. A wrong password on the small application, answered at
    once: the banner is validated, it stays, and the check for no banner
    then fails. *)
Lemma validateNoErrorMessage_after_validateErrorMessage_witness :
  validateErrorMessage "Invalid email or password"
    (snd (login Demo.WRONG_PASSWORD (Demo.login_page 0)))
  = (Returned tt,
     snd (validateErrorMessage "Invalid email or password"
            (snd (login Demo.WRONG_PASSWORD (Demo.login_page 0)))))
  /\ stays (is_visible errorMessage)
           (page (snd (login Demo.WRONG_PASSWORD (Demo.login_page 0))))
  /\ fst (validateNoErrorMessage
            (snd (validateErrorMessage "Invalid email or password"
                    (snd (login Demo.WRONG_PASSWORD (Demo.login_page 0))))))
     = Thrown AssertionError.
Proof.
  assert (validateErrorMessage "Invalid email or password"
            (snd (login Demo.WRONG_PASSWORD (Demo.login_page 0)))
          = (Returned tt,
             snd (validateErrorMessage "Invalid email or password"
                    (snd (login Demo.WRONG_PASSWORD (Demo.login_page 0))))))
    as Hrun by by_run.
  assert (stays (is_visible errorMessage)
                (page (snd (login Demo.WRONG_PASSWORD (Demo.login_page 0)))))
    as Hstays by (apply demo_quiet_keeps_shown; by_run).
  split; [exact Hrun|]. split; [exact Hstays|].
  exact (validateNoErrorMessage_after_validateErrorMessage _ _ _ Hrun Hstays).
Defined.

(** X19, at work. Opening the dropdown of the small application, which
    stays open, then signing out. *)
Lemma clickLogout_after_openProfileDropdown_witness :
  openProfileDropdown (Demo.dashboard false false)
  = (Returned tt, snd (openProfileDropdown (Demo.dashboard false false)))
  /\ stays (is_visible logoutButton)
           (page (snd (openProfileDropdown (Demo.dashboard false false))))
  /\ clickLogout (snd (openProfileDropdown (Demo.dashboard false false)))
     = (Returned tt,
        snd (clickLogout (snd (openProfileDropdown (Demo.dashboard false false)))))
  /\ calls (snd (clickLogout (snd (openProfileDropdown (Demo.dashboard false false)))))
     = calls (snd (openProfileDropdown (Demo.dashboard false false)))
       ++ [locator_waitFor logoutButton visible 1000;
           locator_waitFor logoutButton visible 10000;
           locator_click logoutButton].
Proof.
  assert (openProfileDropdown (Demo.dashboard false false)
          = (Returned tt, snd (openProfileDropdown (Demo.dashboard false false))))
    as H1 by by_run.
  assert (stays (is_visible logoutButton)
                (page (snd (openProfileDropdown (Demo.dashboard false false)))))
    as Hstays by (apply demo_quiet_keeps_shown; by_run).
  assert (clickLogout (snd (openProfileDropdown (Demo.dashboard false false)))
          = (Returned tt,
             snd (clickLogout (snd (openProfileDropdown (Demo.dashboard false false))))))
    as H2 by by_run.
  destruct (clickLogout_after_openProfileDropdown _ _ _ H1 Hstays H2) as (_ & Hlog).
  split; [exact H1|]. split; [exact Hstays|]. split; [exact H2 | exact Hlog].
Defined.

(** X20, at work. Valid credentials submitted to a server that answers
    after two milliseconds: the wait of [validateLoadingSpinner] still sees
    the spinner, the assertion that follows comes too late, and the
    validator fails with an assertion error. *)
Lemma wait_then_assert_validators_witness :
  In (@validateLoadingSpinner Demo.app, loadingSpinner, 5000)
     [(validateLoadingSpinner, loadingSpinner, 5000);
      (validateDashboardIsLoaded, dashboardHeader, 10000)]
  /\ waitForElement loadingSpinner (Some 5000)
       (snd (login Demo.STANDARD_USER (Demo.login_page 2)))
     = (Returned tt,
        snd (waitForElement loadingSpinner (Some 5000)
               (snd (login Demo.STANDARD_USER (Demo.login_page 2)))))
  /\ fst (validateLoadingSpinner (snd (login Demo.STANDARD_USER (Demo.login_page 2))))
     = Thrown AssertionError.
Proof.
  assert (In (@validateLoadingSpinner Demo.app, loadingSpinner, 5000)
             [(validateLoadingSpinner, loadingSpinner, 5000);
              (validateDashboardIsLoaded, dashboardHeader, 10000)]) as Hin
    by (left; reflexivity).
  assert (waitForElement loadingSpinner (Some 5000)
            (snd (login Demo.STANDARD_USER (Demo.login_page 2)))
          = (Returned tt,
             snd (waitForElement loadingSpinner (Some 5000)
                    (snd (login Demo.STANDARD_USER (Demo.login_page 2))))))
    as Hseen by by_run.
  destruct (wait_then_assert_validators _ _ _ Hin
              (snd (login Demo.STANDARD_USER (Demo.login_page 2))))
    as (_ & Hassert & _).
  split; [exact Hin|]. split; [exact Hseen|].
  rewrite (Hassert _ Hseen). by_run.
Defined.
